(** * Benchmark runner: the suite/benchmark execution engine

    A shallow embedding of [src/benchmarks/python/benchmark_runner.py]
    ([run_benchmark], [run_suite], [main]) together with the properties the
    specification states about it.

    Modelling conventions.
    - Python floats are IEEE-754 binary64 values, taken from the Standard
      Library's executable specification [SpecFloat] ([prec = 53],
      [emax = 1024]); Python ints are [Z].
    - Benchmarked callables, the wall clock and [datetime.now()] act on an
      abstract external [World]; the engine threads it explicitly.
    - Exceptions are values of [outcome]; [try]/[except Exception] is
      [try_catch].  Only exceptions derived from [Exception] are modelled
      ([KeyboardInterrupt] and [SystemExit] are not).  [print] only writes
      to standard output and is not modelled; opening a file for writing
      is taken to succeed.
    - Objects that the source shares by reference (the suite definition with
      its benchmark dictionaries, the options dictionary) live in a heap.
    - Every call of a setup, operation, callback or cleanup callable is
      recorded in the trace of the computation, so that calls can be counted. *)

From Stdlib Require Import ZArith Lia Floats Ascii String.
From stdpp Require Import base list strings gmap sorting.

Local Open Scope Z_scope.
Local Set Warnings "-register-all".

(** ** Python values, exceptions *)

Definition py_float : Type := spec_float.

Inductive pyval : Type :=
  | PyNone
  | PyBool (b : bool)
  | PyInt (z : Z)
  | PyFloat (f : py_float)
  | PyStr (s : string)
  | PyList (l : list pyval)
  | PyDict (d : list (string * pyval)).

(** A dictionary with string keys, in insertion order. *)
Definition pydict : Type := list (string * pyval).

Fixpoint dict_get (d : pydict) (k : string) : option pyval :=
  match d with
  | [] => None
  | (k', v) :: d' => if String.eqb k k' then Some v else dict_get d' k
  end.

Definition dict_keys (d : pydict) : list string := map fst d.

(** [x is None] *)
Definition is_none (v : pyval) : bool :=
  match v with PyNone => true | _ => false end.

(** An exception instance: its class name, [str(e)], and the traceback text
    that [traceback.format_exc()] prints for it. *)
Record exn : Type := mk_exn {
  exn_type : string;
  exn_msg : string;
  exn_trace : string
}.

Inductive outcome (A : Type) : Type :=
  | Ok (a : A)
  | Raise (e : exn).
Arguments Ok {A} a.
Arguments Raise {A} e.

Definition is_ok {A} (r : outcome A) : bool :=
  match r with Ok _ => true | Raise _ => false end.

Definition builtin_error (type msg : string) : exn :=
  {| exn_type := type; exn_msg := msg;
     exn_trace := "Traceback (most recent call last): " +:+ type +:+ ": " +:+ msg |}.

Definition ZeroDivisionError : exn := builtin_error "ZeroDivisionError" "division by zero".
Definition IndexError : exn := builtin_error "IndexError" "list index out of range".
Definition IntTooLarge : exn :=
  builtin_error "OverflowError" "int too large to convert to float".
Definition FloatInfToInt : exn :=
  builtin_error "OverflowError" "cannot convert float infinity to integer".
Definition FloatNanToInt : exn :=
  builtin_error "ValueError" "cannot convert float NaN to integer".
Definition DumpArityError : exn :=
  builtin_error "TypeError" "dump() takes 2 positional arguments but 3 were given".
Definition NoWriteAttribute : exn :=
  builtin_error "AttributeError" "'NoneType' object has no attribute 'write'".
Definition DanglingReference : exn :=
  builtin_error "TypeError" "object is not subscriptable".

(** ** Binary64 arithmetic as Python performs it *)

Definition float_add : py_float -> py_float -> py_float := SFadd prec emax.
Definition float_sub : py_float -> py_float -> py_float := SFsub prec emax.
Definition float_mul : py_float -> py_float -> py_float := SFmul prec emax.
Definition float_div : py_float -> py_float -> py_float := SFdiv prec emax.
Definition float_lt : py_float -> py_float -> bool := SFltb.
Definition float_le : py_float -> py_float -> bool := SFleb.

Definition is_nan (x : py_float) : bool :=
  match x with S754_nan => true | _ => false end.

(** The literal [0.95]: the binary64 value nearest to 95/100,
    [0x1.e666666666666p-1]. *)
Definition c095_m : positive := 8556839292003942.
Definition c095 : py_float := S754_finite false c095_m (-53).

(** [float(n)] for a Python int: round to nearest, ties to even;
    [OverflowError] when the result is not finite. *)
Definition float_of_int (n : Z) : outcome py_float :=
  match binary_normalize prec emax n 0 false with
  | S754_infinity _ => Raise IntTooLarge
  | f => Ok f
  end.

(** The literal [1000] in [(end_time - start_time) * 1000], converted. *)
Definition f1000 : py_float := Eval vm_compute in binary_normalize prec emax 1000 0 false.

(** [int(x)] for a float: truncation towards zero. *)
Definition py_int_of_float (x : py_float) : outcome Z :=
  match x with
  | S754_zero _ => Ok 0
  | S754_finite s m e =>
      let a := if 0 <=? e then Z.pos m * 2 ^ e else Z.pos m / 2 ^ (- e) in
      Ok (if s then - a else a)
  | S754_infinity _ => Raise FloatInfToInt
  | S754_nan => Raise FloatNanToInt
  end.

(** [int(iterations * 0.95)] *)
Definition p95_index (iterations : Z) : outcome Z :=
  match float_of_int iterations with
  | Ok f => py_int_of_float (float_mul f c095)
  | Raise e => Raise e
  end.

(** ** Lists: [sorted], [sum], indexing *)

(** [sorted(times)]: the stable ascending sort, by [<].  On a list without
    NaN every stable sort returns this list. *)
Fixpoint insert_sorted (x : py_float) (l : list py_float) : list py_float :=
  match l with
  | [] => [x]
  | y :: l' => if float_lt y x then y :: insert_sorted x l' else x :: y :: l'
  end.

Definition py_sorted (l : list py_float) : list py_float :=
  foldr insert_sorted [] l.

(** [l[i]] with Python's negative indices and [IndexError]. *)
Definition py_getitem {A} (l : list A) (i : Z) : outcome A :=
  let j := if i <? 0 then i + Z.of_nat (length l) else i in
  if j <? 0 then Raise IndexError
  else match l !! Z.to_nat j with
       | Some x => Ok x
       | None => Raise IndexError
       end.

(** [sum] over floats as CPython up to 3.11 computes it: start from the int
    [0], switch to a double accumulator at the first float, add left to
    right. *)
Definition sum_left_to_right (l : list py_float) : py_float :=
  foldl float_add (S754_zero false) l.

(** [sum] over floats as CPython from 3.12 computes it: Neumaier's
    compensated summation. *)
Definition neumaier_step (acc : py_float * py_float) (x : py_float)
    : py_float * py_float :=
  let '(f_result, c) := acc in
  let t := float_add f_result x in
  let c' :=
    if float_le (SFabs x) (SFabs f_result)
    then float_add c (float_add (float_sub f_result t) x)
    else float_add c (float_add (float_sub x t) f_result) in
  (t, c').

Definition is_finite_nonzero (x : py_float) : bool :=
  match x with S754_finite _ _ _ => true | _ => false end.

Definition sum_compensated (l : list py_float) : py_float :=
  match l with
  | [] => S754_zero false
  | x0 :: rest =>
      let '(f_result, c) :=
        foldl neumaier_step (float_add (S754_zero false) x0, S754_zero false) rest in
      if is_finite_nonzero c then float_add f_result c else f_result
  end.

(** ** The interpreter and the outside world *)

(** What the engine needs from its environment: the wall clock
    ([time.time()]), [datetime.now().isoformat()], and the float summation
    routine of the builtin [sum]. *)
Class Runtime (World : Type) : Type := {
  time_time : World -> py_float * World;
  now_isoformat : World -> string * World;
  float_sum : list py_float -> py_float
}.

(** A Python callable: what evaluating its [__name__] gives, and the
    effect of calling it with positional arguments.  A function has a
    [__name__]; a [functools.partial] object, or an instance with a
    [__call__] method, has none, and [fn.__name__] raises
    [AttributeError]. *)
Record callable (World : Type) : Type := mk_callable {
  c_name : outcome string;
  c_call : list pyval -> World -> outcome pyval * World
}.
Arguments mk_callable {World} c_name c_call.
Arguments c_name {World} c.
Arguments c_call {World} c args w.

(** A benchmark dictionary of a suite: [name] and [fn] are required keys,
    the others may be absent. *)
Record benchmark (World : Type) : Type := mk_benchmark {
  b_name : string;
  b_fn : callable World;
  b_iterations : option Z;
  b_setup : option (callable World);
  b_cleanup : option (callable World)
}.
Arguments mk_benchmark {World} b_name b_fn b_iterations b_setup b_cleanup.
Arguments b_name {World} b.
Arguments b_fn {World} b.
Arguments b_iterations {World} b.
Arguments b_setup {World} b.
Arguments b_cleanup {World} b.

Record suite_def (World : Type) : Type := mk_suite {
  s_name : string;
  s_description : option string;
  s_benchmarks : list (benchmark World)
}.
Arguments mk_suite {World} s_name s_description s_benchmarks.
Arguments s_name {World} s.
Arguments s_description {World} s.
Arguments s_benchmarks {World} s.

(** The options dictionary of [run_suite]; [None] is an absent key. *)
Record run_options : Type := mk_run_options {
  opt_warmup : option bool;
  opt_verbose : option bool;
  opt_save_file : option string;
  opt_save_individual : option bool
}.

Definition no_options : run_options :=
  {| opt_warmup := None; opt_verbose := None;
     opt_save_file := None; opt_save_individual := None |}.

(** The options dictionary of [run_benchmark]. *)
Record bench_options (World : Type) : Type := mk_bench_options {
  bo_name : option string;
  bo_warmup : option bool;
  bo_progress : option bool;
  bo_save_file : option string;
  bo_on_iteration : option (callable World)
}.
Arguments mk_bench_options {World} bo_name bo_warmup bo_progress bo_save_file bo_on_iteration.
Arguments bo_name {World} b.
Arguments bo_warmup {World} b.
Arguments bo_progress {World} b.
Arguments bo_save_file {World} b.
Arguments bo_on_iteration {World} b.

(** Truth value of [d.get(key, default)] for a boolean entry. *)
Definition get_bool (default : bool) (v : option bool) : bool :=
  match v with Some b => b | None => default end.

(** Truth value of [d.get(key)] for a string entry: absent and [""] are
    falsy. *)
Definition truthy_string (v : option string) : option string :=
  match v with
  | Some s => if String.eqb s "" then None else Some s
  | None => None
  end.

(** *** Calls, as they are observed *)

Inductive role : Type := RSetup | RWarmup | RMeasure | RCallback | RCleanup.

Record event : Type := mk_event {
  ev_role : role;
  ev_args : list pyval;
  ev_result : outcome pyval
}.

Definition is_operation (r : role) : bool :=
  match r with RWarmup | RMeasure => true | _ => false end.

Definition is_cleanup (r : role) : bool :=
  match r with RCleanup => true | _ => false end.

(** Arguments of the cleanup calls of a trace, in order. *)
Definition cleanup_calls (tr : list event) : list (list pyval) :=
  map ev_args (filter (fun ev => is_cleanup (ev_role ev) = true) tr).

(** Operation calls (warmup or measured) of a trace. *)
Definition operation_calls (tr : list event) : list event :=
  filter (fun ev => is_operation (ev_role ev) = true) tr.

(** Some operation call of the trace raised [e]. *)
Definition operation_raised (e : exn) (tr : list event) : Prop :=
  exists ev, ev ∈ tr /\ is_operation (ev_role ev) = true /\ ev_result ev = Raise e.

(** *** Files and the heap *)

Inductive file_content : Type :=
  | FileEmpty
  | FileJson (doc : pyval) (indent : option Z).

Definition loc : Type := positive.

Inductive object (World : Type) : Type :=
  | OSuite (s : suite_def World)
  | OOptions (o : run_options).
Arguments OSuite {World} s.
Arguments OOptions {World} o.

Record rstate (World : Type) : Type := mk_rstate {
  st_world : World;
  st_files : gmap string file_content;
  st_heap : gmap loc (object World);
  st_modules : gmap string loc
}.
Arguments mk_rstate {World} st_world st_files st_heap st_modules.
Arguments st_world {World} r.
Arguments st_files {World} r.
Arguments st_heap {World} r.
Arguments st_modules {World} r.

(** ** The engine monad: state, exceptions, trace *)

Definition M (World A : Type) : Type :=
  rstate World -> outcome A * rstate World * list event.

Definition out {World A} (x : outcome A * rstate World * list event) : outcome A :=
  x.1.1.
Definition final {World A} (x : outcome A * rstate World * list event) : rstate World :=
  x.1.2.
Definition trace {World A} (x : outcome A * rstate World * list event) : list event :=
  x.2.

Definition ret {World A} (a : A) : M World A := fun s => (Ok a, s, []).

Definition raise {World A} (e : exn) : M World A := fun s => (Raise e, s, []).

Definition lift {World A} (r : outcome A) : M World A := fun s => (r, s, []).

Definition bind {World A B} (m : M World A) (k : A -> M World B) : M World B :=
  fun s =>
    match m s with
    | (Ok a, s1, t1) => let '(r, s2, t2) := k a s1 in (r, s2, t1 ++ t2)
    | (Raise e, s1, t1) => (Raise e, s1, t1)
    end.

(** [try: m except Exception as e: h e] *)
Definition try_catch {World A} (m : M World A) (h : exn -> M World A) : M World A :=
  fun s =>
    match m s with
    | (Ok a, s1, t1) => (Ok a, s1, t1)
    | (Raise e, s1, t1) => let '(r, s2, t2) := h e s1 in (r, s2, t1 ++ t2)
    end.

Notation "'let*' x ':=' m 'in' k" := (bind m (fun x => k))
  (at level 10, x name, m at level 100, k at level 200).

(** Sequencing in [outcome], for the pure parts. *)
Definition obind {A B} (r : outcome A) (k : A -> outcome B) : outcome B :=
  match r with Ok a => k a | Raise e => Raise e end.

Notation "'let?' x ':=' r 'in' k" := (obind r (fun x => k))
  (at level 10, x name, r at level 100, k at level 200).

Definition set_world {World} (w : World) (s : rstate World) : rstate World :=
  {| st_world := w; st_files := st_files s; st_heap := st_heap s;
     st_modules := st_modules s |}.

Definition set_files {World} (f : gmap string file_content) (s : rstate World)
    : rstate World :=
  {| st_world := st_world s; st_files := f; st_heap := st_heap s;
     st_modules := st_modules s |}.

Definition set_heap {World} (h : gmap loc (object World)) (s : rstate World)
    : rstate World :=
  {| st_world := st_world s; st_files := st_files s; st_heap := h;
     st_modules := st_modules s |}.

(** Calling a callable: the world changes, the call is recorded. *)
Definition invoke {World} (r : role) (c : callable World) (args : list pyval)
    : M World pyval :=
  fun s =>
    let '(res, w) := c_call c args (st_world s) in
    (res, set_world w s, [mk_event r args res]).

(** [open(RESULTS_DIR / name, "w")]: the file exists and is empty.  The
    results directory is created when the module is loaded (line 33); the
    name is taken to be one the file system accepts, so that [open] does
    not raise [OSError]. *)
Definition open_w {World} (name : string) : M World unit :=
  fun s => (Ok tt, set_files (<[name := FileEmpty]> (st_files s)) s, []).

Definition write_json {World} (name : string) (doc : pyval) (indent : option Z)
    : M World unit :=
  fun s => (Ok tt, set_files (<[name := FileJson doc indent]> (st_files s)) s, []).

(** [json.dump(obj, fp, *extra, indent=indent)].  The signature is
    [dump(obj, fp, *, skipkeys=False, ..., indent=None, ...)]: everything
    after [fp] is keyword-only, so a third positional argument is a
    [TypeError] raised before anything is written. *)
Definition json_dump {World} (obj : pyval) (fp : option string)
    (extra_positional : list pyval) (indent : option Z) : M World unit :=
  match extra_positional with
  | _ :: _ => raise DumpArityError
  | [] =>
      match fp with
      | None => raise NoWriteAttribute
      | Some name => write_json name obj indent
      end
  end.

Definition deref_suite {World} (l : loc) : M World (suite_def World) :=
  fun s =>
    match st_heap s !! l with
    | Some (OSuite d) => (Ok d, s, [])
    | _ => (Raise DanglingReference, s, [])
    end.

Definition deref_options {World} (l : loc) : M World run_options :=
  fun s =>
    match st_heap s !! l with
    | Some (OOptions o) => (Ok o, s, [])
    | _ => (Raise DanglingReference, s, [])
    end.

Definition store {World} (l : loc) (o : object World) : M World unit :=
  fun s => (Ok tt, set_heap (<[l := o]> (st_heap s)) s, []).

Definition alloc {World} (o : object World) : M World loc :=
  fun s =>
    let l := fresh (dom (st_heap s)) in
    (Ok l, set_heap (<[l := o]> (st_heap s)) s, []).

Definition lookup_module {World} (name : string) : M World (option loc) :=
  fun s => (Ok (st_modules s !! name), s, []).

(** ** Strings: [replace(' ', '_')] and [lower()] on ASCII names *)

(** A string is a sequence of bytes.  For a name of ASCII characters the
    bytes are the characters of the Python [str], and [lower()] changes the
    letters [A] to [Z] only; the statements about file names are about
    such names. *)

Fixpoint string_map (f : Ascii.ascii -> Ascii.ascii) (s : string) : string :=
  match s with
  | EmptyString => EmptyString
  | String c s' => String (f c) (string_map f s')
  end.

Definition space_to_underscore (c : Ascii.ascii) : Ascii.ascii :=
  if Ascii.eqb c " "%char then "_"%char else c.

Definition ascii_lower (c : Ascii.ascii) : Ascii.ascii :=
  let n := Ascii.nat_of_ascii c in
  if ((65 <=? n) && (n <=? 90))%nat then Ascii.ascii_of_nat (n + 32) else c.

(** [f"{suite_name}_{name.replace(' ', '_').lower()}.json"] *)
Definition individual_file_name (suite_name name : string) : string :=
  suite_name +:+ "_" +:+ string_map ascii_lower (string_map space_to_underscore name)
    +:+ ".json".

(** [options.get("name", fn.__name__)]: the default is an argument of the
    call, so [fn.__name__] is evaluated whether or not the key is there. *)
Definition result_name {World} (options : bench_options World) (fn : callable World)
    : outcome string :=
  let? fname := c_name fn in
  Ok (match bo_name options with Some n => n | None => fname end).

(** ** The runner *)

Section Engine.
Context {World : Type} `{!Runtime World}.

(** [time.time()] *)
Definition clock : M World py_float :=
  fun s => let '(t, w) := time_time (st_world s) in (Ok t, set_world w s, []).

(** [datetime.now().isoformat()] *)
Definition now : M World string :=
  fun s => let '(t, w) := now_isoformat (st_world s) in (Ok t, set_world w s, []).

(** [sum(times)]: the int [0] for an empty list, else a float. *)
Definition py_sum (times : list py_float) : pyval :=
  match times with
  | [] => PyInt 0
  | _ :: _ => PyFloat (float_sum times)
  end.

(** [total_time / iterations], where [total_time] comes from [py_sum]. *)
Definition py_true_div (total : pyval) (n : Z) : outcome py_float :=
  match total with
  | PyFloat t =>
      if n =? 0 then Raise (builtin_error "ZeroDivisionError" "float division by zero")
      else let? d := float_of_int n in Ok (float_div t d)
  | PyInt 0 =>
      if n =? 0 then Raise ZeroDivisionError else Ok (S754_zero (n <? 0))
  | _ => Raise (builtin_error "TypeError" "unsupported operand type(s) for /")
  end.

(** Lines 81-92 of [run_benchmark]: the entries of the result dictionary
    up to [p95], evaluated in the order of the dictionary display. *)
Definition statistics (name : string) (iterations : Z) (times : list py_float)
    : outcome pydict :=
  let sorted_times := py_sorted times in
  let total_time := py_sum times in
  let? mean := py_true_div total_time iterations in
  let? median := py_getitem sorted_times (iterations / 2) in
  let? min := py_getitem sorted_times 0 in
  let? max := py_getitem sorted_times (-1) in
  let? i95 := p95_index iterations in
  let? p95 := py_getitem sorted_times i95 in
  Ok [("name", PyStr name);
      ("iterations", PyInt iterations);
      ("total", total_time);
      ("mean", PyFloat mean);
      ("median", PyFloat median);
      ("min", PyFloat min);
      ("max", PyFloat max);
      ("p95", PyFloat p95)].

(** [for _ in range(k): fn( *args )] *)
Fixpoint warmup_loop (fn : callable World) (args : list pyval) (k : nat)
    : M World unit :=
  match k with
  | O => ret tt
  | S k' => let* _ := invoke RWarmup fn args in warmup_loop fn args k'
  end.

(** The timed loop, [k] iterations from index [i] on; [times] holds the
    samples appended so far.  The progress line of lines 73-74 is a [print]
    and leaves no trace here. *)
Fixpoint timed_loop (fn : callable World) (args : list pyval)
    (options : bench_options World) (k : nat) (i : Z) (times : list py_float)
    : M World (list py_float) :=
  match k with
  | O => ret times
  | S k' =>
      let* start_time := clock in
      let* result := invoke RMeasure fn args in
      let* end_time := clock in
      let duration := float_mul (float_sub end_time start_time) f1000 in
      let times' := times ++ [duration] in
      let* _ := match bo_on_iteration options with
                | Some cb => invoke RCallback cb [PyInt i; PyFloat duration; result]
                | None => ret PyNone
                end in
      timed_loop fn args options k' (i + 1) times'
  end.

Definition run_benchmark (fn : callable World) (args : list pyval)
    (iterations : Z) (options : bench_options World) : M World pydict :=
  let* _ := if get_bool true (bo_warmup options)
            then warmup_loop fn args (Z.to_nat (Z.min 10 (iterations / 10)))
            else ret tt in
  let* times := timed_loop fn args options (Z.to_nat iterations) 0 [] in
  let* name := lift (result_name options fn) in
  let* stats := lift (statistics name iterations times) in
  let* timestamp := now in
  let results := stats ++ [("timestamp", PyStr timestamp)] in
  let* _ := match truthy_string (bo_save_file options) with
            | Some save_file =>
                let* _ := open_w save_file in
                json_dump (PyDict results) None [PyInt 2] None
            | None => ret tt
            end in
  ret results.

(** The dictionary appended by the [except] branch of [run_suite]. *)
Definition failure_entry (name : string) (e : exn) : pydict :=
  [("name", PyStr name); ("error", PyStr (exn_msg e)); ("stack", PyStr (exn_trace e))].

(** [bench_options] as [run_suite] builds it (lines 141-147). *)
Definition suite_bench_options (suite_name : string) (options : run_options)
    (b : benchmark World) : bench_options World :=
  {| bo_name := Some (b_name b);
     bo_warmup := Some (get_bool true (opt_warmup options));
     bo_progress := Some (get_bool false (opt_verbose options));
     bo_save_file :=
       if get_bool false (opt_save_individual options)
       then Some (individual_file_name suite_name (b_name b))
       else None;
     bo_on_iteration := None |}.

(** Lines 136-138: [setup_result = None], then the call of [setup] when the
    benchmark has one. *)
Definition run_setup (b : benchmark World) : M World pyval :=
  match b_setup b with
  | Some setup => invoke RSetup setup []
  | None => ret PyNone
  end.

(** Lines 164-165:
    [if "cleanup" in benchmark and setup_result is not None]. *)
Definition run_cleanup (b : benchmark World) (setup_result : pyval) : M World unit :=
  match b_cleanup b with
  | Some cleanup =>
      if is_none setup_result then ret tt
      else let* _ := invoke RCleanup cleanup [setup_result] in ret tt
  | None => ret tt
  end.

(** The [try] block of the loop body (lines 135-168), up to the value that
    is appended to the suite results. *)
Definition run_entry_try (suite_name : string) (options : run_options)
    (b : benchmark World) : M World pydict :=
  let* setup_result := run_setup b in
  let bench_options := suite_bench_options suite_name options b in
  let args := if is_none setup_result then [] else [setup_result] in
  let* result := run_benchmark (b_fn b) args
                   (default 100 (b_iterations b)) bench_options in
  let* _ := run_cleanup b setup_result in
  ret result.

(** One iteration of the loop of [run_suite] (lines 131-184): the entry
    appended to [suite_results["benchmarks"]]. *)
Definition run_entry (suite_name : string) (options : run_options)
    (b : benchmark World) : M World pydict :=
  try_catch (run_entry_try suite_name options b)
            (fun e => ret (failure_entry (b_name b) e)).

(** [for benchmark in suite["benchmarks"]: ...] *)
Fixpoint run_entries (suite_name : string) (options : run_options)
    (bs : list (benchmark World)) : M World (list pydict) :=
  match bs with
  | [] => ret []
  | b :: bs' =>
      let* entry := run_entry suite_name options b in
      let* entries := run_entries suite_name options bs' in
      ret (entry :: entries)
  end.

Definition suite_results (d : suite_def World) (timestamp : string)
    (entries : list pydict) : pydict :=
  [("name", PyStr (s_name d));
   ("description", PyStr (default "" (s_description d)));
   ("benchmarks", PyList (map PyDict entries));
   ("timestamp", PyStr timestamp);
   ("implementation", PyStr "python")].

(** [run_suite(suite, options)]; both arguments are references. *)
Definition run_suite (suite : loc) (options : option loc) : M World pydict :=
  let* d := deref_suite suite in
  let* opts := match options with
               | Some l => deref_options l
               | None => ret no_options
               end in
  let* timestamp := now in
  let* entries := run_entries (s_name d) opts (s_benchmarks d) in
  let results := suite_results d timestamp entries in
  let* _ := match truthy_string (opt_save_file opts) with
            | Some save_file =>
                let* _ := open_w save_file in
                json_dump (PyDict results) (Some save_file) [] (Some 2)
            | None => ret tt
            end in
  ret results.

(** *** The command line *)

Record cli_args : Type := mk_cli_args {
  a_suite : string;
  a_verbose : bool;
  a_save : option string;
  a_iterations : option Z
}.

(** [benchmark["iterations"] = n] *)
Definition set_iterations (n : Z) (b : benchmark World) : benchmark World :=
  {| b_name := b_name b; b_fn := b_fn b; b_iterations := Some n;
     b_setup := b_setup b; b_cleanup := b_cleanup b |}.

(** Lines 226-228: the override loop, as an update of the suite object. *)
Definition override_iterations (iterations : option Z) (d : suite_def World)
    : suite_def World :=
  match iterations with
  | Some n =>
      if n =? 0 then d
      else {| s_name := s_name d; s_description := s_description d;
              s_benchmarks := map (set_iterations n) (s_benchmarks d) |}
  | None => d
  end.

(** The options dictionary built by [main] (lines 219-223). *)
Definition cli_options (args : cli_args) : run_options :=
  {| opt_warmup := None;
     opt_verbose := Some (a_verbose args);
     opt_save_file :=
       Some (default (a_suite args +:+ "_python.json") (truthy_string (a_save args)));
     opt_save_individual := Some true |}.

Definition main (args : cli_args) : M World Z :=
  let* found := lookup_module (a_suite args +:+ "_suite") in
  match found with
  | None => ret 1
  | Some suite =>
      let* options := alloc (OOptions (cli_options args)) in
      let* _ := match a_iterations args with
                | Some n =>
                    if n =? 0 then ret tt
                    else let* d := deref_suite suite in
                         store suite (OSuite (override_iterations (Some n) d))
                | None => ret tt
                end in
      let* _ := run_suite suite (Some options) in
      ret 0
  end.

End Engine.

(** ** A concrete world, for running the engine on examples

    The world is a tick counter: the clock reads the counter, as seconds,
    and advances it by one. *)

Definition tick_clock (w : nat) : py_float * nat :=
  (binary_normalize prec emax (Z.of_nat w) 0 false, S w).

#[local] Instance tick_runtime : Runtime nat := {|
  time_time := tick_clock;
  now_isoformat := fun w => ("2025-01-01T00:00:00", w);
  float_sum := sum_left_to_right
|}.

Definition initial_state (w : nat) : rstate nat :=
  {| st_world := w; st_files := ∅; st_heap := ∅; st_modules := ∅ |}.

Definition boom : exn :=
  {| exn_type := "RuntimeError"; exn_msg := "boom";
     exn_trace := "Traceback (most recent call last): RuntimeError: boom" |}.

Definition fn_ok : callable nat := mk_callable (Ok "bench_ok") (fun _ w => (Ok (PyInt 1), w)).
Definition fn_boom : callable nat := mk_callable (Ok "bench_boom") (fun _ w => (Raise boom, w)).
Definition setup_ctx : callable nat :=
  mk_callable (Ok "setup_ctx") (fun _ w => (Ok (PyStr "ctx"), w)).
Definition setup_none : callable nat :=
  mk_callable (Ok "setup_none") (fun _ w => (Ok PyNone, w)).
Definition setup_boom : callable nat :=
  mk_callable (Ok "setup_boom") (fun _ w => (Raise boom, w)).
Definition cleanup_ok : callable nat :=
  mk_callable (Ok "cleanup_ok") (fun _ w => (Ok PyNone, w)).

(** Operation fails, with a working setup and cleanup around it. *)
Definition bench_failing : benchmark nat :=
  mk_benchmark "Get Entity" fn_boom (Some 3) (Some setup_ctx) (Some cleanup_ok).
(** Operation succeeds, with a working setup and cleanup around it. *)
Definition bench_passing : benchmark nat :=
  mk_benchmark "Create Entity" fn_ok (Some 5) (Some setup_ctx) (Some cleanup_ok).
(** Setup returns [None]. *)
Definition bench_none_ctx : benchmark nat :=
  mk_benchmark "List Entities" fn_ok (Some 5) (Some setup_none) (Some cleanup_ok).
(** Setup raises. *)
Definition bench_bad_setup : benchmark nat :=
  mk_benchmark "Delete Entity" fn_ok (Some 5) (Some setup_boom) (Some cleanup_ok).

Definition demo_suite : suite_def nat :=
  mk_suite "entity" (Some "Entity operations") [bench_passing; bench_failing; bench_passing].

Definition save_individual_options : run_options :=
  {| opt_warmup := None; opt_verbose := None;
     opt_save_file := None; opt_save_individual := Some true |}.

(** A heap holding [demo_suite] at location 1 and an options dictionary at
    location 2, with the module [entity_suite] importable. *)
Definition demo_state : rstate nat :=
  {| st_world := 0%nat; st_files := ∅;
     st_heap := {[ 1%positive := OSuite demo_suite; 2%positive := OOptions no_options ]};
     st_modules := {[ "entity_suite" := 1%positive ]} |}.

Definition demo_args : cli_args :=
  {| a_suite := "entity"; a_verbose := false; a_save := None; a_iterations := Some 7 |}.

(** The same world with the compensated [sum] of CPython 3.12. *)
Definition tick_runtime_compensated : Runtime nat := {|
  time_time := tick_clock;
  now_isoformat := fun w => ("2025-01-01T00:00:00", w);
  float_sum := sum_compensated
|}.

(** [float(n)] for a small int, where no overflow can occur. *)
Definition fl (n : Z) : py_float := binary_normalize prec emax n 0 false.

(** The floats [0.1] ([0x1.999999999999ap-4]) and its successor
    [0.10000000000000002]. *)
Definition tenth : py_float := S754_finite false 7205759403792794 (-56).
Definition tenth_up : py_float := S754_finite false 7205759403792795 (-56).

(** A field of the result dictionary, when there is one. *)
Definition stat_field (r : outcome pydict) (k : string) : option pyval :=
  match r with Ok d => dict_get d k | Raise _ => None end.

(** A world that replays clock readings: [time.time()] returns the next
    reading of the list. *)
Definition replay_clock (w : list py_float) : py_float * list py_float :=
  match w with
  | [] => (S754_zero false, [])
  | t :: w' => (t, w')
  end.

#[local] Instance replay_runtime : Runtime (list py_float) := {|
  time_time := replay_clock;
  now_isoformat := fun w => ("2025-01-01T00:00:00", w);
  float_sum := sum_left_to_right
|}.

Definition replay_runtime_compensated : Runtime (list py_float) := {|
  time_time := replay_clock;
  now_isoformat := fun w => ("2025-01-01T00:00:00", w);
  float_sum := sum_compensated
|}.

(** A clock that starts at 0 and advances by one tick of
    [0x1.a36e2eb1c4398p-14] seconds (about 0.1 ms) during each of three
    calls of the operation, and not at all between them. *)
Definition tick : py_float := S754_finite false 7378697629483928 (-66).
Definition tick2 : py_float := S754_finite false 7378697629483928 (-65).
Definition tick3 : py_float := S754_finite false 5534023222112946 (-64).

Definition three_ticks : rstate (list py_float) :=
  {| st_world := [S754_zero false; tick; tick; tick2; tick2; tick3];
     st_files := ∅; st_heap := ∅; st_modules := ∅ |}.

Definition fn_idle : callable (list py_float) :=
  mk_callable (Ok "bench_idle") (fun _ w => (Ok PyNone, w)).

Definition plain_options : bench_options (list py_float) :=
  {| bo_name := None; bo_warmup := None; bo_progress := None;
     bo_save_file := None; bo_on_iteration := None |}.

(** The duration measured for one tick, [0x1.9999999999a02p-4] ms, and its
    successor. *)
Definition tick_ms : py_float := S754_finite false 7205759403792898 (-56).
Definition tick_ms_up : py_float := S754_finite false 7205759403792899 (-56).

(** The float [1.5000000000000013] ([0x1.8000000000006p+0]) and its
    predecessor. *)
Definition sesqui : py_float := S754_finite false 6755399441055750 (-52).
Definition sesqui_down : py_float := S754_finite false 6755399441055749 (-52).

(** Readings of a clock of the size [time.time()] has in 2025: multiples of
    [2^-22] s (about 0.24 us) from 1.76e9 s on.  During the three calls of
    the operation the clock advances by 4100, 3800 and 4245 steps, about
    1 ms each, and by 100 steps between them. *)
Definition reading (j : Z) : py_float :=
  S754_finite false (Z.to_pos (7381975040000000 + j)) (-22).

Definition clock_2025 : rstate (list py_float) :=
  {| st_world := [reading 0; reading 4100; reading 4200; reading 8000;
                  reading 8100; reading 12345];
     st_files := ∅; st_heap := ∅; st_modules := ∅ |}.

(** The durations measured on that clock, in ms: 4100, 3800 and 4245 steps
    of [125 * 2^-19] ms. *)
Definition durations_2025 : list py_float :=
  [S754_finite false 8804682956800000 (-53);
   S754_finite false 8160437862400000 (-53);
   S754_finite false 4558034042880000 (-52)].

(** ** Vocabulary of the statements *)

(** [x <= y] on floats, as a proposition. *)
Definition fle (x y : py_float) : Prop := float_le x y = true.

Definition nan_free (l : list py_float) : Prop := Forall (fun x => is_nan x = false) l.

(** A non-negative finite float in canonical form, as the arithmetic
    returns them. *)
Definition nonneg_float (x : py_float) : Prop :=
  match x with
  | S754_zero _ => True
  | S754_finite false m e => bounded prec emax m e = true
  | _ => False
  end.

(** The value of a non-negative float, counted in units of [2^-1074], the
    smallest positive binary64 number: every binary64 value is a whole
    number of them. *)
Definition ulps (x : py_float) : Z :=
  match x with
  | S754_finite false m e => Z.pos m * 2 ^ (e + 1074)
  | _ => 0
  end.

(** The sum of the samples as a number, without rounding. *)
Definition total_ulps (l : list py_float) : Z := foldr (fun x a => ulps x + a) 0 l.

(** The float [s] is the sum of the samples, exactly. *)
Definition exact_sum (s : py_float) (times : list py_float) : Prop :=
  nonneg_float s /\ ulps s = total_ulps times.

(** The samples lie on a grid: they are non-negative multiples of [2^q],
    and their sum is below [2^53] steps of the grid.  Durations computed
    from the readings of a clock of today's size are of this kind:
    [time.time()] returns multiples of [2^-22] s, whose differences, taken
    times 1000, are multiples of [2^-19] ms. *)
Definition on_grid (q : Z) (times : list py_float) : Prop :=
  -1074 <= q <= 971 /\
  Forall (fun t => nonneg_float t /\ ulps t mod 2 ^ (q + 1074) = 0) times /\
  total_ulps times < 2 ^ 53 * 2 ^ (q + 1074).

(** A reading of the clock: a binary64 number of seconds from [2^30] up to
    [2^31], which is what [time.time()] returns from January 2004 to
    January 2038. *)
Definition clock_reading (t : py_float) : Prop :=
  nonneg_float t /\ 2 ^ 30 * 2 ^ 1074 <= ulps t < 2 ^ 31 * 2 ^ 1074.

(** Key of the lexicographic order that float comparison implements on
    non-NaN values. *)
Definition rank (x : py_float) : Z * Z * Z :=
  match x with
  | S754_infinity true => (-2, 0, 0)
  | S754_finite true m e => (-1, - e, - Z.pos m)
  | S754_zero _ => (0, 0, 0)
  | S754_nan => (0, 0, 0)
  | S754_finite false m e => (1, e, Z.pos m)
  | S754_infinity false => (2, 0, 0)
  end.

Definition lex_le (a b : Z * Z * Z) : Prop :=
  a.1.1 < b.1.1 \/
  (a.1.1 = b.1.1 /\ (a.1.2 < b.1.2 \/ (a.1.2 = b.1.2 /\ a.2 <= b.2))).

Definition lex_lt (a b : Z * Z * Z) : Prop :=
  a.1.1 < b.1.1 \/
  (a.1.1 = b.1.1 /\ (a.1.2 < b.1.2 \/ (a.1.2 = b.1.2 /\ a.2 < b.2))).

(** A benchmark result on success, and on failure: consumers tell them
    apart by their keys. *)
Definition success_keys : list string :=
  ["name"; "iterations"; "total"; "mean"; "median"; "min"; "max"; "p95"; "timestamp"].
Definition failure_keys : list string := ["name"; "error"; "stack"].

Definition is_success_entry (d : pydict) : Prop := dict_keys d = success_keys.
Definition is_failure_entry (d : pydict) : Prop := dict_keys d = failure_keys.

Section Vocabulary.
Context {World : Type} `{!Runtime World}.

(** Every call recorded by [m] satisfies [P], from every state. *)
Definition all_events (P : event -> Prop) {A} (m : M World A) : Prop :=
  forall s, Forall P (trace (m s)).

(** [m] leaves the component [f] of the state as it found it. *)
Definition preserves {X A} (f : rstate World -> X) (m : M World A) : Prop :=
  forall s, f (final (m s)) = f s.

(** A run propagates the exception of a failed operation call: if some
    operation call of the run raised [e], the run ends by raising [e]. *)
Definition propagates {A} (x : outcome A * rstate World * list event) : Prop :=
  forall e, operation_raised e (trace x) -> out x = Raise e.

(** [run_benchmark] up to the result dictionary, before it is saved. *)
Definition results_of (fn : callable World) (args : list pyval) (iterations : Z)
    (options : bench_options World) : M World pydict :=
  let* _ := if get_bool true (bo_warmup options)
            then warmup_loop fn args (Z.to_nat (Z.min 10 (iterations / 10)))
            else ret tt in
  let* times := timed_loop fn args options (Z.to_nat iterations) 0 [] in
  let* name := lift (result_name options fn) in
  let* stats := lift (statistics name iterations times) in
  let* timestamp := now in
  ret (stats ++ [("timestamp", PyStr timestamp)]).

(** The save step of [run_benchmark] (lines 97-101). *)
Definition save_results (options : bench_options World) (results : pydict)
    : M World unit :=
  match truthy_string (bo_save_file options) with
  | Some save_file =>
      let* _ := open_w save_file in
      json_dump (PyDict results) None [PyInt 2] None
  | None => ret tt
  end.

(** The entry a run of [run_entry] produced. *)
Definition entry_of (x : outcome pydict * rstate World * list event) : pydict :=
  match out x with Ok d => d | Raise _ => [] end.

(** The state in which each benchmark of the loop starts: the first in [s],
    each other one in the state its predecessor left. *)
Fixpoint entry_states (suite_name : string) (options : run_options)
    (bs : list (benchmark World)) (s : rstate World) : list (rstate World) :=
  match bs with
  | [] => []
  | b :: bs' =>
      s :: entry_states suite_name options bs' (final (run_entry suite_name options b s))
  end.

(** The state in which the loop of [run_suite] starts: after the timestamp
    of the suite results has been taken. *)
Definition loop_start (s : rstate World) : rstate World := final (now s).

(** The options [run_suite] works with. *)
Definition options_at (options : option loc) (s : rstate World) : option run_options :=
  match options with
  | None => Some no_options
  | Some l => match st_heap s !! l with Some (OOptions o) => Some o | _ => None end
  end.

End Vocabulary.

(** What a call recorded during [run_benchmark fn args ...] looks like: a
    call of the operation with [args], or a call of the iteration callback. *)
Definition bench_event (args : list pyval) (ev : event) : Prop :=
  match ev_role ev with
  | RWarmup | RMeasure => ev_args ev = args
  | RCallback => True
  | RSetup | RCleanup => False
  end.

(** [options["save_file"] = v] on a [bench_options]. *)
Definition set_save_file {World} (v : option string) (o : bench_options World)
    : bench_options World :=
  {| bo_name := bo_name o; bo_warmup := bo_warmup o; bo_progress := bo_progress o;
     bo_save_file := v; bo_on_iteration := bo_on_iteration o |}.

(** ** Further vocabulary: calls that cannot fail, benchmark dictionaries
    without an operation *)

(** The callable returns normally, whatever its arguments and the world. *)
Definition never_raises {World} (c : callable World) : Prop :=
  forall args w, is_ok (c_call c args w).1 = true.

Definition is_callback (r : role) : bool :=
  match r with RCallback => true | _ => false end.

Definition is_measure (r : role) : bool :=
  match r with RMeasure => true | _ => false end.

Definition is_setup (r : role) : bool :=
  match r with RSetup => true | _ => false end.

(** The callback calls, the measured calls and the setup calls of a trace. *)
Definition callback_calls (tr : list event) : list event :=
  filter (fun ev => is_callback (ev_role ev) = true) tr.

Definition measured_calls (tr : list event) : list event :=
  filter (fun ev => is_measure (ev_role ev) = true) tr.

Definition setup_calls (tr : list event) : list event :=
  filter (fun ev => is_setup (ev_role ev) = true) tr.

(** What the iteration callback receives for iteration [i]:
    [(i, duration, result)]. *)
Definition callback_args (i : Z) (sample : py_float * pyval) : list pyval :=
  [PyInt i; PyFloat sample.1; sample.2].

(** A run stops at the first call that raises: such a call is the last
    one recorded, and its exception is the outcome of the run. *)
Definition stops_at_raise {World A} (x : outcome A * rstate World * list event) : Prop :=
  forall i ev e,
    trace x !! i = Some ev -> ev_result ev = Raise e ->
    S i = length (trace x) /\ out x = Raise e.

(** [KeyError('fn')]; [str] of a [KeyError] is the [repr] of the key. *)
Definition KeyErrorFn : exn :=
  {| exn_type := "KeyError"; exn_msg := "'fn'";
     exn_trace := "Traceback (most recent call last): KeyError: 'fn'" |}.

(** A benchmark dictionary as a suite module writes it, where the
    operation may be missing: [run_suite] reads it under the key ["fn"];
    [relation_suite.py] stores it under ["function"], a key that
    [run_suite] never reads. *)
Record benchmark_dict (World : Type) : Type := mk_benchmark_dict {
  bd_name : string;
  bd_fn : option (callable World);
  bd_function : option (callable World);
  bd_iterations : option Z;
  bd_setup : option (callable World);
  bd_cleanup : option (callable World)
}.
Arguments mk_benchmark_dict {World} bd_name bd_fn bd_function bd_iterations bd_setup bd_cleanup.
Arguments bd_name {World} b.
Arguments bd_fn {World} b.
Arguments bd_function {World} b.
Arguments bd_iterations {World} b.
Arguments bd_setup {World} b.
Arguments bd_cleanup {World} b.

(** The dictionary seen as a [benchmark], once its ["fn"] is known. *)
Definition as_benchmark {World} (fn : callable World) (bd : benchmark_dict World)
    : benchmark World :=
  {| b_name := bd_name bd; b_fn := fn; b_iterations := bd_iterations bd;
     b_setup := bd_setup bd; b_cleanup := bd_cleanup bd |}.

Section DictEngine.
Context {World : Type} `{!Runtime World}.

(** The [try] block of the loop body on such a dictionary.  Without the
    key ["fn"], setup has run (lines 136-138) when [benchmark["fn"]] is
    evaluated, as the first argument of the call of [run_benchmark]
    (line 157), and raises [KeyError]. *)
Definition run_entry_try_dict (suite_name : string) (options : run_options)
    (bd : benchmark_dict World) : M World pydict :=
  match bd_fn bd with
  | Some fn => run_entry_try suite_name options (as_benchmark fn bd)
  | None =>
      let* setup_result := match bd_setup bd with
                           | Some setup => invoke RSetup setup []
                           | None => ret PyNone
                           end in
      raise KeyErrorFn
  end.

Definition run_entry_dict (suite_name : string) (options : run_options)
    (bd : benchmark_dict World) : M World pydict :=
  try_catch (run_entry_try_dict suite_name options bd)
            (fun e => ret (failure_entry (bd_name bd) e)).

Fixpoint run_entries_dict (suite_name : string) (options : run_options)
    (bds : list (benchmark_dict World)) : M World (list pydict) :=
  match bds with
  | [] => ret []
  | bd :: bds' =>
      let* entry := run_entry_dict suite_name options bd in
      let* entries := run_entries_dict suite_name options bds' in
      ret (entry :: entries)
  end.

(** The state [main] hands to [run_suite] when the module is found: the
    options dictionary allocated, the override applied. *)
Definition main_state (args : cli_args) (suite : loc) (d : suite_def World)
    (s : rstate World) : rstate World :=
  set_heap (<[suite := OSuite (override_iterations (a_iterations args) d)]>
              (<[fresh (dom (st_heap s)) := OOptions (cli_options args)]> (st_heap s))) s.

(** The file [main] has the suite report written to. *)
Definition report_file (args : cli_args) : string :=
  default (a_suite args +:+ "_python.json") (truthy_string (a_save args)).

End DictEngine.

(** *** Further example benchmarks *)

Definition cleanup_boom : callable nat :=
  mk_callable (Ok "cleanup_boom") (fun _ w => (Raise boom, w)).

(** [fn.__name__] on a [functools.partial] object. *)
Definition NoNameAttribute : exn :=
  builtin_error "AttributeError" "'functools.partial' object has no attribute '__name__'".

(** An operation that works and has no [__name__], as
    [functools.partial(bench_ok)] or an object with a [__call__] method. *)
Definition fn_partial : callable nat :=
  mk_callable (Raise NoNameAttribute) (fun _ w => (Ok (PyInt 1), w)).

Definition bench_partial : benchmark nat :=
  mk_benchmark "Create Entity" fn_partial (Some 5) (Some setup_ctx) (Some cleanup_ok).

(** Operation succeeds, cleanup raises. *)
Definition bench_bad_cleanup : benchmark nat :=
  mk_benchmark "Update Entity" fn_ok (Some 5) (Some setup_ctx) (Some cleanup_boom).

(** An iteration callback. *)
Definition cb_ok : callable nat := mk_callable (Ok "on_iteration") (fun _ w => (Ok PyNone, w)).

Definition callback_options : bench_options nat :=
  {| bo_name := Some "Create Entity"; bo_warmup := None; bo_progress := None;
     bo_save_file := None; bo_on_iteration := Some cb_ok |}.

(** The shape of [relation_suite.SUITE]: seven benchmarks, their operations
    under ["function"], five with a setup and a cleanup. *)
Definition relation_benchmark (name : string) (iterations : Z) (with_setup : bool)
    : benchmark_dict nat :=
  mk_benchmark_dict name None (Some fn_ok) (Some iterations)
    (if with_setup then Some setup_ctx else None)
    (if with_setup then Some cleanup_ok else None).

Definition relation_suite_benchmarks : list (benchmark_dict nat) :=
  [relation_benchmark "Create Relation" 100 false;
   relation_benchmark "Get Relations for Entity" 100 true;
   relation_benchmark "Get Outgoing Relations" 100 true;
   relation_benchmark "Get Incoming Relations" 100 true;
   relation_benchmark "Delete Relation" 100 true;
   relation_benchmark "Batch Create Relations (20)" 20 false;
   relation_benchmark "Get Relation Types" 50 true].

(** * Properties *)

(** ** Binary64 rounding: an upper bound on round-to-nearest

    The lemmas of this part analyse [binary_round_aux] of the Standard
    Library's [SpecFloat] on an exact positive input, to bound the result of
    an int-to-float conversion and of a multiplication by [0.95]. *)

Lemma digits2_pos_size (p : positive) : digits2_pos p = Pos.size p.
Proof. induction p; simpl; congruence. Qed.

Lemma digits2_bounds (p : positive) :
  2 ^ (Z.pos (digits2_pos p) - 1) <= Z.pos p < 2 ^ Z.pos (digits2_pos p).
Proof.
  rewrite digits2_pos_size. split.
  - pose proof (Pos.size_le p) as H.
    assert (Hz : Z.pos (2 ^ Pos.size p) <= Z.pos p~0) by (apply Pos2Z.pos_le_pos; exact H).
    rewrite Pos2Z.inj_pow in Hz.
    replace (Z.pos (Pos.size p)) with (Z.succ (Z.pos (Pos.size p) - 1)) in Hz by lia.
    rewrite Z.pow_succ_r in Hz by lia. lia.
  - pose proof (Pos.size_gt p) as H.
    assert (Hz : Z.pos p < Z.pos (2 ^ Pos.size p)) by (apply Pos2Z.pos_lt_pos; exact H).
    rewrite Pos2Z.inj_pow in Hz. exact Hz.
Qed.

Lemma shr_1_m (r : shr_record) : 0 <= shr_m r -> shr_m (shr_1 r) = shr_m r / 2.
Proof.
  destruct r as [m r s]; cbn [shr_m shr_1]. intros Hm.
  destruct m as [|[p|p|]|p]; cbn [shr_m]; try lia.
  - reflexivity.
  - rewrite Pos2Z.inj_xI. apply Z.div_unique with 1; lia.
  - rewrite Pos2Z.inj_xO. apply Z.div_unique with 0; lia.
  - reflexivity.
Qed.

Lemma iter_shr_1_m (p : positive) (r : shr_record) :
  0 <= shr_m r -> shr_m (SpecFloat.iter_pos shr_1 p r) = shr_m r / 2 ^ Z.pos p.
Proof.
  revert r. induction p as [p IH|p IH|]; intros r Hr; simpl SpecFloat.iter_pos.
  - assert (H1 : 0 <= shr_m (shr_1 r)) by (rewrite shr_1_m by done; apply Z.div_pos; lia).
    assert (H2 : 0 <= shr_m (SpecFloat.iter_pos shr_1 p (shr_1 r))) by (rewrite IH by done; apply Z.div_pos; lia).
    rewrite IH, IH, shr_1_m by done.
    rewrite !Z.div_div by lia. f_equal.
    replace (Z.pos p~1) with (1 + Z.pos p + Z.pos p) by lia.
    rewrite !Z.pow_add_r by lia. rewrite Z.pow_1_r. ring.
  - assert (H2 : 0 <= shr_m (SpecFloat.iter_pos shr_1 p r)) by (rewrite IH by done; apply Z.div_pos; lia).
    rewrite IH, IH by done.
    rewrite !Z.div_div by lia. f_equal.
    replace (Z.pos p~0) with (Z.pos p + Z.pos p) by lia.
    rewrite Z.pow_add_r by lia. ring.
  - rewrite shr_1_m by done. reflexivity.
Qed.

Lemma shr_exact_spec (m e k : Z) :
  0 <= m ->
  snd (shr (Build_shr_record m false false) e k) = e + Z.max 0 k /\
  shr_m (fst (shr (Build_shr_record m false false) e k)) = m / 2 ^ Z.max 0 k.
Proof.
  intros Hm. destruct k as [|p|p]; cbn [shr fst snd].
  - rewrite Z.max_id. cbn. rewrite Z.div_1_r. split; [lia | reflexivity].
  - rewrite Z.max_r by lia. split; [reflexivity |].
    rewrite iter_shr_1_m; [reflexivity | exact Hm].
  - rewrite Z.max_l by lia. cbn. rewrite Z.div_1_r. split; [lia | reflexivity].
Qed.

Lemma shr_nonpos (r : shr_record) (e k : Z) : k <= 0 -> shr r e k = (r, e).
Proof. destruct k; [reflexivity | lia | reflexivity]. Qed.

Lemma round_nearest_even_bounds (m : Z) (l : location) :
  m <= round_nearest_even m l <= m + 1.
Proof.
  unfold round_nearest_even. destruct l as [|[| |]]; try destruct (Z.even m); lia.
Qed.

Lemma fexp64 (x : Z) : fexp prec emax x = Z.max (x - 53) (-1074).
Proof. reflexivity. Qed.

(** Shape of [binary_round_aux] on an exact positive input. *)
Lemma binary_round_aux_exact (s : bool) (M : positive) (E : Z) :
  let k := Z.max 0 (Z.max (Z.pos (digits2_pos M) + E - 53) (-1074) - E) in
  exists M1 : Z,
    Z.pos M / 2 ^ k <= M1 <= Z.pos M / 2 ^ k + 1 /\
    (k = 0 -> M1 = Z.pos M) /\
    let k2 := Z.max 0 (Z.max (Zdigits2 M1 + (E + k) - 53) (-1074) - (E + k)) in
    binary_round_aux prec emax s (Z.pos M) E loc_Exact =
      match M1 / 2 ^ k2 with
      | 0 => S754_zero s
      | Z.pos m => if E + k + k2 <=? 971
                   then S754_finite s m (E + k + k2) else S754_infinity s
      | Z.neg _ => S754_nan
      end.
Proof.
  intros k. unfold binary_round_aux, shr_fexp.
  change (emax - prec) with 971.
  cbn [shr_record_of_loc Zdigits2]. rewrite fexp64.
  pose proof (shr_exact_spec (Z.pos M) E (Z.max (Z.pos (digits2_pos M) + E - 53) (-1074) - E)
                ltac:(lia)) as [He Hm].
  fold k in He, Hm.
  destruct (shr _ E _) as [mrs' e'] eqn:Hshr. cbn [fst snd] in He, Hm. subst e'.
  set (M1 := round_nearest_even (shr_m mrs') (loc_of_shr_record mrs')).
  exists M1. split; [| split].
  - rewrite <- Hm. apply round_nearest_even_bounds.
  - intros Hk. unfold k in Hk.
    rewrite shr_nonpos in Hshr by lia. inversion Hshr; subst mrs'. reflexivity.
  - rewrite fexp64.
    set (k2 := Z.max 0 (Z.max (Zdigits2 M1 + (E + k) - 53) (-1074) - (E + k))).
    assert (HM1 : 0 <= M1).
    { pose proof (round_nearest_even_bounds (shr_m mrs') (loc_of_shr_record mrs')).
      fold M1 in H. rewrite Hm in H.
      assert (0 <= Z.pos M / 2 ^ k) by (apply Z.div_pos; lia). lia. }
    pose proof (shr_exact_spec M1 (E + k)
                  (Z.max (Zdigits2 M1 + (E + k) - 53) (-1074) - (E + k)) HM1) as [He2 Hm2].
    fold k2 in He2, Hm2.
    destruct (shr _ (E + k) _) as [mrs'' e''] eqn:Hshr2. cbn [fst snd] in He2, Hm2.
    subst e''. rewrite Hm2. reflexivity.
Qed.

Lemma Zdigits2_upper (x j : Z) : 0 <= x < 2 ^ j -> 0 <= j -> Zdigits2 x <= j.
Proof.
  intros [H0 Hx] Hj. destruct x as [|p|p]; cbn [Zdigits2]; try lia.
  pose proof (digits2_bounds p) as [Hlo _].
  assert (2 ^ (Z.pos (digits2_pos p) - 1) < 2 ^ j) by lia.
  apply Z.pow_lt_mono_r_iff in H; lia.
Qed.

Lemma digits2_pos_lower (p : positive) (j : Z) :
  2 ^ j <= Z.pos p -> 0 <= j -> j < Z.pos (digits2_pos p).
Proof.
  intros Hp Hj. pose proof (digits2_bounds p) as [_ Hhi].
  assert (2 ^ j < 2 ^ Z.pos (digits2_pos p)) by lia.
  apply Z.pow_lt_mono_r_iff in H; lia.
Qed.

Lemma Zdigits2_lower (x j : Z) : 2 ^ j <= x -> 0 <= j -> j < Zdigits2 x.
Proof.
  intros Hx Hj. destruct x as [|p|p]; cbn [Zdigits2].
  - assert (0 < 2 ^ j) by (apply Z.pow_pos_nonneg; lia). lia.
  - apply digits2_pos_lower; assumption.
  - assert (0 < 2 ^ j) by (apply Z.pow_pos_nonneg; lia). lia.
Qed.

Lemma round_exact_upper (s : bool) (M : positive) (E : Z)
    (s' : bool) (m : positive) (e : Z) :
  binary_round_aux prec emax s (Z.pos M) E loc_Exact = S754_finite s' m e ->
  -1074 <= Z.pos (digits2_pos M) + E - 53 ->
  s' = s /\ E <= e /\
  2 ^ 52 * (Z.pos m * 2 ^ (e - E)) <= (2 ^ 52 + 1) * Z.pos M.
Proof.
  intros Hr Hnormal.
  destruct (binary_round_aux_exact s M E) as (M1 & HM1 & Hk0 & Heq).
  cbv zeta in Heq.
  set (d := Z.pos (digits2_pos M)) in *.
  set (k := Z.max 0 (Z.max (d + E - 53) (-1074) - E)) in *.
  set (k2 := Z.max 0 (Z.max (Zdigits2 M1 + (E + k) - 53) (-1074) - (E + k))) in *.
  rewrite Heq in Hr.
  destruct (M1 / 2 ^ k2) as [|q|q] eqn:Hq; try discriminate.
  destruct (E + k + k2 <=? 971); try discriminate.
  injection Hr as Hs Hqm He. subst s' q e.
  assert (Hk : 0 <= k) by (unfold k; lia).
  assert (Hk2 : 0 <= k2) by (unfold k2; lia).
  split; [reflexivity | split; [lia |]].
  replace (E + k + k2 - E) with (k2 + k) by lia.
  rewrite Z.pow_add_r by lia.
  assert (HP : 0 < 2 ^ k) by (apply Z.pow_pos_nonneg; lia).
  assert (HQ : 0 < 2 ^ k2) by (apply Z.pow_pos_nonneg; lia).
  assert (HmQ : Z.pos m * 2 ^ k2 <= M1).
  { rewrite <- Hq. rewrite Z.mul_comm. apply Z.mul_div_le. exact HQ. }
  assert (HDP : Z.pos M / 2 ^ k * 2 ^ k <= Z.pos M).
  { rewrite Z.mul_comm. apply Z.mul_div_le. exact HP. }
  destruct (Z.eq_dec k 0) as [Hz|Hnz].
  - rewrite (Hk0 Hz) in HmQ. rewrite Hz. rewrite Z.pow_0_r.
    assert (0 < 2 ^ 52) by (apply Z.pow_pos_nonneg; lia). nia.
  - assert (Hkd : k = d - 53) by (unfold k in *; lia).
    assert (H52 : 2 ^ k * 2 ^ 52 <= Z.pos M).
    { rewrite <- Z.pow_add_r by lia. replace (k + 52) with (d - 1) by lia.
      apply digits2_bounds. }
    assert (Hstep : Z.pos m * 2 ^ k2 * 2 ^ k <= Z.pos M + 2 ^ k).
    { apply Z.le_trans with (M1 * 2 ^ k); [nia|].
      apply Z.le_trans with ((Z.pos M / 2 ^ k + 1) * 2 ^ k); [nia | lia]. }
    nia.
Qed.

Lemma round_exact_finite (s : bool) (M : positive) (E : Z) :
  Z.pos (digits2_pos M) + E <= 1023 -> E <= 970 -> -1074 <= E ->
  binary_round_aux prec emax s (Z.pos M) E loc_Exact = S754_zero s \/
  exists m e, binary_round_aux prec emax s (Z.pos M) E loc_Exact = S754_finite s m e.
Proof.
  intros Hd HE HEmin.
  destruct (binary_round_aux_exact s M E) as (M1 & HM1 & Hk0 & Heq).
  cbv zeta in Heq.
  set (d := Z.pos (digits2_pos M)) in *.
  set (k := Z.max 0 (Z.max (d + E - 53) (-1074) - E)) in *.
  set (k2 := Z.max 0 (Z.max (Zdigits2 M1 + (E + k) - 53) (-1074) - (E + k))) in *.
  assert (Hk : 0 <= k) by (unfold k; lia).
  assert (HP : 0 < 2 ^ k) by (apply Z.pow_pos_nonneg; lia).
  assert (HD0 : 0 <= Z.pos M / 2 ^ k) by (apply Z.div_pos; lia).
  assert (Hfin : E + k + k2 <= 971).
  { destruct (Z.eq_dec k 0) as [Hz|Hnz].
    - assert (Hd1 : Zdigits2 M1 = d) by (rewrite (Hk0 Hz); reflexivity).
      unfold k2, k in *. lia.
    - assert (Hkd : d - 53 <= k) by (unfold k; lia).
      assert (HD : Z.pos M / 2 ^ k < 2 ^ 53).
      { apply Z.div_lt_upper_bound; [exact HP|].
        rewrite <- Z.pow_add_r by lia.
        apply Z.lt_le_trans with (2 ^ d); [apply digits2_bounds|].
        apply Z.pow_le_mono_r; lia. }
      assert (Hd1 : Zdigits2 M1 <= 54).
      { apply Zdigits2_upper; [|lia]. split; [lia|].
        change (2 ^ 54) with (2 * 2 ^ 53). lia. }
      unfold k2. unfold k in *. lia. }
  rewrite Heq.
  assert (HM1nn : 0 <= M1 / 2 ^ k2).
  { apply Z.div_pos; [lia | apply Z.pow_pos_nonneg; unfold k2; lia]. }
  destruct (M1 / 2 ^ k2) as [|q|q]; [left; reflexivity | right | lia].
  replace (E + k + k2 <=? 971) with true.
  - eauto.
  - symmetry. apply Z.leb_le. exact Hfin.
Qed.

Lemma iter_xO_value (q p : positive) : Z.pos (Pos.iter xO p q) = Z.pos p * 2 ^ Z.pos q.
Proof.
  induction q as [|q IH] using Pos.peano_ind.
  - cbn. lia.
  - rewrite Pos.iter_succ, Pos2Z.inj_xO, IH, Pos2Z.inj_succ, Z.pow_succ_r by lia. ring.
Qed.

Lemma shl_align_spec (p : positive) (e e' : Z) :
  snd (shl_align p e e') = Z.min e e' /\
  Z.pos (fst (shl_align p e e')) = Z.pos p * 2 ^ (e - Z.min e e').
Proof.
  unfold shl_align. destruct (e' - e) as [|d|d] eqn:Hd; cbn [fst snd].
  - rewrite Z.min_l by lia. rewrite Z.sub_diag. cbn. split; lia.
  - rewrite Z.min_l by lia. rewrite Z.sub_diag. cbn. split; lia.
  - rewrite Z.min_r by lia. split; [reflexivity|].
    rewrite iter_xO_value. f_equal. f_equal. lia.
Qed.

(** int -> float conversion of a positive integer: the value is at most
    [p * (1 + 2^-52)], stated after scaling by [2^C]. *)
Lemma float_of_pos_upper (p : positive) (s : bool) (m : positive) (e : Z) :
  binary_normalize prec emax (Z.pos p) 0 false = S754_finite s m e ->
  s = false /\
  exists C : Z, 0 <= C <= 52 /\ 0 <= e + C /\
    2 ^ 52 * (Z.pos m * 2 ^ (e + C)) <= (2 ^ 52 + 1) * (Z.pos p * 2 ^ C) /\
    Z.pos (digits2_pos m) + e <= Z.pos (digits2_pos p) + 1.
Proof.
  cbn [binary_normalize]. unfold binary_round. rewrite fexp64.
  rewrite Z.add_0_r.
  pose proof (shl_align_spec p 0 (Z.max (Z.pos (digits2_pos p) - 53) (-1074))) as [Hez Hmz].
  destruct (shl_align p 0 _) as [mz ez]. cbn [fst snd] in Hez, Hmz.
  intros Hr.
  assert (Hdp : 1 <= Z.pos (digits2_pos p)) by lia.
  set (C := - ez).
  assert (HC : 0 <= C <= 52) by (unfold C; lia).
  replace (0 - Z.min 0 (Z.max (Z.pos (digits2_pos p) - 53) (-1074))) with C in Hmz by (unfold C; lia).
  apply round_exact_upper in Hr; [| lia].
  destruct Hr as (-> & Hle & Hub).
  split; [reflexivity|]. exists C.
  replace (e - ez) with (e + C) in Hub by (unfold C; lia).
  rewrite Hmz in Hub.
  split; [exact HC | split; [unfold C; lia | split; [exact Hub|]]].
  (* digit count of the result *)
  assert (HpC : 0 < 2 ^ C) by (apply Z.pow_pos_nonneg; lia).
  assert (H52 : 0 < 2 ^ 52) by (apply Z.pow_pos_nonneg; lia).
  pose proof (digits2_bounds p) as [_ Hphi].
  pose proof (digits2_bounds m) as [Hmlo _].
  set (dp := Z.pos (digits2_pos p)) in *. set (dm := Z.pos (digits2_pos m)) in *.
  assert (Hlt : Z.pos m * 2 ^ (e + C) < 2 ^ (dp + 1 + C)).
  { assert (Hsplit : 2 ^ (dp + 1 + C) = 2 * (2 ^ dp * 2 ^ C)).
    { rewrite !Z.pow_add_r by lia. rewrite Z.pow_1_r. ring. }
    rewrite Hsplit.
    assert (Z.pos p * 2 ^ C < 2 ^ dp * 2 ^ C) by nia. nia. }
  assert (Hge : 2 ^ (dm - 1 + (e + C)) <= Z.pos m * 2 ^ (e + C)).
  { rewrite Z.pow_add_r by lia.
    assert (0 < 2 ^ (e + C)) by (apply Z.pow_pos_nonneg; lia). nia. }
  assert (Hpow : 2 ^ (dm - 1 + (e + C)) < 2 ^ (dp + 1 + C)) by lia.
  apply Z.pow_lt_mono_r_iff in Hpow; lia.
Qed.

Lemma float_of_pos_finite (p : positive) :
  Z.pos p < 2 ^ 1022 ->
  binary_normalize prec emax (Z.pos p) 0 false = S754_zero false \/
  exists m e, binary_normalize prec emax (Z.pos p) 0 false = S754_finite false m e.
Proof.
  intros Hp. cbn [binary_normalize]. unfold binary_round. rewrite fexp64.
  rewrite Z.add_0_r.
  pose proof (shl_align_spec p 0 (Z.max (Z.pos (digits2_pos p) - 53) (-1074))) as [Hez Hmz].
  destruct (shl_align p 0 _) as [mz ez]. cbn [fst snd] in Hez, Hmz.
  assert (Hdp : Zdigits2 (Z.pos p) <= 1022) by (apply Zdigits2_upper; lia).
  cbn [Zdigits2] in Hdp.
  set (C := - ez).
  assert (HC : 0 <= C <= 52) by (unfold C; lia).
  replace (0 - Z.min 0 (Z.max (Z.pos (digits2_pos p) - 53) (-1074))) with C in Hmz
    by (unfold C; lia).
  assert (Hdz : Zdigits2 (Z.pos mz) <= Z.pos (digits2_pos p) + C).
  { apply Zdigits2_upper; [|lia]. split; [lia|]. rewrite Hmz.
    rewrite Z.pow_add_r by lia.
    pose proof (digits2_bounds p) as [_ Hhi].
    assert (0 < 2 ^ C) by (apply Z.pow_pos_nonneg; lia). nia. }
  cbn [Zdigits2] in Hdz.
  apply round_exact_finite; unfold C in *; lia.
Qed.

Lemma mul_c095_upper (m : positive) (e : Z) (s : bool) (m' : positive) (e' : Z) :
  -52 <= e ->
  float_mul (S754_finite false m e) c095 = S754_finite s m' e' ->
  s = false /\ e - 53 <= e' /\
  2 ^ 52 * (Z.pos m' * 2 ^ (e' - (e - 53))) <= (2 ^ 52 + 1) * (Z.pos m * Z.pos c095_m).
Proof.
  intros He Hr. unfold float_mul; cbn [SFmul c095 xorb] in Hr.
  apply round_exact_upper in Hr.
  - rewrite Pos2Z.inj_mul in Hr. replace (e + -53) with (e - 53) in Hr by lia. exact Hr.
  - assert (52 < Z.pos (digits2_pos (m * c095_m))); [|lia].
    apply digits2_pos_lower; [|lia]. rewrite Pos2Z.inj_mul.
    assert (2 ^ 52 <= Z.pos c095_m) by (vm_compute; discriminate). nia.
Qed.

Lemma mul_c095_finite (m : positive) (e : Z) :
  Z.pos (digits2_pos m) + e <= 1023 -> -52 <= e ->
  float_mul (S754_finite false m e) c095 = S754_zero false \/
  exists m' e', float_mul (S754_finite false m e) c095 = S754_finite false m' e'.
Proof.
  intros Hd He. unfold float_mul; cbn [SFmul c095 xorb].
  apply round_exact_finite; [| lia | lia].
  assert (Zdigits2 (Z.pos (m * c095_m)) <= Z.pos (digits2_pos m) + 53).
  { apply Zdigits2_upper; [|lia]. split; [lia|].
    rewrite Pos2Z.inj_mul, Z.pow_add_r by lia.
    pose proof (digits2_bounds m) as [_ Hhi].
    assert (Z.pos c095_m < 2 ^ 53) by (vm_compute; reflexivity). nia. }
  cbn [Zdigits2] in H. lia.
Qed.

(** The constant next to 1 that makes the two roundings harmless:
    [(1 + 2^-52)^2 * 0.95 < 1]. *)
Lemma c095_margin : (2 ^ 52 + 1) * ((2 ^ 52 + 1) * Z.pos c095_m) < 2 ^ 104 * 2 ^ 53.
Proof. vm_compute. reflexivity. Qed.

(** Truncation of a positive finite float never exceeds its value. *)
Lemma py_int_of_float_scaled (m : positive) (e S : Z) (i : Z) :
  py_int_of_float (S754_finite false m e) = Ok i ->
  0 <= S -> 0 <= e + S ->
  0 <= i /\ i * 2 ^ S <= Z.pos m * 2 ^ (e + S).
Proof.
  cbn [py_int_of_float]. intros Hi HS HeS. injection Hi as <-.
  destruct (0 <=? e) eqn:He.
  - apply Z.leb_le in He. rewrite Z.pow_add_r by lia.
    assert (0 < 2 ^ e) by (apply Z.pow_pos_nonneg; lia).
    split; [nia | lia].
  - apply Z.leb_gt in He.
    assert (Hp : 0 < 2 ^ (- e)) by (apply Z.pow_pos_nonneg; lia).
    assert (Hq : 0 < 2 ^ (e + S)) by (apply Z.pow_pos_nonneg; lia).
    split; [apply Z.div_pos; lia |].
    replace S with (- e + (e + S)) at 1 by lia.
    rewrite Z.pow_add_r by lia.
    pose proof (Z.mul_div_le (Z.pos m) (2 ^ (- e)) Hp). nia.
Qed.

Lemma p95_index_upper (n i : Z) : 1 <= n -> p95_index n = Ok i -> 0 <= i <= n - 1.
Proof.
  intros Hn. unfold p95_index, float_of_int.
  destruct n as [|p|p]; try lia.
  destruct (binary_normalize prec emax (Z.pos p) 0 false) as [s|s| |s m e] eqn:Hconv;
    try discriminate.
  - (* the conversion cannot be zero, but the bound holds anyway *)
    cbn. intros [= <-]. lia.
  - apply float_of_pos_upper in Hconv as (-> & C & HC & HeC & Hconv & _).
    destruct (float_mul (S754_finite false m e) c095) as [s'|s'| |s' m' e'] eqn:Hmul;
      try discriminate.
    + cbn. intros [= <-]. lia.
    + apply mul_c095_upper in Hmul as (-> & Hee & Hmul); [| lia].
      intros Hi.
      apply (py_int_of_float_scaled m' e' (C + 53)) in Hi as [Hi0 Hi]; [| lia | lia].
      split; [exact Hi0|].
      assert (HA : 0 <= e' - (e - 53)) by lia.
      assert (E1 : 2 ^ (C + 53) = 2 ^ C * 2 ^ 53) by (apply Z.pow_add_r; lia).
      assert (E2 : 2 ^ (e' + (C + 53)) = 2 ^ (e' - (e - 53)) * 2 ^ (e + C)).
      { rewrite <- Z.pow_add_r by lia. f_equal. lia. }
      rewrite E1, E2 in Hi. clear E1 E2.
      assert (Ha : 0 < 2 ^ (e' - (e - 53))) by (apply Z.pow_pos_nonneg; lia).
      assert (Hb : 0 < 2 ^ (e + C)) by (apply Z.pow_pos_nonneg; lia).
      assert (Hc : 0 < 2 ^ C) by (apply Z.pow_pos_nonneg; lia).
      pose proof c095_margin as Hmargin.
      assert (H53 : 0 < 2 ^ 53) by reflexivity.
      assert (H104 : 2 ^ 104 = 2 ^ 52 * 2 ^ 52) by reflexivity.
      rewrite H104 in Hmargin. clear H104.
      assert (HK : 0 < 2 ^ 52) by reflexivity.
      pose proof (Pos2Z.is_pos c095_m) as Hmc.
      revert Hmc HK Ha Hb Hc Hmul Hconv Hi Hmargin H53.
      generalize (2 ^ (e' - (e - 53))) (2 ^ (e + C)) (2 ^ C).
      generalize (2 ^ 52) (2 ^ 53) (Z.pos c095_m).
      intros K T mc a b c Hmc HK Ha Hb Hc Hmul Hconv Hi Hmargin HT.
      assert (S1 : K * (K * (Z.pos m' * a * b)) <= (K + 1) * mc * (K * (Z.pos m * b))).
      { replace (K * (K * (Z.pos m' * a * b))) with (K * (Z.pos m' * a) * (K * b)) by ring.
        replace ((K + 1) * mc * (K * (Z.pos m * b)))
          with ((K + 1) * (Z.pos m * mc) * (K * b)) by ring.
        apply Z.mul_le_mono_nonneg_r; [nia | exact Hmul]. }
      assert (S2 : (K + 1) * mc * (K * (Z.pos m * b))
                   <= (K + 1) * mc * ((K + 1) * (Z.pos p * c))).
      { apply Z.mul_le_mono_nonneg_l; [nia | exact Hconv]. }
      assert (S3 : (K + 1) * mc * ((K + 1) * (Z.pos p * c)) < K * K * T * (Z.pos p * c)).
      { replace ((K + 1) * mc * ((K + 1) * (Z.pos p * c)))
          with ((K + 1) * ((K + 1) * mc) * (Z.pos p * c)) by ring.
        apply Z.mul_lt_mono_pos_r; [nia | exact Hmargin]. }
      assert (S4 : K * K * (Z.pos m' * (a * b)) < K * K * (T * (Z.pos p * c))).
      { replace (K * K * (Z.pos m' * (a * b))) with (K * (K * (Z.pos m' * a * b))) by ring.
        replace (K * K * (T * (Z.pos p * c))) with (K * K * T * (Z.pos p * c)) by ring.
        lia. }
      apply Z.mul_lt_mono_pos_l in S4; [| nia].
      assert (S5 : i * (c * T) < Z.pos p * (c * T)).
      { replace (Z.pos p * (c * T)) with (T * (Z.pos p * c)) by ring. lia. }
      apply Z.mul_lt_mono_pos_r in S5; [lia | nia].
Qed.

Lemma p95_index_defined (n : Z) : 1 <= n < 2 ^ 1022 -> exists i, p95_index n = Ok i.
Proof.
  intros [Hn Hhi]. unfold p95_index, float_of_int.
  destruct n as [|p|p]; try lia.
  pose proof (float_of_pos_finite p Hhi) as Hfin.
  assert (Hdp : Zdigits2 (Z.pos p) <= 1022) by (apply Zdigits2_upper; lia).
  cbn [Zdigits2] in Hdp.
  destruct Hfin as [Hz | (m & e & Hf)].
  - rewrite Hz. cbn. eauto.
  - rewrite Hf.
    apply float_of_pos_upper in Hf as (_ & C & HC & HeC & _ & Hdm).
    destruct (mul_c095_finite m e) as [Hz | (m' & e' & Hm)]; [lia | lia | |].
    + rewrite Hz. cbn. eauto.
    + rewrite Hm. cbn [py_int_of_float]. eauto.
Qed.

(** ** Sorting and indexing *)

Lemma insert_sorted_perm (x : py_float) (l : list py_float) :
  insert_sorted x l ≡ₚ x :: l.
Proof.
  induction l as [|y l IH]; cbn [insert_sorted]; [reflexivity|].
  destruct (float_lt y x); [| reflexivity].
  rewrite IH. apply Permutation_swap.
Qed.

Lemma py_sorted_perm (l : list py_float) : py_sorted l ≡ₚ l.
Proof.
  induction l as [|x l IH]; cbn [py_sorted foldr]; [reflexivity|].
  fold (py_sorted l). rewrite insert_sorted_perm, IH. reflexivity.
Qed.

Lemma py_sorted_length (l : list py_float) : length (py_sorted l) = length l.
Proof. apply Permutation_length, py_sorted_perm. Qed.

Lemma py_getitem_in_range {A} (l : list A) (i : Z) :
  0 <= i < Z.of_nat (length l) ->
  exists x, py_getitem l i = Ok x /\ l !! Z.to_nat i = Some x.
Proof.
  intros Hi. unfold py_getitem.
  replace (i <? 0) with false by (symmetry; apply Z.ltb_ge; lia).
  replace (i <? 0) with false by (symmetry; apply Z.ltb_ge; lia).
  destruct (l !! Z.to_nat i) as [x|] eqn:Hx; [eauto|].
  apply lookup_ge_None in Hx. lia.
Qed.

Lemma py_getitem_last {A} (l : list A) :
  l <> [] -> exists x, py_getitem l (-1) = Ok x /\ last l = Some x.
Proof.
  intros Hl. unfold py_getitem. cbn [Z.ltb Z.compare].
  assert (Hlen : (0 < length l)%nat) by (destruct l; [done | cbn; lia]).
  replace (-1 + Z.of_nat (length l) <? 0) with false by (symmetry; apply Z.ltb_ge; lia).
  replace (Z.to_nat (-1 + Z.of_nat (length l))) with (Nat.pred (length l)) by lia.
  rewrite <- last_lookup.
  destruct (last l) as [x|] eqn:Hx; [eauto|].
  apply last_None in Hx. done.
Qed.

Lemma py_getitem_elem_of {A} (l : list A) (i : Z) (x : A) :
  py_getitem l i = Ok x -> x ∈ l.
Proof.
  unfold py_getitem.
  destruct (_ <? 0); [discriminate|].
  destruct (l !! _) as [y|] eqn:Hy; [|discriminate].
  intros [= <-]. eapply list_elem_of_lookup_2. exact Hy.
Qed.

(** ** The order on floats

    Comparison of non-NaN binary64 values is the lexicographic order on a
    key (class, exponent, mantissa). *)

Lemma finite_compare_spec (e1 e2 : Z) (m1 m2 : positive) :
  match (match e1 ?= e2 with
         | Lt => Lt | Gt => Gt | Eq => Pos.compare_cont Eq m1 m2
         end) with
  | Lt => e1 < e2 \/ (e1 = e2 /\ Z.pos m1 < Z.pos m2)
  | Eq => e1 = e2 /\ Z.pos m1 = Z.pos m2
  | Gt => e2 < e1 \/ (e1 = e2 /\ Z.pos m2 < Z.pos m1)
  end.
Proof.
  destruct (Z.compare_spec e1 e2) as [He|He|He]; [| left; exact He | left; exact He].
  change (Pos.compare_cont Eq m1 m2) with (Pos.compare m1 m2).
  destruct (Pos.compare_spec m1 m2) as [Hm|Hm|Hm].
  - subst. split; reflexivity.
  - right. split; [exact He | lia].
  - right. split; [exact He | lia].
Qed.

Lemma finite_compare_opp_spec (e1 e2 : Z) (m1 m2 : positive) :
  match (match e1 ?= e2 with
         | Lt => Gt | Gt => Lt | Eq => CompOpp (Pos.compare_cont Eq m1 m2)
         end) with
  | Lt => e2 < e1 \/ (e1 = e2 /\ Z.pos m2 < Z.pos m1)
  | Eq => e1 = e2 /\ Z.pos m1 = Z.pos m2
  | Gt => e1 < e2 \/ (e1 = e2 /\ Z.pos m1 < Z.pos m2)
  end.
Proof.
  destruct (Z.compare_spec e1 e2) as [He|He|He]; [| left; exact He | left; exact He].
  change (Pos.compare_cont Eq m1 m2) with (Pos.compare m1 m2).
  destruct (Pos.compare_spec m1 m2) as [Hm|Hm|Hm]; cbn [CompOpp].
  - subst. split; reflexivity.
  - right. split; [exact He | lia].
  - right. split; [exact He | lia].
Qed.

Ltac finite_compare :=
  repeat match goal with
  | |- context [match ?e1 ?= ?e2 with
                | Lt => Lt | Gt => Gt | Eq => Pos.compare_cont Eq ?m1 ?m2
                end] =>
      let H := fresh "Hcmp" in
      pose proof (finite_compare_spec e1 e2 m1 m2) as H;
      destruct (match e1 ?= e2 with
                | Lt => Lt | Gt => Gt | Eq => Pos.compare_cont Eq m1 m2
                end)
  | |- context [match ?e1 ?= ?e2 with
                | Lt => Gt | Gt => Lt | Eq => CompOpp (Pos.compare_cont Eq ?m1 ?m2)
                end] =>
      let H := fresh "Hcmp" in
      pose proof (finite_compare_opp_spec e1 e2 m1 m2) as H;
      destruct (match e1 ?= e2 with
                | Lt => Gt | Gt => Lt | Eq => CompOpp (Pos.compare_cont Eq m1 m2)
                end)
  end.

Lemma float_le_rank (x y : py_float) :
  is_nan x = false -> is_nan y = false ->
  float_le x y = true <-> lex_le (rank x) (rank y).
Proof.
  unfold float_le, SFleb, lex_le.
  destruct x as [sx|sx| |sx mx ex], y as [sy|sy| |sy my ey]; try discriminate; intros _ _;
    try destruct sx; try destruct sy; cbn; finite_compare; cbn;
    (split; [intros; try discriminate; lia | intros; try reflexivity; lia]).
Qed.

Lemma float_lt_rank (x y : py_float) :
  is_nan x = false -> is_nan y = false ->
  float_lt x y = true <-> lex_lt (rank x) (rank y).
Proof.
  unfold float_lt, SFltb, lex_lt.
  destruct x as [sx|sx| |sx mx ex], y as [sy|sy| |sy my ey]; try discriminate; intros _ _;
    try destruct sx; try destruct sy; cbn; finite_compare; cbn;
    (split; [intros; try discriminate; lia | intros; try reflexivity; lia]).
Qed.

Lemma float_le_not_nan (x y : py_float) :
  float_le x y = true -> is_nan x = false /\ is_nan y = false.
Proof.
  destruct x, y; try (intros; split; reflexivity); cbn; discriminate.
Qed.

Lemma float_le_trans (x y z : py_float) :
  float_le x y = true -> float_le y z = true -> float_le x z = true.
Proof.
  intros Hxy Hyz.
  destruct (float_le_not_nan _ _ Hxy) as [Hx Hy].
  destruct (float_le_not_nan _ _ Hyz) as [_ Hz].
  rewrite float_le_rank in * by assumption.
  unfold lex_le in *. lia.
Qed.

Lemma float_le_refl (x : py_float) : is_nan x = false -> float_le x x = true.
Proof. intros Hx. rewrite float_le_rank by assumption. unfold lex_le. lia. Qed.

Lemma float_lt_le (x y : py_float) : float_lt x y = true -> float_le x y = true.
Proof.
  unfold float_lt, float_le, SFltb, SFleb. destruct (SFcompare x y) as [[| |]|]; done.
Qed.

Lemma float_not_lt_le (x y : py_float) :
  is_nan x = false -> is_nan y = false ->
  float_lt y x = false -> float_le x y = true.
Proof.
  intros Hx Hy Hlt. rewrite float_le_rank by assumption.
  assert (Hn : ~ lex_lt (rank y) (rank x)).
  { rewrite <- float_lt_rank by assumption. rewrite Hlt. discriminate. }
  unfold lex_le, lex_lt in *. lia.
Qed.

#[local] Instance fle_trans : Transitive fle.
Proof. intros x y z. apply float_le_trans. Qed.

Lemma insert_sorted_sorted (x : py_float) (l : list py_float) :
  is_nan x = false -> nan_free l ->
  StronglySorted fle l -> StronglySorted fle (insert_sorted x l).
Proof.
  intros Hx Hl Hs. induction Hs as [|y l Hs IH Hy]; cbn [insert_sorted].
  - repeat constructor.
  - apply Forall_cons in Hl as [Hny Hl].
    destruct (float_lt y x) eqn:Hlt.
    + constructor; [apply IH; exact Hl |].
      rewrite insert_sorted_perm. constructor; [apply float_lt_le; exact Hlt | exact Hy].
    + assert (Hxy : fle x y) by (apply float_not_lt_le; assumption).
      constructor; [constructor; assumption |].
      constructor; [exact Hxy |].
      eapply Forall_impl; [exact Hy |]. intros z Hz. cbn in Hz.
      etransitivity; eassumption.
Qed.

Lemma py_sorted_nan_free (l : list py_float) : nan_free l -> nan_free (py_sorted l).
Proof. unfold nan_free. rewrite py_sorted_perm. done. Qed.

Lemma py_sorted_sorted (l : list py_float) :
  nan_free l -> StronglySorted fle (py_sorted l).
Proof.
  induction l as [|x l IH]; intros Hl; cbn [py_sorted foldr]; [constructor|].
  fold (py_sorted l). apply Forall_cons in Hl as [Hx Hl].
  apply insert_sorted_sorted; [exact Hx | apply py_sorted_nan_free; exact Hl | auto].
Qed.

Lemma StronglySorted_lookup_le (l : list py_float) (i j : nat) (x y : py_float) :
  StronglySorted fle l -> nan_free l -> (i <= j)%nat ->
  l !! i = Some x -> l !! j = Some y -> fle x y.
Proof.
  intros Hs. revert i j. induction Hs as [|z l Hs IH Hz]; intros i j Hn Hij Hi Hj.
  - discriminate.
  - apply Forall_cons in Hn as [Hnz Hn].
    destruct i as [|i], j as [|j]; cbn in Hi, Hj; try lia.
    + injection Hi as <-. injection Hj as <-. apply float_le_refl. exact Hnz.
    + injection Hi as <-. rewrite Forall_forall in Hz. apply Hz.
      eapply list_elem_of_lookup_2. exact Hj.
    + eapply (IH i j); [exact Hn | lia | exact Hi | exact Hj].
Qed.

Lemma py_getitem_nonneg_Ok {A} (l : list A) (i : Z) (x : A) :
  0 <= i -> py_getitem l i = Ok x -> l !! Z.to_nat i = Some x.
Proof.
  intros Hi. unfold py_getitem.
  replace (i <? 0) with false by (symmetry; apply Z.ltb_ge; lia).
  replace (i <? 0) with false by (symmetry; apply Z.ltb_ge; lia).
  destruct (l !! Z.to_nat i); [intros [= <-]; reflexivity | discriminate].
Qed.

Lemma float_of_int_defined (n : Z) :
  1 <= n < 2 ^ 1022 -> exists d, float_of_int n = Ok d.
Proof.
  intros [Hn Hhi]. unfold float_of_int. destruct n as [|p|p]; try lia.
  destruct (float_of_pos_finite p Hhi) as [-> | (m & e & ->)]; eauto.
Qed.

(** ** The statistics of [run_benchmark] *)

Section Statistics.
Context {World : Type} `{!Runtime World}.

Lemma statistics_shape (name : string) (n : Z) (times : list py_float) (d : pydict) :
  statistics name n times = Ok d ->
  exists mean median mn mx i95 p95,
    d = [("name", PyStr name); ("iterations", PyInt n); ("total", py_sum times);
         ("mean", PyFloat mean); ("median", PyFloat median); ("min", PyFloat mn);
         ("max", PyFloat mx); ("p95", PyFloat p95)] /\
    py_true_div (py_sum times) n = Ok mean /\
    py_getitem (py_sorted times) (n / 2) = Ok median /\
    py_getitem (py_sorted times) 0 = Ok mn /\
    py_getitem (py_sorted times) (-1) = Ok mx /\
    p95_index n = Ok i95 /\
    py_getitem (py_sorted times) i95 = Ok p95.
Proof.
  unfold statistics, obind.
  destruct (py_true_div _ _) as [mean|] eqn:H1; [|discriminate].
  destruct (py_getitem _ (n / 2)) as [median|] eqn:H2; [|discriminate].
  destruct (py_getitem _ 0) as [mn|] eqn:H3; [|discriminate].
  destruct (py_getitem _ (-1)) as [mx|] eqn:H4; [|discriminate].
  destruct (p95_index n) as [i95|] eqn:H5; [|discriminate].
  destruct (py_getitem _ i95) as [p95|] eqn:H6; [|discriminate].
  intros [= <-]. exists mean, median, mn, mx, i95, p95. repeat split; assumption.
Qed.

(** The statistics are computed for every non-empty sample list of a
    length below [2^1022]. *)
Lemma statistics_defined (name : string) (times : list py_float) :
  times <> [] -> Z.of_nat (length times) < 2 ^ 1022 ->
  exists d, statistics name (Z.of_nat (length times)) times = Ok d.
Proof.
  intros Hne Hlen.
  assert (Hpos : 1 <= Z.of_nat (length times)) by (destruct times; [done | cbn; lia]).
  set (n := Z.of_nat (length times)) in *.
  assert (Hslen : Z.of_nat (length (py_sorted times)) = n)
    by (rewrite py_sorted_length; reflexivity).
  unfold statistics, obind.
  assert (Hdiv : exists mean, py_true_div (py_sum times) n = Ok mean).
  { destruct times as [|t times']; [done|]. cbn [py_sum py_true_div].
    replace (n =? 0) with false by (symmetry; apply Z.eqb_neq; lia).
    destruct (float_of_int_defined n) as [d ->]; [lia|]. cbn. eauto. }
  destruct Hdiv as [mean ->].
  destruct (py_getitem_in_range (py_sorted times) (n / 2)) as (median & -> & _).
  { rewrite Hslen. split; [apply Z.div_pos; lia | apply Z.div_lt_upper_bound; lia]. }
  destruct (py_getitem_in_range (py_sorted times) 0) as (mn & -> & _); [lia|].
  destruct (py_getitem_last (py_sorted times)) as (mx & -> & _).
  { intros Hnil. rewrite Hnil in Hslen. cbn in Hslen. lia. }
  destruct (p95_index_defined n) as [i95 Hi95]; [lia|]. rewrite Hi95.
  apply p95_index_upper in Hi95; [|lia].
  destruct (py_getitem_in_range (py_sorted times) i95) as (p95 & -> & _); [lia|].
  eauto.
Qed.

End Statistics.

Lemma py_getitem_neg1_Ok {A} (l : list A) (x : A) :
  py_getitem l (-1) = Ok x -> l !! Nat.pred (length l) = Some x.
Proof.
  unfold py_getitem. cbn [Z.ltb Z.compare].
  destruct (-1 + Z.of_nat (length l) <? 0) eqn:Hneg; [discriminate|].
  apply Z.ltb_ge in Hneg.
  replace (Z.to_nat (-1 + Z.of_nat (length l))) with (Nat.pred (length l)) by lia.
  destruct (l !! _); [intros [= <-]; reflexivity | discriminate].
Qed.

Lemma half_index (n : nat) : Z.to_nat (Z.of_nat n / 2) = (n / 2)%nat.
Proof. change 2 with (Z.of_nat 2). rewrite <- Nat2Z.inj_div. apply Nat2Z.id. Qed.

(** ** Binary64 rounding in general: shape, exactness, canonical results *)

Lemma shr_1_clean (r : shr_record) :
  shr_r r = false -> shr_s r = false -> shr_m r mod 2 = 0 ->
  shr_r (shr_1 r) = false /\ shr_s (shr_1 r) = false.
Proof.
  destruct r as [m r s]; cbn [shr_m shr_r shr_s]. intros -> -> Hm.
  destruct m as [|[p|p|]|[p|p|]]; cbn; try (split; reflexivity).
  - rewrite Pos2Z.inj_xI in Hm. rewrite Z.add_comm, Z.mul_comm, Z.mod_add in Hm by lia.
    discriminate Hm.
  - discriminate Hm.
  - exfalso. change (Z.neg p~1) with (- Z.pos p~1) in Hm. rewrite Pos2Z.inj_xI in Hm.
    replace (- (2 * Z.pos p + 1)) with (1 + (- Z.pos p - 1) * 2) in Hm by lia.
    rewrite Z.mod_add in Hm by lia. discriminate Hm.
  - discriminate Hm.
Qed.

Lemma mod_pow2_half (m j : Z) :
  0 <= m -> 0 < j -> m mod 2 ^ j = 0 -> m mod 2 = 0 /\ (m / 2) mod 2 ^ (j - 1) = 0.
Proof.
  intros Hm Hj H.
  assert (Hsplit : 2 ^ j = 2 * 2 ^ (j - 1)).
  { replace j with (1 + (j - 1)) at 1 by lia. rewrite Z.pow_add_r by lia. reflexivity. }
  assert (Hp : 0 < 2 ^ (j - 1)) by (apply Z.pow_pos_nonneg; lia).
  apply Z.mod_divide in H; [| lia]. destruct H as [c Hc].
  rewrite Hsplit in Hc. subst m. split.
  - replace (c * (2 * 2 ^ (j - 1))) with (c * 2 ^ (j - 1) * 2) by ring. apply Z.mod_mul. lia.
  - replace (c * (2 * 2 ^ (j - 1))) with (c * 2 ^ (j - 1) * 2) by ring.
    rewrite Z.div_mul by lia. apply Z.mod_mul. lia.
Qed.

Lemma mod_pow2_split (m a b : Z) :
  0 <= m -> 0 <= a -> 0 <= b -> m mod 2 ^ (a + b) = 0 ->
  m mod 2 ^ a = 0 /\ (m / 2 ^ a) mod 2 ^ b = 0.
Proof.
  intros Hm Ha Hb H.
  assert (Hpa : 0 < 2 ^ a) by (apply Z.pow_pos_nonneg; lia).
  assert (Hpb : 0 < 2 ^ b) by (apply Z.pow_pos_nonneg; lia).
  apply Z.mod_divide in H; [| rewrite Z.pow_add_r by lia; lia]. destruct H as [c Hc].
  rewrite Z.pow_add_r in Hc by lia. subst m. split.
  - replace (c * (2 ^ a * 2 ^ b)) with (c * 2 ^ b * 2 ^ a) by ring. apply Z.mod_mul. lia.
  - replace (c * (2 ^ a * 2 ^ b)) with (c * 2 ^ b * 2 ^ a) by ring.
    rewrite Z.div_mul by lia. apply Z.mod_mul. lia.
Qed.

Lemma iter_shr_1_clean (p : positive) (r : shr_record) :
  0 <= shr_m r -> shr_r r = false -> shr_s r = false -> shr_m r mod 2 ^ Z.pos p = 0 ->
  shr_r (SpecFloat.iter_pos shr_1 p r) = false /\ shr_s (SpecFloat.iter_pos shr_1 p r) = false.
Proof.
  revert r. induction p as [p IH|p IH|]; intros r Hm Hr Hs Hdiv; simpl SpecFloat.iter_pos.
  - replace (Z.pos p~1) with (1 + (Z.pos p + Z.pos p)) in Hdiv by lia.
    apply mod_pow2_split in Hdiv as [H1 H2]; try lia.
    apply mod_pow2_split in H2 as [H2 H3]; try lia; [| apply Z.div_pos; lia].
    change (2 ^ 1) with 2 in *.
    destruct (shr_1_clean r Hr Hs H1) as [Hr1 Hs1].
    assert (Hm1 : shr_m (shr_1 r) = shr_m r / 2) by (apply shr_1_m; exact Hm).
    assert (H0 : 0 <= shr_m r / 2) by (apply Z.div_pos; lia).
    destruct (IH (shr_1 r)) as [Hr2 Hs2]; try assumption; try (rewrite Hm1; assumption).
    assert (Hm2 : shr_m (SpecFloat.iter_pos shr_1 p (shr_1 r)) = shr_m r / 2 / 2 ^ Z.pos p).
    { rewrite iter_shr_1_m, Hm1 by (rewrite Hm1; exact H0). reflexivity. }
    apply IH; try assumption; rewrite Hm2; [apply Z.div_pos; [exact H0 | apply Z.pow_pos_nonneg; lia] | exact H3].
  - replace (Z.pos p~0) with (Z.pos p + Z.pos p) in Hdiv by lia.
    apply mod_pow2_split in Hdiv as [H2 H3]; try lia.
    destruct (IH r) as [Hr2 Hs2]; try assumption.
    assert (Hm2 : shr_m (SpecFloat.iter_pos shr_1 p r) = shr_m r / 2 ^ Z.pos p)
      by (apply iter_shr_1_m; exact Hm).
    apply IH; try assumption; rewrite Hm2; [apply Z.div_pos; [exact Hm | apply Z.pow_pos_nonneg; lia] | exact H3].
  - apply shr_1_clean; assumption.
Qed.

Lemma shr_spec (r : shr_record) (e k : Z) :
  0 <= shr_m r ->
  snd (shr r e k) = e + Z.max 0 k /\
  shr_m (fst (shr r e k)) = shr_m r / 2 ^ Z.max 0 k /\
  (shr_r r = false -> shr_s r = false -> shr_m r mod 2 ^ Z.max 0 k = 0 ->
   loc_of_shr_record (fst (shr r e k)) = loc_Exact).
Proof.
  intros Hm. destruct k as [|p|p]; cbn [shr fst snd].
  - rewrite Z.max_id. cbn [Z.pow]. rewrite Z.div_1_r.
    split; [lia | split; [reflexivity |]].
    intros Hr Hs _. destruct r as [m [] []]; cbn in *; try discriminate. reflexivity.
  - rewrite Z.max_r by lia. split; [reflexivity | split].
    + apply iter_shr_1_m. exact Hm.
    + intros Hr Hs Hdiv. destruct (iter_shr_1_clean p r Hm Hr Hs Hdiv) as [Hr' Hs'].
      destruct (SpecFloat.iter_pos shr_1 p r) as [m' r' s']. cbn in *. subst. reflexivity.
  - rewrite Z.max_l by lia. cbn [Z.pow]. rewrite Z.div_1_r.
    split; [lia | split; [reflexivity |]].
    intros Hr Hs _. destruct r as [m [] []]; cbn in *; try discriminate. reflexivity.
Qed.

Lemma shr_record_of_loc_m (m : Z) (l : location) : shr_m (shr_record_of_loc m l) = m.
Proof. destruct l as [|[| |]]; reflexivity. Qed.

(** Shape of [binary_round_aux] on any non-negative input: one shift that
    may round, exact when nothing is shifted out of an exact input, and a
    second shift. *)
Lemma binary_round_aux_shape (s : bool) (mx ex : Z) (lx : location) :
  0 <= mx ->
  let k := Z.max 0 (Z.max (Zdigits2 mx + ex - 53) (-1074) - ex) in
  exists M1 : Z,
    mx / 2 ^ k <= M1 <= mx / 2 ^ k + 1 /\
    (lx = loc_Exact -> mx mod 2 ^ k = 0 -> M1 = mx / 2 ^ k) /\
    let k2 := Z.max 0 (Z.max (Zdigits2 M1 + (ex + k) - 53) (-1074) - (ex + k)) in
    binary_round_aux prec emax s mx ex lx =
      match M1 / 2 ^ k2 with
      | 0 => S754_zero s
      | Z.pos m => if ex + k + k2 <=? 971
                   then S754_finite s m (ex + k + k2) else S754_infinity s
      | Z.neg _ => S754_nan
      end.
Proof.
  intros Hmx k. unfold binary_round_aux, shr_fexp.
  change (emax - prec) with 971. rewrite fexp64.
  pose proof (shr_spec (shr_record_of_loc mx lx) ex
                (Z.max (Zdigits2 mx + ex - 53) (-1074) - ex)) as Hshr.
  rewrite shr_record_of_loc_m in Hshr. destruct (Hshr Hmx) as (He & Hm & Hexact). clear Hshr.
  fold k in He, Hm, Hexact.
  destruct (shr _ ex _) as [mrs' e'] eqn:Hs1. cbn [fst snd] in He, Hm, Hexact. subst e'.
  set (M1 := round_nearest_even (shr_m mrs') (loc_of_shr_record mrs')).
  exists M1. split; [| split].
  - rewrite <- Hm. apply round_nearest_even_bounds.
  - intros -> Hdiv. unfold M1. rewrite Hexact; [rewrite Hm; reflexivity | reflexivity | reflexivity | exact Hdiv].
  - rewrite fexp64.
    set (k2 := Z.max 0 (Z.max (Zdigits2 M1 + (ex + k) - 53) (-1074) - (ex + k))).
    assert (HM1 : 0 <= M1).
    { pose proof (round_nearest_even_bounds (shr_m mrs') (loc_of_shr_record mrs')) as Hb.
      fold M1 in Hb. rewrite Hm in Hb.
      assert (0 <= mx / 2 ^ k) by (apply Z.div_pos; [lia | apply Z.pow_pos_nonneg; unfold k; lia]).
      lia. }
    pose proof (shr_spec (shr_record_of_loc M1 loc_Exact) (ex + k)
                  (Z.max (Zdigits2 M1 + (ex + k) - 53) (-1074) - (ex + k))) as Hshr2.
    rewrite shr_record_of_loc_m in Hshr2. destruct (Hshr2 HM1) as (He2 & Hm2 & _).
    fold k2 in He2, Hm2.
    destruct (shr _ (ex + k) _) as [mrs'' e''] eqn:Hs2. cbn [fst snd] in He2, Hm2.
    subst e''. rewrite Hm2. reflexivity.
Qed.

Lemma bounded_spec (m : positive) (e : Z) :
  bounded prec emax m e = true <->
  Z.max (Z.pos (digits2_pos m) + e - 53) (-1074) = e /\ e <= 971.
Proof.
  unfold bounded, canonical_mantissa. rewrite fexp64. change (emax - prec) with 971.
  rewrite andb_true_iff, Z.eqb_eq, Z.leb_le. reflexivity.
Qed.

Lemma canonical_facts (m : positive) (e : Z) :
  Z.max (Z.pos (digits2_pos m) + e - 53) (-1074) = e ->
  -1074 <= e /\ Z.pos m < 2 ^ 53 /\ (-1074 < e -> 2 ^ 52 <= Z.pos m).
Proof.
  intros Hc. pose proof (digits2_bounds m) as [Hlo Hhi].
  split; [lia | split].
  - apply Z.lt_le_trans with (2 ^ Z.pos (digits2_pos m)); [exact Hhi |].
    apply Z.pow_le_mono_r; lia.
  - intros He. assert (Hd : Z.pos (digits2_pos m) = 53) by lia.
    rewrite Hd in Hlo. exact Hlo.
Qed.

Lemma pow2_pos (a : Z) : 0 <= a -> 0 < 2 ^ a.
Proof. intros. apply Z.pow_pos_nonneg; lia. Qed.

Lemma pow2_le (a b : Z) : 0 <= a <= b -> 2 ^ a <= 2 ^ b.
Proof. intros. apply Z.pow_le_mono_r; lia. Qed.

Lemma pow2_succ (a : Z) : 0 <= a -> 2 ^ (a + 1) = 2 * 2 ^ a.
Proof. intros. rewrite Z.pow_add_r by lia. change (2 ^ 1) with 2. ring. Qed.

(** In canonical form a smaller exponent means a smaller value. *)
Lemma canonical_exponent_lt (m1 m2 : positive) (e1 e2 : Z) :
  Z.max (Z.pos (digits2_pos m1) + e1 - 53) (-1074) = e1 ->
  Z.max (Z.pos (digits2_pos m2) + e2 - 53) (-1074) = e2 ->
  e1 < e2 ->
  Z.pos m1 * 2 ^ (e1 + 1074) < Z.pos m2 * 2 ^ (e2 + 1074).
Proof.
  intros H1 H2 He.
  destruct (canonical_facts m1 e1 H1) as (He1 & Hm1 & _).
  destruct (canonical_facts m2 e2 H2) as (He2 & _ & Hm2).
  specialize (Hm2 ltac:(lia)).
  pose proof (pow2_pos (e1 + 1074) ltac:(lia)) as Hp1.
  pose proof (pow2_le (e1 + 1074 + 1) (e2 + 1074) ltac:(lia)) as Hle.
  rewrite pow2_succ in Hle by lia.
  change (2 ^ 53) with (2 * 2 ^ 52) in Hm1.
  assert (H52 : 0 < 2 ^ 52) by reflexivity.
  revert Hm1 Hm2 Hp1 Hle H52.
  generalize (2 ^ (e1 + 1074)) (2 ^ (e2 + 1074)) (2 ^ 52) (Z.pos m1) (Z.pos m2).
  intros P1 P2 K a b Ha Hb HP1 Hle HK.
  assert (S1 : a * P1 < 2 * K * P1) by nia.
  assert (S2 : 2 * K * P1 <= K * P2) by nia.
  assert (S3 : K * P2 <= b * P2) by nia.
  lia.
Qed.

Lemma ulps_nonneg (x : py_float) : 0 <= ulps x.
Proof.
  destruct x as [s|s| |[] m e]; cbn [ulps]; lia.
Qed.

Lemma ulps_finite_pos (m : positive) (e : Z) :
  -1074 <= e -> 0 < ulps (S754_finite false m e).
Proof. intros He. cbn [ulps]. pose proof (pow2_pos (e + 1074) ltac:(lia)). nia. Qed.

(** On non-negative canonical floats the comparison of Python is the
    comparison of the values. *)
Lemma float_le_ulps (x y : py_float) :
  nonneg_float x -> nonneg_float y ->
  (float_le x y = true <-> ulps x <= ulps y).
Proof.
  intros Hx Hy.
  assert (Hnx : is_nan x = false) by (destruct x as [| | |[]]; try reflexivity; destruct Hx).
  assert (Hny : is_nan y = false) by (destruct y as [| | |[]]; try reflexivity; destruct Hy).
  rewrite (float_le_rank x y Hnx Hny). unfold lex_le.
  destruct x as [sx|sx| |[] mx ex]; cbn [nonneg_float] in Hx; try contradiction;
    destruct y as [sy|sy| |[] my ey]; cbn [nonneg_float] in Hy; try contradiction;
    cbn [rank ulps fst snd].
  - split; [lia | intros _; right; split; [reflexivity | right; split; reflexivity || lia]].
  - apply bounded_spec in Hy as [Hy _]. destruct (canonical_facts my ey Hy) as (He & _).
    pose proof (ulps_finite_pos my ey He) as Hpos. cbn [ulps] in Hpos.
    split; [lia | intros _; left; lia].
  - apply bounded_spec in Hx as [Hx _]. destruct (canonical_facts mx ex Hx) as (He & _).
    pose proof (ulps_finite_pos mx ex He) as Hpos. cbn [ulps] in Hpos.
    split; [lia | lia].
  - apply bounded_spec in Hx as [Hx _]. apply bounded_spec in Hy as [Hy _].
    destruct (canonical_facts mx ex Hx) as (Hex & _).
    destruct (canonical_facts my ey Hy) as (Hey & _).
    destruct (Z.lt_trichotomy ex ey) as [Hlt | [Heq | Hgt]].
    + pose proof (canonical_exponent_lt mx my ex ey Hx Hy Hlt). split; [lia | intros _; right; lia].
    + subst ey. pose proof (pow2_pos (ex + 1074) ltac:(lia)) as Hp.
      split.
      * intros [H | [_ [H | [_ H]]]]; try lia. nia.
      * intros H. right. split; [reflexivity | right; split; [reflexivity | nia]].
    + pose proof (canonical_exponent_lt my mx ey ex Hy Hx Hgt). split; [lia | lia].
Qed.

(** The result of [binary_round_aux] after its first shift: canonical, with
    the value of the rounded mantissa, or an overflow. *)
Lemma round_output (s : bool) (M1 E : Z) :
  0 <= M1 <= 2 ^ 53 -> -1074 <= E -> (-1074 < E -> 2 ^ 52 <= M1) ->
  let k2 := Z.max 0 (Z.max (Zdigits2 M1 + E - 53) (-1074) - E) in
  let R := match M1 / 2 ^ k2 with
           | 0 => S754_zero s
           | Z.pos m => if E + k2 <=? 971 then S754_finite s m (E + k2) else S754_infinity s
           | Z.neg _ => S754_nan
           end in
  (M1 = 0 /\ R = S754_zero s) \/
  (exists m e,
     0 < M1 /\ Z.max (Z.pos (digits2_pos m) + e - 53) (-1074) = e /\
     Z.pos m * 2 ^ (e + 1074) = M1 * 2 ^ (E + 1074) /\
     R = if e <=? 971 then S754_finite s m e else S754_infinity s).
Proof.
  intros [HM0 HM1] HE Hnormal k2 R.
  destruct (Z.eq_dec M1 0) as [Hz|Hnz].
  - left. split; [exact Hz |]. unfold R, k2. rewrite Hz. cbn [Zdigits2].
    rewrite Z.div_0_l; [reflexivity |].
    assert (0 < 2 ^ Z.max 0 (Z.max (0 + E - 53) (-1074) - E)) by (apply pow2_pos; lia). lia.
  - right. destruct M1 as [|q|q]; try lia. cbn [Zdigits2] in k2.
    pose proof (digits2_bounds q) as [Hqlo Hqhi].
    destruct (Z.eq_dec (Z.pos q) (2 ^ 53)) as [Htop|Hlow].
    + (* the rounding carried into the next binade *)
      assert (Hd : Z.pos (digits2_pos q) = 54).
      { assert (53 < Z.pos (digits2_pos q)) by (apply digits2_pos_lower; lia).
        assert (Zdigits2 (Z.pos q) <= 54).
        { apply Zdigits2_upper; [| lia]. rewrite Htop. split; [lia | reflexivity]. }
        cbn [Zdigits2] in H0. lia. }
      assert (Hk2 : k2 = 1) by (unfold k2; lia).
      exists (2 ^ 52)%positive, (E + 1).
      split; [lia | split; [| split]].
      * change (Z.pos (digits2_pos (2 ^ 52))) with 53. lia.
      * rewrite Htop. replace (E + 1 + 1074) with (E + 1074 + 1) by lia.
        rewrite pow2_succ by lia. change (2 ^ 53) with (2 * Z.pos (2 ^ 52)). ring.
      * unfold R. rewrite Hk2, Htop. reflexivity.
    + assert (Hlt : Z.pos q < 2 ^ 53) by lia.
      assert (Hd : Z.pos (digits2_pos q) <= 53).
      { pose proof (Zdigits2_upper (Z.pos q) 53 ltac:(lia) ltac:(lia)) as H. exact H. }
      assert (Hk2 : k2 = 0) by (unfold k2; lia).
      exists q, E.
      split; [lia | split; [| split]].
      * destruct (Z.eq_dec E (-1074)) as [->|Hne]; [lia |].
        assert (H52 : 2 ^ 52 <= Z.pos q) by (apply Hnormal; lia).
        assert (52 < Z.pos (digits2_pos q)) by (apply digits2_pos_lower; lia). lia.
      * reflexivity.
      * unfold R. rewrite Hk2. cbn [Z.pow]. rewrite Z.div_1_r, Z.add_0_r. reflexivity.
Qed.

(** ** Division: the quotient is rounded faithfully *)

Lemma Zdigits2_bounds (x : Z) :
  0 < x -> 2 ^ (Zdigits2 x - 1) <= x < 2 ^ Zdigits2 x.
Proof. intros Hx. destruct x as [|p|p]; try lia. apply digits2_bounds. Qed.

Lemma new_location_exact (nb : Z) : new_location nb 0 = loc_Exact.
Proof. unfold new_location. destruct (Z.even nb); reflexivity. Qed.

(** The integer quotient that [SFdiv] rounds, with its exponent. *)
Lemma div_core_spec (mx my : positive) (ex ey : Z) :
  exists q r e' s l,
    SFdiv_core_binary prec emax (Z.pos mx) ex (Z.pos my) ey = (q, e', l) /\
    0 <= s /\ s = ex - ey - e' /\
    Z.pos mx * 2 ^ s = Z.pos my * q + r /\ 0 <= r < Z.pos my /\ 0 <= q /\
    (r = 0 -> l = loc_Exact) /\
    e' <= Z.max (Z.pos (digits2_pos mx) + ex - (Z.pos (digits2_pos my) + ey) - 53) (-1074).
Proof.
  unfold SFdiv_core_binary. cbn [Zdigits2]. rewrite fexp64.
  set (e' := Z.min (Z.max (Z.pos (digits2_pos mx) + ex - (Z.pos (digits2_pos my) + ey) - 53)
                      (-1074)) (ex - ey)).
  set (s := ex - ey - e').
  assert (Hs : 0 <= s) by (unfold s, e'; lia).
  assert (Hm' : match s with
                | Z.pos _ => Z.shiftl (Z.pos mx) s
                | 0 => Z.pos mx
                | Z.neg _ => 0
                end = Z.pos mx * 2 ^ s).
  { destruct s as [|p|p] eqn:Hsp; [cbn; lia | | lia].
    rewrite Z.shiftl_mul_pow2 by lia. reflexivity. }
  rewrite Hm'.
  pose proof (Z_div_mod (Z.pos mx * 2 ^ s) (Z.pos my) ltac:(lia)) as Hdiv.
  destruct (Z.div_eucl (Z.pos mx * 2 ^ s) (Z.pos my)) as [q r].
  destruct Hdiv as [Heq Hr].
  exists q, r, e', s, (new_location (Z.pos my) r).
  split; [reflexivity |]. split; [exact Hs |]. split; [reflexivity |].
  split; [exact Heq |]. split; [exact Hr |]. split; [| split].
  - assert (0 <= Z.pos mx * 2 ^ s) by (pose proof (pow2_pos s Hs); nia). nia.
  - intros ->. apply new_location_exact.
  - unfold e'. lia.
Qed.

Lemma div_float_cases (x y : py_float) :
  float_div x y = SFdiv prec emax x y.
Proof. reflexivity. Qed.

(** [SFdiv] on positive finite floats: the quotient in units of [2^-1074]
    lies between [F] and [F + 1] steps of the grid [2^E] of the result, the
    mantissa [M1] of the result is one of the two, and it is [F] when the
    quotient is on the grid. *)
Lemma div_round_spec (mx my : positive) (ex ey : Z) (n : Z) :
  -1074 <= ex -> -1074 <= ey ->
  Z.pos my * 2 ^ (ey + 1074) = n * 2 ^ 1074 ->
  exists E F M1,
    -1074 <= E /\ 0 <= F < 2 ^ 53 /\ (-1074 < E -> 2 ^ 52 <= F) /\
    F <= M1 <= F + 1 /\
    n * (F * 2 ^ (E + 1074)) <= Z.pos mx * 2 ^ (ex + 1074)
      < n * ((F + 1) * 2 ^ (E + 1074)) /\
    (Z.pos mx * 2 ^ (ex + 1074) = n * (F * 2 ^ (E + 1074)) -> M1 = F) /\
    ((M1 = 0 /\ float_div (S754_finite false mx ex) (S754_finite false my ey)
                = S754_zero false) \/
     (exists m e,
        0 < M1 /\ Z.max (Z.pos (digits2_pos m) + e - 53) (-1074) = e /\
        Z.pos m * 2 ^ (e + 1074) = M1 * 2 ^ (E + 1074) /\
        float_div (S754_finite false mx ex) (S754_finite false my ey)
        = if e <=? 971 then S754_finite false m e else S754_infinity false)).
Proof.
  intros Hex Hey Hn.
  destruct (div_core_spec mx my ex ey)
    as (q & r & e' & s & l & Hcore & Hs & Hse & Hdiv & Hr & Hq & Hexact & He').
  unfold float_div. cbn [SFdiv xorb]. rewrite Hcore.
  destruct (binary_round_aux_shape false q e' l Hq) as (M1 & HM1 & HM1exact & Hres).
  cbv zeta in Hres.
  set (dq := Zdigits2 q) in *.
  set (k := Z.max 0 (Z.max (dq + e' - 53) (-1074) - e')) in *.
  assert (Hk : 0 <= k) by (unfold k; lia).
  pose proof (pow2_pos k Hk) as HPk.
  pose proof (pow2_pos s Hs) as HPs.
  set (F := q / 2 ^ k) in *.
  set (E := e' + k) in *.
  assert (HE : -1074 <= E) by (unfold E, k; lia).
  assert (HF0 : 0 <= F) by (apply Z.div_pos; lia).
  assert (HFq : F * 2 ^ k <= q < (F + 1) * 2 ^ k).
  { unfold F. pose proof (Z.mul_div_le q (2 ^ k) HPk).
    pose proof (Z.mul_succ_div_gt q (2 ^ k) HPk). lia. }
  (* digits of the quotient *)
  assert (Hqhi : q < 2 ^ Z.max 0 dq).
  { destruct (Z.eq_dec q 0) as [->|Hq0]; [cbn; lia |].
    pose proof (Zdigits2_bounds q ltac:(lia)) as [_ Hhi]. fold dq in Hhi.
    assert (0 < dq) by (unfold dq; destruct q; cbn; lia).
    rewrite Z.max_r by lia. exact Hhi. }
  assert (HF53 : F < 2 ^ 53).
  { unfold F. apply Z.div_lt_upper_bound; [exact HPk |].
    rewrite <- Z.pow_add_r by lia.
    apply Z.lt_le_trans with (2 ^ Z.max 0 dq); [exact Hqhi |].
    apply pow2_le. unfold k. lia. }
  assert (Hnormal : -1074 < E -> 2 ^ 52 <= F).
  { intros HEn.
    assert (Hq52 : 2 ^ 52 <= q).
    { destruct (Z_lt_le_dec q (2 ^ 52)) as [Hsmall|Hbig]; [exfalso | exact Hbig].
      assert (Hdq : dq <= 52).
      { unfold dq. apply Zdigits2_upper; lia. }
      (* then nothing is shifted out, and the exponent is that of the core *)
      assert (HEe : E = e') by (unfold E, k; lia).
      assert (He'n : -1074 < e') by lia.
      set (d1 := Z.pos (digits2_pos mx)) in *. set (d2 := Z.pos (digits2_pos my)) in *.
      assert (He'D : e' <= d1 + ex - (d2 + ey) - 53) by lia.
      assert (Hs53 : 53 - d1 + d2 <= s) by lia.
      pose proof (digits2_bounds mx) as [Hmxlo _]. fold d1 in Hmxlo.
      pose proof (digits2_bounds my) as [_ Hmyhi]. fold d2 in Hmyhi.
      assert (Hd1 : 1 <= d1) by (unfold d1; lia).
      assert (Hd2 : 1 <= d2) by (unfold d2; lia).
      assert (Hbig : 2 ^ 52 * 2 ^ d2 <= Z.pos mx * 2 ^ s).
      { set (j := Z.max 0 (53 - d1 + d2)).
        apply Z.le_trans with (2 ^ (d1 - 1) * 2 ^ j).
        - rewrite <- !Z.pow_add_r by (unfold j; lia). apply pow2_le. unfold j. lia.
        - pose proof (pow2_pos j ltac:(unfold j; lia)) as Hj.
          pose proof (pow2_le j s ltac:(unfold j; lia)) as Hjs.
          apply Z.le_trans with (Z.pos mx * 2 ^ j);
            [apply Z.mul_le_mono_nonneg_r; lia | apply Z.mul_le_mono_nonneg_l; lia]. }
      assert (H52 : 0 < 2 ^ 52) by reflexivity.
      assert (Hcontra : Z.pos my * q + r < Z.pos my * 2 ^ 52 + Z.pos my) by nia.
      assert (Z.pos my * 2 ^ 52 < 2 ^ 52 * 2 ^ d2) by nia.
      assert (Z.pos my * q + r < Z.pos my * (2 ^ 52)) ; [| lia].
      assert (Z.pos my * (q + 1) <= Z.pos my * 2 ^ 52) by nia. lia. }
    assert (Hdq53 : 53 <= dq).
    { assert (52 < dq); [| lia]. unfold dq. apply Zdigits2_lower; lia. }
    assert (Hkd : k = dq - 53) by (unfold E, k in *; lia).
    unfold F. apply Z.div_le_lower_bound; [exact HPk |].
    pose proof (Zdigits2_bounds q ltac:(lia)) as [Hlo _]. fold dq in Hlo.
    apply Z.le_trans with (2 ^ (dq - 1)); [| exact Hlo].
    rewrite <- Z.pow_add_r by lia. apply pow2_le. lia. }
  (* the quotient in ulps *)
  assert (Hscale : 2 ^ s * 2 ^ (ey + 1074) * 2 ^ (E + 1074)
                   = 2 ^ (ex + 1074) * 2 ^ k * 2 ^ 1074).
  { rewrite <- !Z.pow_add_r by lia. f_equal. unfold E. lia. }
  pose proof (pow2_pos (ey + 1074) ltac:(lia)) as HPey.
  pose proof (pow2_pos (ex + 1074) ltac:(lia)) as HPex.
  pose proof (pow2_pos (E + 1074) ltac:(lia)) as HPE.
  pose proof (pow2_pos 1074 ltac:(lia)) as HP.
  assert (Hbounds : n * (F * 2 ^ (E + 1074)) <= Z.pos mx * 2 ^ (ex + 1074)
                    < n * ((F + 1) * 2 ^ (E + 1074)) /\
                    (Z.pos mx * 2 ^ (ex + 1074) = n * (F * 2 ^ (E + 1074)) ->
                     r = 0 /\ q = F * 2 ^ k)).
  { revert Hscale Hn Hdiv Hr HFq HPk HPs HPey HPex HPE HP HF0 Hq.
    generalize (2 ^ s) (2 ^ (ey + 1074)) (2 ^ (E + 1074)) (2 ^ (ex + 1074)) (2 ^ k) (2 ^ 1074)
               (Z.pos mx) (Z.pos my).
    intros S Y G X K P a b Hscale Hn Hdiv Hr HFq HPk HPs HPey HPex HPE HP HF0 Hq.
    (* a * S = b * q + r ; b * Y = n * P ; S * Y * G = X * K * P *)
    assert (Hb : 0 < b) by lia.
    assert (HKP : 0 < K * P) by nia.
    assert (Hn0 : 0 < n) by nia.
    assert (E1 : a * X * (K * P) = (b * q + r) * (Y * G)).
    { rewrite <- Hdiv. replace (a * X * (K * P)) with (a * (X * K * P)) by ring.
      rewrite <- Hscale. ring. }
    assert (E2 : n * (F * G) * (K * P) = (b * (F * K)) * (Y * G)).
    { replace (n * (F * G) * (K * P)) with ((n * P) * (F * K * G)) by ring.
      rewrite <- Hn. ring. }
    assert (E3 : n * ((F + 1) * G) * (K * P) = (b * ((F + 1) * K)) * (Y * G)).
    { replace (n * ((F + 1) * G) * (K * P)) with ((n * P) * ((F + 1) * K * G)) by ring.
      rewrite <- Hn. ring. }
    assert (HYG : 0 < Y * G) by nia.
    assert (L1 : b * (F * K) <= b * q + r) by nia.
    assert (L2 : b * q + r < b * ((F + 1) * K)).
    { assert (b * (q + 1) <= b * ((F + 1) * K)) by (apply Z.mul_le_mono_nonneg_l; lia). lia. }
    split; [split |].
    - apply (Z.mul_le_mono_pos_r _ _ (K * P) HKP). rewrite E1, E2.
      apply Z.mul_le_mono_nonneg_r; lia.
    - apply (Z.mul_lt_mono_pos_r (K * P) _ _ HKP). rewrite E1, E3.
      apply Z.mul_lt_mono_pos_r; lia.
    - intros Heq. assert (Heq' : (b * q + r) * (Y * G) = (b * (F * K)) * (Y * G)).
      { rewrite <- E1, <- E2, Heq. reflexivity. }
      apply Z.mul_cancel_r in Heq'; [| lia].
      assert (Hqe : q = F * K).
      { assert (b * (q - F * K) + r = 0) by lia.
        assert (0 <= q - F * K) by lia.
        destruct (Z.eq_dec (q - F * K) 0); [lia |].
        assert (b * 1 <= b * (q - F * K)) by (apply Z.mul_le_mono_nonneg_l; lia). lia. }
      split; [| exact Hqe].
      assert (b * q = b * (F * K)) by (f_equal; exact Hqe). lia. }
  destruct Hbounds as [Hbounds Hexactq].
  exists E, F, M1.
  split; [exact HE |]. split; [lia |]. split; [exact Hnormal |].
  split; [exact HM1 |]. split; [exact Hbounds |]. split.
  - intros Heq. destruct (Hexactq Heq) as [Hr0 Hqe].
    apply HM1exact; [apply Hexact; exact Hr0 |].
    rewrite Hqe. apply Z.mod_mul. lia.
  - rewrite Hres.
    apply (round_output false M1 E); [| exact HE |].
    + split; [lia |]. lia.
    + intros HEn. specialize (Hnormal HEn). lia.
Qed.

(** A canonical float below the quotient is at most its rounding, one
    above the quotient is at least its rounding. *)
Lemma grid_lower (a : py_float) (E F M1 n ux : Z) :
  nonneg_float a -> -1074 <= E -> 0 <= F < 2 ^ 53 -> (-1074 < E -> 2 ^ 52 <= F) ->
  F <= M1 -> 1 <= n ->
  ux < n * ((F + 1) * 2 ^ (E + 1074)) ->
  n * ulps a <= ux ->
  ulps a <= M1 * 2 ^ (E + 1074).
Proof.
  intros Ha HE HF Hnormal HM1 Hn Hhi Hlo.
  pose proof (pow2_pos (E + 1074) ltac:(lia)) as HG.
  destruct a as [sa|sa| |[] ma ea]; cbn [nonneg_float] in Ha; try contradiction; cbn [ulps] in *.
  - nia.
  - apply bounded_spec in Ha as [Hc _].
    destruct (canonical_facts ma ea Hc) as (Hea & Hma & Hman).
    pose proof (pow2_pos (ea + 1074) ltac:(lia)) as HA.
    assert (H52 : 0 < 2 ^ 52) by reflexivity.
    change (2 ^ 53) with (2 * 2 ^ 52) in *.
    destruct (Z.lt_trichotomy ea E) as [Hlt | [Heq | Hgt]].
    + specialize (Hnormal ltac:(lia)).
      pose proof (pow2_le (ea + 1074 + 1) (E + 1074) ltac:(lia)) as Hle.
      rewrite pow2_succ in Hle by lia.
      revert HG HA Hle Hma Hnormal HM1 H52.
      generalize (2 ^ (E + 1074)) (2 ^ (ea + 1074)) (2 ^ 52) (Z.pos ma).
      intros G A K m HG HA Hle Hma Hnormal HM1 HK.
      assert (S1 : m * A <= 2 * K * A) by nia.
      assert (S2 : 2 * K * A <= K * G) by nia.
      assert (S3 : K * G <= M1 * G) by nia.
      lia.
    + subst ea.
      revert HG Hhi Hlo HM1 Hn.
      generalize (2 ^ (E + 1074)) (Z.pos ma). intros G m HG Hhi Hlo HM1 Hn.
      assert (Hlt : n * (m * G) < n * ((F + 1) * G)) by lia.
      assert (HnG : 0 < n * G) by nia.
      assert (Hm : m < F + 1).
      { apply (Z.mul_lt_mono_pos_r (n * G)); [exact HnG |].
        replace (m * (n * G)) with (n * (m * G)) by ring.
        replace ((F + 1) * (n * G)) with (n * ((F + 1) * G)) by ring. exact Hlt. }
      nia.
    + exfalso. specialize (Hman ltac:(lia)).
      pose proof (pow2_le (E + 1074 + 1) (ea + 1074) ltac:(lia)) as Hle.
      rewrite pow2_succ in Hle by lia.
      revert HG HA Hle Hman Hhi Hlo HF Hn H52.
      generalize (2 ^ (E + 1074)) (2 ^ (ea + 1074)) (2 ^ 52) (Z.pos ma).
      intros G A K m HG HA Hle Hman Hhi Hlo HF Hn HK.
      assert (S1 : (F + 1) * G <= 2 * K * G) by nia.
      assert (S2 : 2 * K * G <= K * A) by nia.
      assert (S3 : K * A <= m * A) by nia.
      assert (S4 : n * ((F + 1) * G) <= n * (m * A)) by (apply Z.mul_le_mono_nonneg_l; lia).
      lia.
Qed.

Lemma grid_upper (b : py_float) (E F M1 n ux : Z) :
  nonneg_float b -> -1074 <= E -> 0 <= F < 2 ^ 53 -> (-1074 < E -> 2 ^ 52 <= F) ->
  F <= M1 <= F + 1 -> 1 <= n ->
  (ux = n * (F * 2 ^ (E + 1074)) -> M1 = F) ->
  n * (F * 2 ^ (E + 1074)) <= ux -> 0 < ux ->
  ux <= n * ulps b ->
  M1 * 2 ^ (E + 1074) <= ulps b.
Proof.
  intros Hb HE HF Hnormal HM1 Hn Hexact Hlo Hpos Hhi.
  pose proof (pow2_pos (E + 1074) ltac:(lia)) as HG.
  destruct b as [sb|sb| |[] mb eb]; cbn [nonneg_float] in Hb; try contradiction; cbn [ulps] in *.
  - lia.
  - apply bounded_spec in Hb as [Hc _].
    destruct (canonical_facts mb eb Hc) as (Heb & Hmb & Hmbn).
    pose proof (pow2_pos (eb + 1074) ltac:(lia)) as HB.
    assert (H52 : 0 < 2 ^ 52) by reflexivity.
    change (2 ^ 53) with (2 * 2 ^ 52) in *.
    destruct (Z.lt_trichotomy eb E) as [Hlt | [Heq | Hgt]].
    + exfalso. specialize (Hnormal ltac:(lia)).
      pose proof (pow2_le (eb + 1074 + 1) (E + 1074) ltac:(lia)) as Hle.
      rewrite pow2_succ in Hle by lia.
      revert HG HB Hle Hmb Hnormal Hlo Hhi Hn H52.
      generalize (2 ^ (E + 1074)) (2 ^ (eb + 1074)) (2 ^ 52) (Z.pos mb).
      intros G B K m HG HB Hle Hmb Hnormal Hlo Hhi Hn HK.
      assert (S1 : m * B < 2 * K * B) by nia.
      assert (S2 : 2 * K * B <= K * G) by nia.
      assert (S3 : K * G <= F * G) by nia.
      assert (S4 : n * (m * B) < n * (F * G)) by (apply Z.mul_lt_mono_pos_l; lia).
      lia.
    + subst eb.
      revert HG Hhi Hlo HM1 Hn Hexact.
      generalize (2 ^ (E + 1074)) (Z.pos mb). intros G m HG Hhi Hlo HM1 Hn Hexact.
      assert (HnG : 0 < n * G) by nia.
      destruct (Z.eq_dec ux (n * (F * G))) as [Heq|Hne].
      * rewrite (Hexact Heq).
        assert (Hle : n * (F * G) <= n * (m * G)) by lia.
        assert (F <= m); [| nia].
        apply (Z.mul_le_mono_pos_r _ _ (n * G) HnG).
        replace (F * (n * G)) with (n * (F * G)) by ring.
        replace (m * (n * G)) with (n * (m * G)) by ring. exact Hle.
      * assert (Hlt : n * (F * G) < n * (m * G)) by lia.
        assert (F < m); [| nia].
        apply (Z.mul_lt_mono_pos_r (n * G)); [exact HnG |].
        replace (F * (n * G)) with (n * (F * G)) by ring.
        replace (m * (n * G)) with (n * (m * G)) by ring. exact Hlt.
    + specialize (Hmbn ltac:(lia)).
      pose proof (pow2_le (E + 1074 + 1) (eb + 1074) ltac:(lia)) as Hle.
      rewrite pow2_succ in Hle by lia.
      revert HG HB Hle Hmbn HM1 HF H52.
      generalize (2 ^ (E + 1074)) (2 ^ (eb + 1074)) (2 ^ 52) (Z.pos mb).
      intros G B K m HG HB Hle Hmbn HM1 HF HK.
      assert (S1 : M1 * G <= 2 * K * G) by nia.
      assert (S2 : 2 * K * G <= K * B) by nia.
      assert (S3 : K * B <= m * B) by nia.
      lia.
Qed.

(** Division by a positive integer, rounded to binary64, is monotone at
    canonical floats: if [n * a <= x <= n * b] exactly, then
    [a <= x / n <= b] for the binary64 quotient. *)
Lemma div_between (x y a b : py_float) (n : Z) :
  nonneg_float x -> nonneg_float y -> ulps y = n * 2 ^ 1074 -> 1 <= n ->
  nonneg_float a -> nonneg_float b ->
  n * ulps a <= ulps x <= n * ulps b ->
  nonneg_float (float_div x y) /\
  ulps a <= ulps (float_div x y) <= ulps b.
Proof.
  intros Hx Hy Hyn Hn Ha Hb [Hlo Hhi].
  pose proof (pow2_pos 1074 ltac:(lia)) as HP.
  pose proof (ulps_nonneg a) as Ha0. pose proof (ulps_nonneg b) as Hb0.
  destruct y as [sy|sy| |[] my ey]; cbn [nonneg_float] in Hy; try contradiction;
    [cbn [ulps] in Hyn; nia |].
  apply bounded_spec in Hy as [Hyc _]. destruct (canonical_facts my ey Hyc) as (Hey & _).
  destruct x as [sx|sx| |[] mx ex]; cbn [nonneg_float] in Hx; try contradiction.
  - (* 0 / n *)
    unfold float_div. cbn [SFdiv xorb ulps nonneg_float] in *.
    split; [exact I |]. destruct sx; cbn [ulps]; nia.
  - apply bounded_spec in Hx as [Hxc _]. destruct (canonical_facts mx ex Hxc) as (Hex & _).
    cbn [ulps] in Hyn, Hlo, Hhi.
    destruct (div_round_spec mx my ex ey n Hex Hey Hyn)
      as (E & F & M1 & HE & HF & Hnormal & HM1 & Hq & Hexact & Hres).
    pose proof (ulps_finite_pos mx ex Hex) as Hxpos. cbn [ulps] in Hxpos.
    assert (HA : ulps a <= M1 * 2 ^ (E + 1074)).
    { apply (grid_lower a E F M1 n (Z.pos mx * 2 ^ (ex + 1074))); try assumption; lia. }
    assert (HB : M1 * 2 ^ (E + 1074) <= ulps b).
    { apply (grid_upper b E F M1 n (Z.pos mx * 2 ^ (ex + 1074))); try assumption; lia. }
    destruct Hres as [[HM0 ->] | (m & e & HMpos & Hc & Hval & ->)].
    + cbn [nonneg_float ulps]. rewrite HM0 in HA. split; [exact I | lia].
    + assert (He : e <= 971).
      { destruct (Z_le_gt_dec e 971) as [Hle|Hgt]; [exact Hle | exfalso].
        destruct b as [sb|sb| |[] mb eb]; cbn [nonneg_float] in Hb; try contradiction;
          cbn [ulps] in HB.
        - pose proof (pow2_pos (E + 1074) ltac:(lia)). nia.
        - apply bounded_spec in Hb as [Hbc Hbe].
          pose proof (canonical_exponent_lt mb m eb e Hbc Hc ltac:(lia)). lia. }
      replace (e <=? 971) with true by (symmetry; apply Z.leb_le; exact He).
      cbn [nonneg_float ulps]. split.
      * apply bounded_spec. split; assumption.
      * rewrite Hval. lia.
Qed.

(** ** Exact results: conversions and sums on a common grid *)

Lemma Zdigits2_scaled (x j : Z) :
  0 < x -> 0 <= j -> Zdigits2 (x * 2 ^ j) = Zdigits2 x + j.
Proof.
  intros Hx Hj.
  pose proof (Zdigits2_bounds x Hx) as [Hlo Hhi].
  pose proof (pow2_pos j Hj) as HP.
  assert (Hd : 1 <= Zdigits2 x) by (destruct x; cbn; lia).
  assert (Hup : Zdigits2 (x * 2 ^ j) <= Zdigits2 x + j).
  { apply Zdigits2_upper; [| lia]. split; [nia |].
    rewrite Z.pow_add_r by lia. nia. }
  assert (Hdown : Zdigits2 x + j - 1 < Zdigits2 (x * 2 ^ j)).
  { apply Zdigits2_lower; [| lia].
    replace (Zdigits2 x + j - 1) with (Zdigits2 x - 1 + j) by lia.
    rewrite Z.pow_add_r by lia. nia. }
  lia.
Qed.

(** [binary_round_aux] returns the value it is given, in canonical form,
    whenever the value fits: [c * 2^q] with [c < 2^53]. *)
Lemma binary_round_aux_fits (s : bool) (mz : positive) (ez c q : Z) :
  -1074 <= ez -> ez <= Z.max (Zdigits2 (Z.pos mz) + ez - 53) (-1074) ->
  -1074 <= q <= 971 -> 0 < c < 2 ^ 53 ->
  Z.pos mz * 2 ^ (ez + 1074) = c * 2 ^ (q + 1074) ->
  exists m e,
    binary_round_aux prec emax s (Z.pos mz) ez loc_Exact = S754_finite s m e /\
    bounded prec emax m e = true /\
    Z.pos m * 2 ^ (e + 1074) = Z.pos mz * 2 ^ (ez + 1074).
Proof.
  intros Hez HezT Hq Hc Hval.
  set (T := Z.max (Zdigits2 (Z.pos mz) + ez - 53) (-1074)) in *.
  destruct (binary_round_aux_shape s (Z.pos mz) ez loc_Exact ltac:(lia))
    as (M1 & HM1 & HM1exact & Hres).
  cbv zeta in Hres.
  assert (HdMc : Zdigits2 (Z.pos mz) + ez = Zdigits2 c + q).
  { assert (Zdigits2 (Z.pos mz * 2 ^ (ez + 1074)) = Zdigits2 (c * 2 ^ (q + 1074)))
      by (rewrite Hval; reflexivity).
    rewrite !Zdigits2_scaled in H by lia. lia. }
  assert (Hdc : 1 <= Zdigits2 c <= 53).
  { split; [destruct c; cbn; lia |]. apply Zdigits2_upper; lia. }
  set (k := Z.max 0 (Z.max (Zdigits2 (Z.pos mz) + ez - 53) (-1074) - ez)) in *.
  assert (HkT : ez + k = T) by (unfold k, T; lia).
  assert (Hk : 0 <= k) by (unfold k; lia).
  assert (HTq : T <= q) by (unfold T; lia).
  pose proof (pow2_pos k Hk) as HPk.
  pose proof (pow2_pos (ez + 1074) ltac:(lia)) as HPez.
  pose proof (pow2_pos (q - T) ltac:(lia)) as HPqT.
  assert (Hmzc : Z.pos mz = c * 2 ^ (q - T) * 2 ^ k).
  { assert (Hv : Z.pos mz * 2 ^ (ez + 1074) = c * 2 ^ (q - T) * 2 ^ k * 2 ^ (ez + 1074)).
    { rewrite Hval. rewrite <- !Z.mul_assoc. f_equal.
      rewrite <- !Z.pow_add_r by lia. f_equal. lia. }
    apply Z.mul_cancel_r in Hv; [exact Hv | lia]. }
  assert (HM1c : M1 = c * 2 ^ (q - T)).
  { rewrite HM1exact; [| reflexivity | rewrite Hmzc; apply Z.mod_mul; lia].
    rewrite Hmzc. apply Z.div_mul. lia. }
  pose proof (Zdigits2_bounds c ltac:(lia)) as [Hclo Hchi].
  assert (HM1hi : M1 < 2 ^ 53).
  { rewrite HM1c. apply Z.lt_le_trans with (2 ^ Zdigits2 c * 2 ^ (q - T)); [nia |].
    rewrite <- Z.pow_add_r by lia. apply pow2_le. unfold T. lia. }
  assert (HM1n : -1074 < T -> 2 ^ 52 <= M1).
  { intros HTn. rewrite HM1c.
    apply Z.le_trans with (2 ^ (Zdigits2 c - 1) * 2 ^ (q - T)); [| nia].
    rewrite <- Z.pow_add_r by lia. apply pow2_le. unfold T in *. lia. }
  rewrite Hres, HkT.
  destruct (round_output s M1 T ltac:(nia) ltac:(lia) HM1n)
    as [[HM0 _] | (m & e & HMpos & Hcan & Hmval & ->)]; [nia |].
  assert (Hvalue : Z.pos m * 2 ^ (e + 1074) = c * 2 ^ (q + 1074)).
  { rewrite Hmval, HM1c. rewrite <- Z.mul_assoc, <- Z.pow_add_r by lia. f_equal. f_equal. lia. }
  assert (He : e <= 971).
  { destruct (Z_le_gt_dec e 971) as [Hle|Hgt]; [exact Hle | exfalso].
    destruct (canonical_facts m e Hcan) as (_ & _ & Hmn). specialize (Hmn ltac:(lia)).
    pose proof (pow2_le (q + 1074 + 1) (e + 1074) ltac:(lia)) as Hle.
    rewrite pow2_succ in Hle by lia.
    pose proof (pow2_pos (q + 1074) ltac:(lia)) as HPq.
    assert (H52 : 0 < 2 ^ 52) by reflexivity.
    change (2 ^ 53) with (2 * 2 ^ 52) in Hc.
    revert Hvalue Hle HPq Hmn Hc H52.
    generalize (2 ^ (e + 1074)) (2 ^ (q + 1074)) (2 ^ 52) (Z.pos m).
    intros P Q K mm Hvalue Hle HPq Hmn Hc HK.
    assert (S1 : c * Q < 2 * K * Q) by nia.
    assert (S2 : 2 * K * Q <= K * P) by nia.
    assert (S3 : K * P <= mm * P) by nia.
    lia. }
  replace (e <=? 971) with true by (symmetry; apply Z.leb_le; exact He).
  exists m, e. split; [reflexivity | split].
  - apply bounded_spec. split; assumption.
  - rewrite Hvalue, Hval. reflexivity.
Qed.

(** So does [binary_round], which aligns the mantissa first. *)
Lemma binary_round_exact (s : bool) (M : positive) (E c q : Z) :
  -1074 <= E -> -1074 <= q <= 971 -> 0 < c < 2 ^ 53 ->
  Z.pos M * 2 ^ (E + 1074) = c * 2 ^ (q + 1074) ->
  exists m e,
    binary_round prec emax s M E = S754_finite s m e /\
    bounded prec emax m e = true /\
    Z.pos m * 2 ^ (e + 1074) = Z.pos M * 2 ^ (E + 1074).
Proof.
  intros HE Hq Hc Hval.
  unfold binary_round. rewrite fexp64.
  set (dM := Z.pos (digits2_pos M)).
  set (T := Z.max (dM + E - 53) (-1074)).
  pose proof (shl_align_spec M E T) as [Hez Hmz].
  destruct (shl_align M E T) as [mz ez]. cbn [fst snd] in Hez, Hmz.
  assert (Hezle : ez <= E /\ ez <= T /\ -1074 <= ez) by (unfold T in *; lia).
  replace (Z.min E T) with ez in Hmz by lia.
  assert (Hdz : Zdigits2 (Z.pos mz) + ez = dM + E).
  { rewrite Hmz, Zdigits2_scaled by lia. cbn [Zdigits2]. fold dM. lia. }
  assert (Hv : Z.pos mz * 2 ^ (ez + 1074) = Z.pos M * 2 ^ (E + 1074)).
  { rewrite Hmz, <- Z.mul_assoc, <- Z.pow_add_r by lia. f_equal. f_equal. lia. }
  destruct (binary_round_aux_fits s mz ez c q) as (m & e & Hr & Hb & Hmv).
  - lia.
  - rewrite Hdz. fold T. lia.
  - exact Hq.
  - exact Hc.
  - rewrite Hv. exact Hval.
  - exists m, e. split; [exact Hr | split; [exact Hb | rewrite Hmv; exact Hv]].
Qed.

Lemma normalize_exact (M : positive) (E c q : Z) :
  -1074 <= E -> -1074 <= q <= 971 -> 0 < c < 2 ^ 53 ->
  Z.pos M * 2 ^ (E + 1074) = c * 2 ^ (q + 1074) ->
  nonneg_float (binary_normalize prec emax (Z.pos M) E false) /\
  ulps (binary_normalize prec emax (Z.pos M) E false) = Z.pos M * 2 ^ (E + 1074).
Proof.
  intros HE Hq Hc Hval. cbn [binary_normalize].
  destruct (binary_round_exact false M E c q HE Hq Hc Hval) as (m & e & -> & Hb & Hv).
  cbn [nonneg_float ulps]. split; assumption.
Qed.

(** [float(n)] is exact for [1 <= n < 2^53]. *)
Lemma float_of_int_exact (n : Z) :
  1 <= n < 2 ^ 53 ->
  exists y, float_of_int n = Ok y /\ nonneg_float y /\ ulps y = n * 2 ^ 1074.
Proof.
  intros Hn. unfold float_of_int. destruct n as [|p|p]; try lia.
  destruct (normalize_exact p 0 (Z.pos p) 0) as [Hnn Hu]; try lia.
  destruct (binary_normalize prec emax (Z.pos p) 0 false) as [s|s| |[] m e] eqn:Hy;
    cbn [nonneg_float] in Hnn; try contradiction.
  - cbn [ulps] in Hu. pose proof (pow2_pos 1074 ltac:(lia)). nia.
  - eexists. split; [reflexivity |]. split; [exact Hnn | exact Hu].
Qed.

(** Adding two non-negative floats is exact when the sum fits. *)
Lemma float_add_exact (x y : py_float) (c q : Z) :
  nonneg_float x -> nonneg_float y ->
  -1074 <= q <= 971 -> 0 <= c < 2 ^ 53 ->
  ulps x + ulps y = c * 2 ^ (q + 1074) ->
  nonneg_float (float_add x y) /\ ulps (float_add x y) = ulps x + ulps y.
Proof.
  intros Hx Hy Hq Hc Hsum. unfold float_add.
  destruct x as [sx|sx| |[] mx ex]; cbn [nonneg_float] in Hx; try contradiction;
    destruct y as [sy|sy| |[] my ey]; cbn [nonneg_float] in Hy; try contradiction.
  - destruct sx, sy; cbn; split; trivial.
  - cbn [SFadd ulps nonneg_float]. split; [exact Hy | lia].
  - cbn [SFadd ulps nonneg_float]. split; [exact Hx | lia].
  - cbn [SFadd cond_Zopp ulps] in *.
    apply bounded_spec in Hx as [Hxc _]. apply bounded_spec in Hy as [Hyc _].
    destruct (canonical_facts mx ex Hxc) as (Hex & _).
    destruct (canonical_facts my ey Hyc) as (Hey & _).
    set (ez := Z.min ex ey).
    pose proof (shl_align_spec mx ex ez) as [_ Hmx].
    pose proof (shl_align_spec my ey ez) as [_ Hmy].
    replace (Z.min ex ez) with ez in Hmx by (unfold ez; lia).
    replace (Z.min ey ez) with ez in Hmy by (unfold ez; lia).
    set (ax := fst (shl_align mx ex ez)) in *. set (ay := fst (shl_align my ey ez)) in *.
    change (Z.pos ax + Z.pos ay) with (Z.pos (ax + ay)).
    assert (Hval : Z.pos (ax + ay) * 2 ^ (ez + 1074)
                   = Z.pos mx * 2 ^ (ex + 1074) + Z.pos my * 2 ^ (ey + 1074)).
    { rewrite Pos2Z.inj_add, Hmx, Hmy, Z.mul_add_distr_r.
      rewrite <- !Z.mul_assoc, <- !Z.pow_add_r by (unfold ez; lia).
      f_equal; f_equal; f_equal; lia. }
    assert (Hcpos : 0 < c).
    { pose proof (ulps_finite_pos mx ex Hex) as H1. cbn [ulps] in H1.
      pose proof (ulps_finite_pos my ey Hey) as H2. cbn [ulps] in H2.
      pose proof (pow2_pos (q + 1074) ltac:(lia)). nia. }
    destruct (normalize_exact (ax + ay) ez c q) as [Hnn Hu]; try lia.
    split; [exact Hnn | rewrite Hu; exact Hval].
Qed.

Lemma total_ulps_nonneg (l : list py_float) : 0 <= total_ulps l.
Proof.
  induction l as [|x l IH]; cbn [total_ulps foldr]; [lia |].
  fold (total_ulps l). pose proof (ulps_nonneg x). lia.
Qed.

(** The left-to-right sum of samples that are multiples of [2^q] is exact
    as long as it stays below [2^53] such steps. *)
Lemma foldl_add_exact (q : Z) (l : list py_float) (acc : py_float) :
  -1074 <= q <= 971 ->
  Forall (fun t => nonneg_float t /\ ulps t mod 2 ^ (q + 1074) = 0) l ->
  nonneg_float acc -> ulps acc mod 2 ^ (q + 1074) = 0 ->
  ulps acc + total_ulps l < 2 ^ 53 * 2 ^ (q + 1074) ->
  nonneg_float (foldl float_add acc l) /\
  ulps (foldl float_add acc l) = ulps acc + total_ulps l.
Proof.
  intros Hq Hl. revert acc. induction Hl as [|t l [Ht Htq] _ IH]; intros acc Hacc Haq Hsum.
  - cbn. split; [exact Hacc | lia].
  - cbn [foldl total_ulps foldr] in *. fold (total_ulps l) in *.
    pose proof (pow2_pos (q + 1074) ltac:(lia)) as HP.
    pose proof (total_ulps_nonneg l) as Hl0.
    pose proof (ulps_nonneg acc) as Ha0. pose proof (ulps_nonneg t) as Ht0.
    apply Z.mod_divide in Haq; [| lia]. destruct Haq as [ca Hca].
    apply Z.mod_divide in Htq; [| lia]. destruct Htq as [ct Hct].
    destruct (float_add_exact acc t (ca + ct) q Hacc Ht Hq) as [Hnn Hu].
    { split; [nia |]. apply (Z.mul_lt_mono_pos_r (2 ^ (q + 1074))); [exact HP |]. nia. }
    { rewrite Hca, Hct. ring. }
    destruct (IH (float_add acc t)) as [Hnn' Hu']; [exact Hnn | | lia |].
    { rewrite Hu, Hca, Hct, <- Z.mul_add_distr_r. apply Z.mod_mul. lia. }
    split; [exact Hnn' | rewrite Hu', Hu; lia].
Qed.

Lemma sum_left_to_right_exact (q : Z) (times : list py_float) :
  -1074 <= q <= 971 ->
  Forall (fun t => nonneg_float t /\ ulps t mod 2 ^ (q + 1074) = 0) times ->
  total_ulps times < 2 ^ 53 * 2 ^ (q + 1074) ->
  exact_sum (sum_left_to_right times) times.
Proof.
  intros Hq Hl Hsum. unfold exact_sum, sum_left_to_right.
  destruct (foldl_add_exact q times (S754_zero false) Hq Hl) as [Hnn Hu].
  - exact I.
  - cbn [ulps]. apply Z.mod_0_l. pose proof (pow2_pos (q + 1074) ltac:(lia)). lia.
  - cbn [ulps]. lia.
  - split; [exact Hnn | rewrite Hu; cbn [ulps]; lia].
Qed.

(** The canonical form of a value is unique. *)
Lemma canonical_unique (m1 m2 : positive) (e1 e2 : Z) :
  bounded prec emax m1 e1 = true -> bounded prec emax m2 e2 = true ->
  Z.pos m1 * 2 ^ (e1 + 1074) = Z.pos m2 * 2 ^ (e2 + 1074) ->
  m1 = m2 /\ e1 = e2.
Proof.
  intros H1 H2 Hv. apply bounded_spec in H1 as [H1 _]. apply bounded_spec in H2 as [H2 _].
  destruct (canonical_facts m1 e1 H1) as (He1 & _).
  destruct (Z.lt_trichotomy e1 e2) as [Hlt | [Heq | Hgt]].
  - pose proof (canonical_exponent_lt m1 m2 e1 e2 H1 H2 Hlt). lia.
  - subst e2. split; [| reflexivity].
    apply Z.mul_cancel_r in Hv; [lia |]. pose proof (pow2_pos (e1 + 1074) ltac:(lia)). lia.
  - pose proof (canonical_exponent_lt m2 m1 e2 e1 H2 H1 Hgt). lia.
Qed.

Lemma shl_align_same (m : positive) (e : Z) : fst (shl_align m e e) = m.
Proof. unfold shl_align. rewrite Z.sub_diag. reflexivity. Qed.

(** [(f - (f + x)) + x] is zero when [f + x] is exact. *)
Lemma sub_sum_add (f x t : py_float) :
  nonneg_float f -> nonneg_float x -> nonneg_float t ->
  ulps t = ulps f + ulps x ->
  exists s, float_add (float_sub f t) x = S754_zero s.
Proof.
  intros Hf Hx Ht Hsum. unfold float_add, float_sub.
  pose proof (ulps_nonneg f) as Hf0. pose proof (ulps_nonneg x) as Hx0.
  destruct t as [st|st| |[] mt et]; cbn [nonneg_float] in Ht; try contradiction.
  - (* t = 0: both are zero *)
    cbn [ulps] in Hsum.
    destruct f as [sf|sf| |[] mf ef]; cbn [nonneg_float] in Hf; try contradiction.
    + destruct x as [sx|sx| |[] mx ex]; cbn [nonneg_float] in Hx; try contradiction.
      * destruct sf, st, sx; cbn; eauto.
      * apply bounded_spec in Hx as [Hxc _]. destruct (canonical_facts mx ex Hxc) as (Hex & _).
        pose proof (ulps_finite_pos mx ex Hex). lia.
    + apply bounded_spec in Hf as [Hfc _]. destruct (canonical_facts mf ef Hfc) as (Hef & _).
      pose proof (ulps_finite_pos mf ef Hef). lia.
  - pose proof Ht as Htb. apply bounded_spec in Ht as [Htc _].
    destruct (canonical_facts mt et Htc) as (Het & _).
    destruct f as [sf|sf| |[] mf ef]; cbn [nonneg_float] in Hf; try contradiction.
    + (* f = 0, so t = x *)
      destruct x as [sx|sx| |[] mx ex]; cbn [nonneg_float] in Hx; try contradiction.
      * cbn [ulps] in Hsum. pose proof (ulps_finite_pos mt et Het) as Hp. cbn [ulps] in Hp. lia.
      * cbn [ulps] in Hsum.
        destruct (canonical_unique mt mx et ex Htb Hx) as [-> ->]; [lia |].
        cbn [SFsub negb SFadd cond_Zopp]. rewrite Z.min_id, shl_align_same.
        rewrite Z.add_opp_diag_l. cbn. eauto.
    + pose proof Hf as Hfb. apply bounded_spec in Hf as [Hfc _].
      destruct (canonical_facts mf ef Hfc) as (Hef & _).
      destruct x as [sx|sx| |[] mx ex]; cbn [nonneg_float] in Hx; try contradiction.
      * (* x = 0, so t = f *)
        cbn [ulps] in Hsum.
        destruct (canonical_unique mt mf et ef Htb Hfb) as [-> ->]; [lia |].
        cbn [SFsub cond_Zopp]. rewrite Z.min_id, shl_align_same, Z.sub_diag.
        destruct sx; cbn; eauto.
      * pose proof Hx as Hxb. apply bounded_spec in Hx as [Hxc _].
        destruct (canonical_facts mx ex Hxc) as (Hex & _).
        cbn [ulps] in Hsum.
        (* f - t = - x, exactly *)
        cbn [SFsub cond_Zopp].
        set (ez := Z.min ef et).
        pose proof (shl_align_spec mf ef ez) as [_ Hmf].
        pose proof (shl_align_spec mt et ez) as [_ Hmt].
        replace (Z.min ef ez) with ez in Hmf by (unfold ez; lia).
        replace (Z.min et ez) with ez in Hmt by (unfold ez; lia).
        set (af := fst (shl_align mf ef ez)) in *. set (at' := fst (shl_align mt et ez)) in *.
        assert (Hez : -1074 <= ez) by (unfold ez; lia).
        pose proof (pow2_pos (ez + 1074) ltac:(lia)) as HPez.
        assert (Haf : Z.pos af * 2 ^ (ez + 1074) = Z.pos mf * 2 ^ (ef + 1074)).
        { rewrite Hmf, <- Z.mul_assoc, <- Z.pow_add_r by (unfold ez; lia).
          f_equal. f_equal. lia. }
        assert (Hat : Z.pos at' * 2 ^ (ez + 1074) = Z.pos mt * 2 ^ (et + 1074)).
        { rewrite Hmt, <- Z.mul_assoc, <- Z.pow_add_r by (unfold ez; lia).
          f_equal. f_equal. lia. }
        assert (Hdiff : (Z.pos at' - Z.pos af) * 2 ^ (ez + 1074) = Z.pos mx * 2 ^ (ex + 1074))
          by (rewrite Z.mul_sub_distr_r, Haf, Hat; lia).
        pose proof (ulps_finite_pos mx ex Hex) as Hxpos. cbn [ulps] in Hxpos.
        destruct (Z.pos af - Z.pos at') as [|p|p] eqn:Hd; [nia | nia |].
        assert (Hp : Z.pos p = Z.pos at' - Z.pos af) by lia.
        cbn [binary_normalize].
        destruct (canonical_facts mx ex Hxc) as (_ & Hmx53 & _).
        assert (Hexr : -1074 <= ex <= 971) by (apply bounded_spec in Hxb; lia).
        assert (Hpv : Z.pos p * 2 ^ (ez + 1074) = Z.pos mx * 2 ^ (ex + 1074))
          by (rewrite Hp; exact Hdiff).
        destruct (binary_round_exact true p ez (Z.pos mx) ex Hez Hexr ltac:(lia) Hpv)
          as (m & e & -> & Hb & Hv).
        rewrite Hpv in Hv.
        destruct (canonical_unique m mx e ex Hb Hxb Hv) as [-> ->].
        cbn [SFadd cond_Zopp]. rewrite Z.min_id, shl_align_same, Z.add_opp_diag_l.
        cbn. eauto.
Qed.

Lemma float_add_zero_r (c : py_float) (s : bool) :
  (exists sc, c = S754_zero sc) -> exists s', float_add c (S754_zero s) = S754_zero s'.
Proof. intros [sc ->]. destruct sc, s; cbn; eauto. Qed.

(** One step of the compensated sum on exact data: the running sum is
    exact and the compensation stays zero. *)
Lemma neumaier_step_exact (q : Z) (f c x : py_float) :
  -1074 <= q <= 971 ->
  nonneg_float f -> ulps f mod 2 ^ (q + 1074) = 0 ->
  nonneg_float x -> ulps x mod 2 ^ (q + 1074) = 0 ->
  ulps f + ulps x < 2 ^ 53 * 2 ^ (q + 1074) ->
  (exists sc, c = S754_zero sc) ->
  nonneg_float (neumaier_step (f, c) x).1 /\
  ulps (neumaier_step (f, c) x).1 = ulps f + ulps x /\
  (exists sc, (neumaier_step (f, c) x).2 = S754_zero sc).
Proof.
  intros Hq Hf Hfq Hx Hxq Hsum Hc.
  pose proof (pow2_pos (q + 1074) ltac:(lia)) as HP.
  pose proof (ulps_nonneg f) as Hf0. pose proof (ulps_nonneg x) as Hx0.
  apply Z.mod_divide in Hfq; [| lia]. destruct Hfq as [cf Hcf].
  apply Z.mod_divide in Hxq; [| lia]. destruct Hxq as [cx Hcx].
  destruct (float_add_exact f x (cf + cx) q Hf Hx Hq) as [Hnn Hu].
  { split; [nia |]. apply (Z.mul_lt_mono_pos_r (2 ^ (q + 1074))); [exact HP |]. nia. }
  { rewrite Hcf, Hcx. ring. }
  cbn [neumaier_step fst snd]. split; [exact Hnn | split; [exact Hu |]].
  destruct (float_le (SFabs x) (SFabs f)).
  - destruct (sub_sum_add f x (float_add f x) Hf Hx Hnn Hu) as [s ->].
    apply float_add_zero_r. exact Hc.
  - assert (Hu' : ulps (float_add f x) = ulps x + ulps f) by lia.
    destruct (sub_sum_add x f (float_add f x) Hx Hf Hnn Hu') as [s ->].
    apply float_add_zero_r. exact Hc.
Qed.

Lemma foldl_neumaier_exact (q : Z) (l : list py_float) (f c : py_float) :
  -1074 <= q <= 971 ->
  Forall (fun t => nonneg_float t /\ ulps t mod 2 ^ (q + 1074) = 0) l ->
  nonneg_float f -> ulps f mod 2 ^ (q + 1074) = 0 ->
  (exists sc, c = S754_zero sc) ->
  ulps f + total_ulps l < 2 ^ 53 * 2 ^ (q + 1074) ->
  nonneg_float (foldl neumaier_step (f, c) l).1 /\
  ulps (foldl neumaier_step (f, c) l).1 = ulps f + total_ulps l /\
  (exists sc, (foldl neumaier_step (f, c) l).2 = S754_zero sc).
Proof.
  intros Hq Hl. revert f c. induction Hl as [|t l [Ht Htq] _ IH]; intros f c Hf Hfq Hc Hsum.
  - cbn. split; [exact Hf | split; [lia | exact Hc]].
  - cbn [foldl total_ulps foldr] in *. fold (total_ulps l) in *.
    pose proof (total_ulps_nonneg l) as Hl0.
    pose proof (pow2_pos (q + 1074) ltac:(lia)) as HP.
    destruct (neumaier_step_exact q f c t Hq Hf Hfq Ht Htq ltac:(lia) Hc) as (Hnn & Hu & Hc').
    destruct (neumaier_step (f, c) t) as [f' c'] eqn:Hstep. cbn [fst snd] in Hnn, Hu, Hc'.
    destruct (IH f' c') as (Hnn' & Hu' & Hc''); try assumption.
    + rewrite Hu. apply Z.mod_divide in Hfq; [| lia]. destruct Hfq as [cf Hcf].
      apply Z.mod_divide in Htq; [| lia]. destruct Htq as [ct Hct].
      rewrite Hcf, Hct, <- Z.mul_add_distr_r. apply Z.mod_mul. lia.
    + lia.
    + split; [exact Hnn' | split; [lia | exact Hc'']].
Qed.

(** The compensated sum of such samples is exact, too. *)
Lemma sum_compensated_exact (q : Z) (times : list py_float) :
  -1074 <= q <= 971 ->
  Forall (fun t => nonneg_float t /\ ulps t mod 2 ^ (q + 1074) = 0) times ->
  total_ulps times < 2 ^ 53 * 2 ^ (q + 1074) ->
  exact_sum (sum_compensated times) times.
Proof.
  intros Hq Hl Hsum. unfold exact_sum, sum_compensated.
  destruct times as [|x0 rest]; [split; [exact I | reflexivity] |].
  apply Forall_cons in Hl as [[Hx0 Hx0q] Hrest].
  cbn [total_ulps foldr] in *. fold (total_ulps rest) in *.
  assert (H0 : nonneg_float (float_add (S754_zero false) x0) /\
               ulps (float_add (S754_zero false) x0) = ulps x0).
  { destruct x0 as [s|s| |[] m e]; cbn [nonneg_float] in Hx0; try contradiction.
    - destruct s; cbn; split; trivial.
    - cbn. split; [exact Hx0 | reflexivity]. }
  destruct H0 as [Hnn0 Hu0].
  destruct (foldl_neumaier_exact q rest (float_add (S754_zero false) x0) (S754_zero false)
              Hq Hrest Hnn0) as (Hnn & Hu & [sc Hc]).
  - rewrite Hu0. exact Hx0q.
  - eauto.
  - rewrite Hu0. exact Hsum.
  - destruct (foldl neumaier_step _ rest) as [f c]. cbn [fst snd] in *. subst c.
    cbn [is_finite_nonzero]. split; [exact Hnn | rewrite Hu, Hu0; reflexivity].
Qed.

(** ** Exact results: durations from clock readings *)

(** Subtracting a non-negative float from a larger one is exact when the
    difference fits. *)
Lemma float_sub_exact (x y : py_float) (c q : Z) :
  nonneg_float x -> nonneg_float y ->
  -1074 <= q <= 971 -> 0 <= c < 2 ^ 53 ->
  ulps x - ulps y = c * 2 ^ (q + 1074) ->
  nonneg_float (float_sub x y) /\ ulps (float_sub x y) = ulps x - ulps y.
Proof.
  intros Hx Hy Hq Hc Hdiff. unfold float_sub.
  pose proof (pow2_pos (q + 1074) ltac:(lia)) as HPq.
  destruct x as [sx|sx| |[] mx ex]; cbn [nonneg_float] in Hx; try contradiction;
    destruct y as [sy|sy| |[] my ey]; cbn [nonneg_float] in Hy; try contradiction.
  - destruct sx, sy; cbn; split; trivial.
  - apply bounded_spec in Hy as [Hyc _]. destruct (canonical_facts my ey Hyc) as (Hey & _).
    pose proof (ulps_finite_pos my ey Hey) as Hp. cbn [ulps] in Hdiff, Hp. nia.
  - cbn [SFsub ulps nonneg_float]. split; [exact Hx | lia].
  - cbn [SFsub cond_Zopp ulps] in *.
    apply bounded_spec in Hx as [Hxc _]. apply bounded_spec in Hy as [Hyc _].
    destruct (canonical_facts mx ex Hxc) as (Hex & _).
    destruct (canonical_facts my ey Hyc) as (Hey & _).
    set (ez := Z.min ex ey).
    pose proof (shl_align_spec mx ex ez) as [_ Hmx].
    pose proof (shl_align_spec my ey ez) as [_ Hmy].
    replace (Z.min ex ez) with ez in Hmx by (unfold ez; lia).
    replace (Z.min ey ez) with ez in Hmy by (unfold ez; lia).
    set (ax := fst (shl_align mx ex ez)) in *. set (ay := fst (shl_align my ey ez)) in *.
    assert (Hez : -1074 <= ez) by (unfold ez; lia).
    pose proof (pow2_pos (ez + 1074) ltac:(lia)) as HPez.
    assert (Hval : (Z.pos ax - Z.pos ay) * 2 ^ (ez + 1074)
                   = Z.pos mx * 2 ^ (ex + 1074) - Z.pos my * 2 ^ (ey + 1074)).
    { rewrite Z.mul_sub_distr_r, Hmx, Hmy.
      rewrite <- !Z.mul_assoc, <- !Z.pow_add_r by (unfold ez; lia).
      f_equal; f_equal; f_equal; lia. }
    rewrite Hdiff in Hval.
    destruct (Z.pos ax - Z.pos ay) as [|p|p] eqn:Hd.
    + cbn. split; [trivial | nia].
    + assert (Hcpos : 0 < c < 2 ^ 53) by nia.
      destruct (normalize_exact p ez c q Hez Hq Hcpos Hval) as [Hnn Hu].
      split; [exact Hnn | rewrite Hu; lia].
    + exfalso. nia.
Qed.

(** Multiplying by [1000] is exact when the product fits. *)
Lemma times_1000_exact (x : py_float) (c q : Z) :
  nonneg_float x -> -979 <= q <= 968 -> 0 <= c -> c * 125 < 2 ^ 53 ->
  ulps x = c * 2 ^ (q + 1074) ->
  nonneg_float (float_mul x f1000) /\ ulps (float_mul x f1000) = 1000 * ulps x.
Proof.
  intros Hx Hq Hc0 Hc Hval. unfold float_mul.
  pose proof (pow2_pos (q + 1074) ltac:(lia)) as HPq.
  destruct x as [sx|sx| |[] mx ex]; cbn [nonneg_float] in Hx; try contradiction.
  - cbn. split; [trivial | reflexivity].
  - cbn [ulps] in Hval.
    apply bounded_spec in Hx as [Hxc Hex971].
    destruct (canonical_facts mx ex Hxc) as (Hex & Hmx53 & Hmxn).
    pose proof (pow2_pos (ex + 1074) ltac:(lia)) as HPex.
    assert (Hcpos : 0 < c) by nia.
    (* the exponent of [x] is well above the smallest one *)
    assert (Hexq : q - 53 < ex).
    { destruct (Z_lt_ge_dec (q - 53) ex) as [Hlt|Hge]; [exact Hlt | exfalso].
      pose proof (pow2_le (ex + 1074 + 53) (q + 1074) ltac:(lia)) as Hle.
      rewrite Z.pow_add_r in Hle by lia. nia. }
    unfold f1000. cbn [SFmul xorb].
    set (P := (mx * 8796093022208000)%positive).
    assert (HP : Z.pos P = Z.pos mx * (1000 * 2 ^ 43)) by (unfold P; lia).
    assert (Hez : -1074 <= ex + -43) by lia.
    assert (Hvalue : Z.pos P * 2 ^ (ex + -43 + 1074) = (c * 125) * 2 ^ (q + 3 + 1074)).
    { rewrite HP.
      replace (Z.pos mx * (1000 * 2 ^ 43) * 2 ^ (ex + -43 + 1074))
        with (1000 * (Z.pos mx * (2 ^ 43 * 2 ^ (ex + -43 + 1074)))) by ring.
      rewrite <- Z.pow_add_r by lia.
      replace (43 + (ex + -43 + 1074)) with (ex + 1074) by lia.
      rewrite Hval.
      replace (q + 3 + 1074) with (q + 1074 + 3) by lia.
      rewrite (Z.pow_add_r 2 (q + 1074) 3) by lia. change (2 ^ 3) with 8. ring. }
    assert (Hdig : 53 <= Zdigits2 (Z.pos P)).
    { assert (52 < Zdigits2 (Z.pos P)); [| lia].
      apply Zdigits2_lower; [| lia]. rewrite HP.
      assert (2 ^ 52 <= 1000 * 2 ^ 43) by (vm_compute; discriminate). nia. }
    destruct (binary_round_aux_fits false P (ex + -43) (c * 125) (q + 3)
                Hez ltac:(lia) ltac:(lia) ltac:(lia) Hvalue)
      as (m & e & -> & Hb & Hv).
    cbn [nonneg_float ulps]. split; [exact Hb |].
    rewrite Hv, HP.
    replace (Z.pos mx * (1000 * 2 ^ 43) * 2 ^ (ex + -43 + 1074))
      with (1000 * (Z.pos mx * (2 ^ 43 * 2 ^ (ex + -43 + 1074)))) by ring.
    rewrite <- Z.pow_add_r by lia.
    replace (43 + (ex + -43 + 1074)) with (ex + 1074) by lia. reflexivity.
Qed.

(** A clock reading is a multiple of [2^-22] s. *)
Lemma clock_reading_grid (t : py_float) :
  clock_reading t ->
  exists m, 2 ^ 52 <= m < 2 ^ 53 /\ ulps t = m * 2 ^ 1052.
Proof.
  intros [Hnn [Hlo Hhi]].
  assert (Hpos : 0 < ulps t).
  { assert (0 < 2 ^ 30 * 2 ^ 1074) by (rewrite <- Z.pow_add_r by lia; apply pow2_pos; lia).
    lia. }
  destruct t as [s|s| |[] m e]; cbn [nonneg_float] in Hnn; try contradiction;
    cbn [ulps] in *; try lia.
  apply bounded_spec in Hnn as [Hcan He971].
  destruct (canonical_facts m e Hcan) as (He & Hm53 & Hmn).
  pose proof (pow2_pos (e + 1074) ltac:(lia)) as HPe.
  rewrite <- (Z.pow_add_r 2 30 1074) in Hlo by lia.
  rewrite <- (Z.pow_add_r 2 31 1074) in Hhi by lia.
  assert (Hup : e < -21).
  { destruct (Z_lt_ge_dec e (-21)) as [Hlt|Hge]; [exact Hlt | exfalso].
    specialize (Hmn ltac:(lia)).
    pose proof (pow2_le (31 + 1074) (52 + (e + 1074)) ltac:(lia)) as Hle.
    rewrite (Z.pow_add_r 2 52 (e + 1074)) in Hle by lia. nia. }
  assert (Hdown : -23 < e).
  { destruct (Z_lt_ge_dec (-23) e) as [Hlt|Hge]; [exact Hlt | exfalso].
    pose proof (pow2_le (53 + (e + 1074)) (30 + 1074) ltac:(lia)) as Hle.
    rewrite (Z.pow_add_r 2 53 (e + 1074)) in Hle by lia. nia. }
  assert (e = -22) by lia. subst e.
  exists (Z.pos m). split; [split; [apply Hmn; lia | exact Hm53] | reflexivity].
Qed.

(** The duration between two clock readings, the second not before the
    first and less than [2^24] s (194 days) after it, is computed exactly:
    it is a non-negative multiple of [2^-19] ms. *)
Lemma duration_on_grid (start_time end_time : py_float) :
  clock_reading start_time -> clock_reading end_time ->
  fle start_time end_time ->
  ulps end_time - ulps start_time < 2 ^ 24 * 2 ^ 1074 ->
  nonneg_float (float_mul (float_sub end_time start_time) f1000) /\
  ulps (float_mul (float_sub end_time start_time) f1000) = 1000 * (ulps end_time - ulps start_time) /\
  ulps (float_mul (float_sub end_time start_time) f1000) mod 2 ^ (-19 + 1074) = 0.
Proof.
  intros Hs He Hle Hnear.
  destruct (clock_reading_grid start_time Hs) as (ms & Hms & Hus).
  destruct (clock_reading_grid end_time He) as (me & Hme & Hue).
  destruct Hs as [Hsnn _]. destruct He as [Henn _].
  apply float_le_ulps in Hle; [| exact Hsnn | exact Henn].
  assert (HP : 0 < 2 ^ 1052) by (apply pow2_pos; lia).
  assert (Hk : 0 <= me - ms < 2 ^ 46).
  { rewrite Hus, Hue in Hle, Hnear.
    change (2 ^ 1074) with (2 ^ 22 * 2 ^ 1052) in Hnear.
    change (2 ^ 24 * (2 ^ 22 * 2 ^ 1052)) with (2 ^ 46 * 2 ^ 1052) in Hnear. nia. }
  assert (Hdiff : ulps end_time - ulps start_time = (me - ms) * 2 ^ (-22 + 1074)).
  { rewrite Hus, Hue. change (-22 + 1074) with 1052. ring. }
  destruct (float_sub_exact end_time start_time (me - ms) (-22) Henn Hsnn ltac:(lia)
              ltac:(change (2 ^ 53) with (2 ^ 46 * 128); change (2 ^ 46) with 70368744177664 in *; lia) Hdiff)
    as [Hdnn Hdu].
  destruct (times_1000_exact (float_sub end_time start_time) (me - ms) (-22) Hdnn
              ltac:(lia) ltac:(lia)
              ltac:(change (2 ^ 53) with (2 ^ 46 * 128); change (2 ^ 46) with 70368744177664 in *; lia)
              ltac:(rewrite Hdu; exact Hdiff))
    as [Hmnn Hmu].
  split; [exact Hmnn |]. split; [rewrite Hmu, Hdu; reflexivity |].
  rewrite Hmu, Hdu, Hdiff.
  change (-22 + 1074) with 1052. change (-19 + 1074) with 1055.
  replace (1000 * ((me - ms) * 2 ^ 1052)) with (125 * (me - ms) * 2 ^ 1055).
  - apply Z.mod_mul. apply Z.pow_nonzero; lia.
  - change (2 ^ 1055) with (8 * 2 ^ 1052). ring.
Qed.

(** ** The mean of an exact sum *)

Section MeanFacts.
Context {World : Type} `{!Runtime World}.

Lemma nonneg_float_not_nan (x : py_float) : nonneg_float x -> is_nan x = false.
Proof. destruct x as [| | |[]]; cbn; intros H; try reflexivity; destruct H. Qed.

Lemma nonneg_nan_free (times : list py_float) : Forall nonneg_float times -> nan_free times.
Proof. intros H. eapply Forall_impl; [exact H | exact nonneg_float_not_nan]. Qed.

(** The first and the last element of the sorted samples are samples and
    bound every sample. *)
Lemma sorted_extremes (times : list py_float) (mn mx : py_float) :
  nan_free times ->
  py_getitem (py_sorted times) 0 = Ok mn ->
  py_getitem (py_sorted times) (-1) = Ok mx ->
  mn ∈ times /\ mx ∈ times /\ forall x, x ∈ times -> fle mn x /\ fle x mx.
Proof.
  intros Hnan Hmn Hmx.
  split; [rewrite <- (py_sorted_perm times); eapply py_getitem_elem_of; exact Hmn |].
  split; [rewrite <- (py_sorted_perm times); eapply py_getitem_elem_of; exact Hmx |].
  intros x Hx. rewrite <- (py_sorted_perm times) in Hx.
  apply list_elem_of_lookup_1 in Hx as [i Hi].
  apply py_getitem_nonneg_Ok in Hmn; [| lia].
  apply py_getitem_neg1_Ok in Hmx.
  pose proof (py_sorted_sorted times Hnan) as Hs.
  pose proof (py_sorted_nan_free times Hnan) as Hn.
  pose proof (lookup_lt_Some _ _ _ Hi) as Hlt.
  split.
  - eapply (StronglySorted_lookup_le _ (Z.to_nat 0) i);
      [exact Hs | exact Hn | lia | exact Hmn | exact Hi].
  - eapply (StronglySorted_lookup_le _ i (Nat.pred (length (py_sorted times))));
      [exact Hs | exact Hn | lia | exact Hi | exact Hmx].
Qed.

Lemma total_ulps_bounds (l : list py_float) (lo hi : Z) :
  (forall x, x ∈ l -> lo <= ulps x <= hi) ->
  Z.of_nat (length l) * lo <= total_ulps l <= Z.of_nat (length l) * hi.
Proof.
  induction l as [|x l IH]; intros Hall; cbn [total_ulps foldr length]; [lia |].
  fold (total_ulps l).
  assert (Hx : lo <= ulps x <= hi) by (apply Hall; left).
  assert (Hl : Z.of_nat (length l) * lo <= total_ulps l <= Z.of_nat (length l) * hi).
  { apply IH. intros y Hy. apply Hall. right. exact Hy. }
  lia.
Qed.

(** When the sum of non-negative samples is exact, the mean -- the
    binary64 quotient of the sum by the count -- lies between the smallest
    and the largest sample. *)
Lemma mean_between (times : list py_float) (mean mn mx : py_float) :
  Forall nonneg_float times ->
  Z.of_nat (length times) < 2 ^ 53 ->
  exact_sum (float_sum times) times ->
  py_true_div (py_sum times) (Z.of_nat (length times)) = Ok mean ->
  py_getitem (py_sorted times) 0 = Ok mn ->
  py_getitem (py_sorted times) (-1) = Ok mx ->
  fle mn mean /\ fle mean mx.
Proof.
  intros Hnn Hlen [Hsnn Hsum] Hmean Hmn Hmx.
  destruct (sorted_extremes times mn mx (nonneg_nan_free times Hnn) Hmn Hmx)
    as (Hmnin & Hmxin & Hall).
  rewrite Forall_forall in Hnn.
  pose proof (Hnn mn Hmnin) as Hmnnn. pose proof (Hnn mx Hmxin) as Hmxnn.
  destruct times as [|t times']; [inversion Hmnin |].
  set (times := t :: times') in *.
  assert (Hn1 : 1 <= Z.of_nat (length times)) by (cbn [length times]; lia).
  destruct (float_of_int_exact (Z.of_nat (length times)) ltac:(lia)) as (y & Hy & Hynn & Hyu).
  change (py_sum times) with (PyFloat (float_sum times)) in Hmean.
  cbn [py_true_div] in Hmean.
  replace (Z.of_nat (length times) =? 0) with false in Hmean
    by (symmetry; apply Z.eqb_neq; lia).
  rewrite Hy in Hmean. cbn [obind] in Hmean. injection Hmean as <-.
  destruct (total_ulps_bounds times (ulps mn) (ulps mx)) as [Hlo Hhi].
  { intros x Hx. destruct (Hall x Hx) as [H1 H2].
    apply float_le_ulps in H1; [| exact Hmnnn | apply Hnn; exact Hx].
    apply float_le_ulps in H2; [| apply Hnn; exact Hx | exact Hmxnn]. lia. }
  destruct (div_between (float_sum times) y mn mx (Z.of_nat (length times)))
    as [Hqnn [Hqlo Hqhi]]; try assumption; [lia |].
  split; apply float_le_ulps; assumption.
Qed.

End MeanFacts.

(** ** Median, percentile and bounds of the statistics *)

Section StatisticsClaims.
Context {World : Type} `{!Runtime World}.

(** C5. For every non-empty sample sequence of length [n], the [median]
    entry of the statistics is the element at index [n // 2] of the sorted
    samples (the upper median for even [n]); the sorted samples are a
    rearrangement of the samples, in ascending order when no sample is
    NaN; the statistics are computed for every non-empty sequence shorter
    than [2^1022]. *)
Theorem median_is_upper_middle (name : string) (times : list py_float) :
  times <> [] ->
  (forall d, statistics name (Z.of_nat (length times)) times = Ok d ->
     exists x, dict_get d "median" = Some (PyFloat x) /\
               py_sorted times !! (length times / 2)%nat = Some x) /\
  py_sorted times ≡ₚ times /\
  (nan_free times -> StronglySorted fle (py_sorted times)) /\
  (Z.of_nat (length times) < 2 ^ 1022 ->
     exists d, statistics name (Z.of_nat (length times)) times = Ok d).
Proof.
  intros Hne.
  split; [| split; [apply py_sorted_perm | split; [apply py_sorted_sorted |]]];
    [| intros Hlen; apply statistics_defined; assumption].
  intros d Hd.
  apply statistics_shape in Hd as (mean & median & mn & mx & i95 & p95 & -> & _ & Hmed & _).
  exists median. split; [reflexivity|].
  apply py_getitem_nonneg_Ok in Hmed; [| apply Z.div_pos; lia].
  rewrite half_index in Hmed. exact Hmed.
Qed.

(** C6. For every non-empty sample sequence of length [n], the [p95] entry
    is the element of the sorted samples at index [int(n * 0.95)], the
    binary64 product truncated towards zero; the sorted samples are a
    rearrangement of the samples, in ascending order when no sample is
    NaN; for [n = 100] the index is 95, and for [n = 10] it is 9
    (truncation of 9.5, not rounding). *)
Theorem p95_is_truncated_rank (name : string) (times : list py_float) :
  times <> [] ->
  (forall d, statistics name (Z.of_nat (length times)) times = Ok d ->
     exists i x, p95_index (Z.of_nat (length times)) = Ok i /\
                 dict_get d "p95" = Some (PyFloat x) /\
                 py_sorted times !! Z.to_nat i = Some x) /\
  py_sorted times ≡ₚ times /\
  (nan_free times -> StronglySorted fle (py_sorted times)) /\
  (Z.of_nat (length times) < 2 ^ 1022 ->
     exists d, statistics name (Z.of_nat (length times)) times = Ok d) /\
  p95_index 100 = Ok 95 /\ p95_index 10 = Ok 9.
Proof.
  intros Hne.
  assert (Hpos : 1 <= Z.of_nat (length times)) by (destruct times; [done | cbn; lia]).
  split; [| split; [apply py_sorted_perm | split; [apply py_sorted_sorted |]]].
  - intros d Hd.
    apply statistics_shape in Hd
      as (mean & median & mn & mx & i95 & p95 & -> & _ & _ & _ & _ & Hi & Hp).
    exists i95, p95. split; [exact Hi | split; [reflexivity|]].
    apply p95_index_upper in Hi; [| exact Hpos].
    apply py_getitem_nonneg_Ok in Hp; [exact Hp | lia].
  - split; [intros Hlen; apply statistics_defined; assumption |].
    split; vm_compute; reflexivity.
Qed.


End StatisticsClaims.

(** C10. For every iteration count [n >= 1] the index [int(n * 0.95)],
    computed in binary64, lies in [0 .. n - 1] whenever it is computed, so
    indexing the [n] sorted samples with it succeeds; it is computed for
    every [n < 2^1022]. *)
Theorem p95_index_in_bounds (n : Z) :
  1 <= n ->
  (forall i, p95_index n = Ok i ->
     0 <= i <= n - 1 /\
     forall times : list py_float, Z.of_nat (length times) = n ->
       exists x, py_getitem (py_sorted times) i = Ok x) /\
  (n < 2 ^ 1022 -> exists i, p95_index n = Ok i).
Proof.
  intros Hn. split.
  - intros i Hi. apply p95_index_upper in Hi; [| exact Hn].
    split; [exact Hi|]. intros times Hlen.
    destruct (py_getitem_in_range (py_sorted times) i) as (x & Hx & _).
    + rewrite py_sorted_length. lia.
    + eauto.
  - intros Hhi. apply p95_index_defined. lia.
Qed.

Lemma median_is_upper_middle_witness :
  map fl [3; 1; 4; 2] <> [] /\
  nan_free (map fl [3; 1; 4; 2]) /\
  py_sorted (map fl [3; 1; 4; 2]) = map fl [1; 2; 3; 4] /\
  stat_field (statistics (World := nat) "bench" 4 (map fl [3; 1; 4; 2])) "median"
  = Some (PyFloat (fl 3)).
Proof.
  assert (Hne : map fl [3; 1; 4; 2] <> []) by discriminate.
  destruct (median_is_upper_middle (World := nat) "bench" (map fl [3; 1; 4; 2]) Hne)
    as (Hmed & _ & _ & Hdef).
  split; [exact Hne |]. split; [repeat constructor |].
  split; [vm_compute; reflexivity |].
  specialize (Hdef ltac:(vm_compute; reflexivity)). destruct Hdef as [d Hd].
  destruct (Hmed d Hd) as (x & Hx & Hlook).
  vm_compute in Hlook. injection Hlook as <-.
  replace (statistics "bench" 4 (map fl [3; 1; 4; 2])) with (Ok d) by (symmetry; exact Hd).
  exact Hx.
Defined.

(** The example of the specification: for samples 1, 2, 3, 4 the median
    is 3; so it is when they are measured in another order. *)
Example median_of_1234 :
  stat_field (statistics (World := nat) "bench" 4 (map fl [1; 2; 3; 4])) "median"
  = Some (PyFloat (fl 3)) /\
  stat_field (statistics (World := nat) "bench" 4 (map fl [4; 1; 3; 2])) "median"
  = Some (PyFloat (fl 3)).
Proof. vm_compute. split; reflexivity. Qed.

Lemma p95_is_truncated_rank_witness :
  map fl [3; 1; 4; 2] <> [] /\
  nan_free (map fl [3; 1; 4; 2]) /\
  py_sorted (map fl [3; 1; 4; 2]) = map fl [1; 2; 3; 4] /\
  p95_index 4 = Ok 3 /\
  stat_field (statistics (World := nat) "bench" 4 (map fl [3; 1; 4; 2])) "p95"
  = Some (PyFloat (fl 4)).
Proof.
  assert (Hne : map fl [3; 1; 4; 2] <> []) by discriminate.
  destruct (p95_is_truncated_rank (World := nat) "bench" (map fl [3; 1; 4; 2]) Hne)
    as (Hp95 & _ & _ & Hdef & _).
  split; [exact Hne |]. split; [repeat constructor |].
  split; [vm_compute; reflexivity |].
  specialize (Hdef ltac:(vm_compute; reflexivity)). destruct Hdef as [d Hd].
  destruct (Hp95 d Hd) as (i & x & Hi & Hx & Hlook).
  vm_compute in Hi. injection Hi as <-.
  vm_compute in Hlook. injection Hlook as <-.
  split; [vm_compute; reflexivity |].
  replace (statistics "bench" 4 (map fl [3; 1; 4; 2])) with (Ok d) by (symmetry; exact Hd).
  exact Hx.
Defined.

(** With the 100 samples 99, 98, ..., 0, measured in descending order, the
    reported p95 is the sample 95, the 96th smallest. *)
Example p95_of_hundred :
  stat_field (statistics (World := nat) "bench" 100 (map fl (reverse (seqZ 0 100)))) "p95"
  = Some (PyFloat (fl 95)).
Proof. vm_compute. reflexivity. Qed.


(** The mean above the maximum, end to end: on a clock that starts at 0 and
    advances by the same tick during each of three calls, [run_benchmark]
    reports a mean above the maximum.  Durations like these need readings
    far finer than the [2^-22] s of [time.time()]: this clock starts
    at 0. *)
Example mean_exceeds_max_in_run_benchmark :
  let r := out (run_benchmark fn_idle [] 3 plain_options three_ticks) in
  let r' := out (run_benchmark (Runtime0 := replay_runtime_compensated)
                   fn_idle [] 3 plain_options three_ticks) in
  float_add tick tick = tick2 /\ float_add tick2 tick = tick3 /\
  stat_field r "min" = Some (PyFloat tick_ms) /\
  stat_field r "max" = Some (PyFloat tick_ms) /\
  stat_field r "mean" = Some (PyFloat tick_ms_up) /\
  stat_field r' "mean" = Some (PyFloat tick_ms_up) /\
  ~ fle tick_ms_up tick_ms.
Proof. vm_compute. repeat split; try reflexivity. discriminate. Qed.

(** On a clock of today's size the durations lie on the grid of
    [2^-19] ms, and [run_benchmark] reports a mean between the minimum and
    the maximum, with either summation routine. *)
Example mean_within_min_max_in_run_benchmark :
  let r := out (run_benchmark fn_idle [] 3 plain_options clock_2025) in
  let r' := out (run_benchmark (Runtime0 := replay_runtime_compensated)
                   fn_idle [] 3 plain_options clock_2025) in
  Forall clock_reading (st_world clock_2025) /\
  out (timed_loop fn_idle [] plain_options 3 0 [] clock_2025) = Ok durations_2025 /\
  on_grid (-19) durations_2025 /\
  (exists mn mean mx,
     stat_field r "min" = Some (PyFloat mn) /\
     stat_field r "mean" = Some (PyFloat mean) /\
     stat_field r "max" = Some (PyFloat mx) /\
     stat_field r' "mean" = Some (PyFloat mean) /\
     fle mn mean /\ fle mean mx).
Proof.
  split.
  { repeat constructor; vm_compute; (reflexivity || discriminate). }
  split; [vm_compute; reflexivity |]. split.
  - split; [lia |]. split; [| vm_compute; reflexivity].
    repeat constructor; vm_compute; reflexivity.
  - vm_compute. do 3 eexists. repeat split; reflexivity.
Qed.

(** The float literals used above are the binary64 values nearest to the
    decimal ones. *)
Example literals_are_nearest :
  Z.abs (100 * Z.pos c095_m - 95 * 2 ^ 53) <= 50 /\
  Z.abs (10 * 7205759403792794 - 2 ^ 56) <= 5 /\
  f1000 = S754_finite false (1000 * 2 ^ 43) (-43).
Proof. vm_compute. repeat split; discriminate. Qed.


Lemma p95_index_in_bounds_witness :
  1 <= 100 /\
  ((forall i, p95_index 100 = Ok i ->
      0 <= i <= 100 - 1 /\
      forall times : list py_float, Z.of_nat (length times) = 100 ->
        exists x, py_getitem (py_sorted times) i = Ok x) /\
   (100 < 2 ^ 1022 -> exists i, p95_index 100 = Ok i)).
Proof. split; [lia | apply (p95_index_in_bounds 100); lia]. Defined.

(** ** Runs of the engine monad *)

Section MonadFacts.
Context {World : Type}.

Lemma run_bind {A B} (m : M World A) (k : A -> M World B) (s : rstate World) :
  bind m k s =
    match out (m s) with
    | Ok a => (out (k a (final (m s))), final (k a (final (m s))),
               trace (m s) ++ trace (k a (final (m s))))
    | Raise e => (Raise e, final (m s), trace (m s))
    end.
Proof.
  unfold bind, out, final, trace. destruct (m s) as [[[a|e] s1] t1]; cbn; [|reflexivity].
  destruct (k a s1) as [[r s2] t2]. reflexivity.
Qed.

Lemma run_try_catch {A} (m : M World A) (h : exn -> M World A) (s : rstate World) :
  try_catch m h s =
    match out (m s) with
    | Ok a => (Ok a, final (m s), trace (m s))
    | Raise e => (out (h e (final (m s))), final (h e (final (m s))),
                  trace (m s) ++ trace (h e (final (m s))))
    end.
Proof.
  unfold try_catch, out, final, trace. destruct (m s) as [[[a|e] s1] t1]; cbn; [reflexivity|].
  destruct (h e s1) as [[r s2] t2]. reflexivity.
Qed.

Lemma run_invoke (r : role) (c : callable World) (args : list pyval) (s : rstate World) :
  invoke r c args s =
    ((c_call c args (st_world s)).1,
     set_world (c_call c args (st_world s)).2 s,
     [mk_event r args (c_call c args (st_world s)).1]).
Proof. unfold invoke. destruct (c_call c args (st_world s)). reflexivity. Qed.

(** *** Events of a computation *)

Lemma all_events_ret (P : event -> Prop) {A} (a : A) : all_events P (ret (World := World) a).
Proof. intros s. constructor. Qed.

Lemma all_events_lift (P : event -> Prop) {A} (r : outcome A) :
  all_events P (lift (World := World) r).
Proof. intros s. constructor. Qed.

Lemma all_events_raise (P : event -> Prop) {A} (e : exn) :
  all_events P (raise (World := World) (A := A) e).
Proof. intros s. constructor. Qed.

Lemma all_events_bind (P : event -> Prop) {A B} (m : M World A) (k : A -> M World B) :
  all_events P m -> (forall a, all_events P (k a)) -> all_events P (bind m k).
Proof.
  intros Hm Hk s. rewrite run_bind. specialize (Hm s).
  destruct (out (m s)) as [a|e]; cbn [trace snd]; [| exact Hm].
  apply Forall_app. split; [exact Hm | apply Hk].
Qed.

Lemma all_events_try_catch (P : event -> Prop) {A} (m : M World A) (h : exn -> M World A) :
  all_events P m -> (forall e, all_events P (h e)) -> all_events P (try_catch m h).
Proof.
  intros Hm Hh s. rewrite run_try_catch. specialize (Hm s).
  destruct (out (m s)) as [a|e]; cbn [trace snd]; [exact Hm |].
  apply Forall_app. split; [exact Hm | apply Hh].
Qed.

Lemma all_events_invoke (P : event -> Prop) (r : role) (c : callable World)
    (args : list pyval) :
  (forall res, P (mk_event r args res)) -> all_events P (invoke r c args).
Proof. intros HP s. rewrite run_invoke. cbn [trace snd]. constructor; [apply HP | constructor]. Qed.

Lemma all_events_open_w (P : event -> Prop) (name : string) :
  all_events P (open_w (World := World) name).
Proof. intros s. constructor. Qed.

Lemma all_events_json_dump (P : event -> Prop) (obj : pyval) (fp : option string)
    (extra : list pyval) (indent : option Z) :
  all_events P (json_dump (World := World) obj fp extra indent).
Proof. intros s. destruct extra, fp; constructor. Qed.

(** *** Propagation of operation failures *)

Lemma operation_raised_app (e : exn) (t1 t2 : list event) :
  operation_raised e (t1 ++ t2) <-> operation_raised e t1 \/ operation_raised e t2.
Proof.
  unfold operation_raised. split.
  - intros (ev & Hin & Hop & Hres). apply elem_of_app in Hin as [Hin|Hin]; [left | right]; eauto.
  - intros [(ev & Hin & H)|(ev & Hin & H)]; exists ev; (split; [| exact H]);
      apply elem_of_app; [left | right]; exact Hin.
Qed.

Lemma operation_raised_nil (e : exn) : ~ operation_raised e [].
Proof. intros (ev & Hin & _). inversion Hin. Qed.

Lemma propagates_no_events {A} (x : outcome A * rstate World * list event) :
  trace x = [] -> propagates x.
Proof. intros Ht e He. rewrite Ht in He. destruct (operation_raised_nil e He). Qed.

Lemma propagates_bind {A B} (m : M World A) (k : A -> M World B) (s : rstate World) :
  propagates (m s) ->
  (forall a, out (m s) = Ok a -> propagates (k a (final (m s)))) ->
  propagates (bind m k s).
Proof.
  intros Hm Hk e. rewrite run_bind.
  destruct (out (m s)) as [a|e0] eqn:Hout; cbn [trace out fst snd].
  - rewrite operation_raised_app. intros [He|He].
    + apply Hm in He. rewrite Hout in He. discriminate.
    + apply (Hk a eq_refl). exact He.
  - intros He. apply Hm in He. rewrite Hout in He. injection He as ->. reflexivity.
Qed.

Lemma propagates_invoke_operation (r : role) (c : callable World) (args : list pyval)
    (s : rstate World) :
  propagates (invoke r c args s).
Proof.
  intros e. rewrite run_invoke. cbn [trace out fst snd].
  intros (ev & Hin & Hop & Hres). apply list_elem_of_singleton in Hin. subst ev.
  exact Hres.
Qed.

(** *** Projections of a bind, frames *)

Lemma out_bind {A B} (m : M World A) (k : A -> M World B) (s : rstate World) :
  out (bind m k s) =
    match out (m s) with Ok a => out (k a (final (m s))) | Raise e => Raise e end.
Proof. rewrite run_bind. destruct (out (m s)); reflexivity. Qed.

Lemma final_bind {A B} (m : M World A) (k : A -> M World B) (s : rstate World) :
  final (bind m k s) =
    match out (m s) with Ok a => final (k a (final (m s))) | Raise _ => final (m s) end.
Proof. rewrite run_bind. destruct (out (m s)); reflexivity. Qed.

Lemma trace_bind {A B} (m : M World A) (k : A -> M World B) (s : rstate World) :
  trace (bind m k s) =
    match out (m s) with
    | Ok a => trace (m s) ++ trace (k a (final (m s)))
    | Raise _ => trace (m s)
    end.
Proof. rewrite run_bind. destruct (out (m s)); reflexivity. Qed.

(** *** Frames *)

Lemma preserves_ret {X A} (f : rstate World -> X) (a : A) : preserves f (ret a).
Proof. intros s. reflexivity. Qed.

Lemma preserves_lift {X A} (f : rstate World -> X) (r : outcome A) : preserves f (lift r).
Proof. intros s. reflexivity. Qed.

Lemma preserves_raise {X A} (f : rstate World -> X) (e : exn) :
  preserves f (raise (A := A) e).
Proof. intros s. reflexivity. Qed.

Lemma preserves_bind {X A B} (f : rstate World -> X) (m : M World A) (k : A -> M World B) :
  preserves f m -> (forall a, preserves f (k a)) -> preserves f (bind m k).
Proof.
  intros Hm Hk s. rewrite final_bind. destruct (out (m s)) as [a|e].
  - rewrite Hk. apply Hm.
  - apply Hm.
Qed.

Lemma preserves_try_catch {X A} (f : rstate World -> X) (m : M World A)
    (h : exn -> M World A) :
  preserves f m -> (forall e, preserves f (h e)) -> preserves f (try_catch m h).
Proof.
  intros Hm Hh s. rewrite run_try_catch. destruct (out (m s)) as [a|e]; cbn [final fst snd].
  - apply Hm.
  - rewrite Hh. apply Hm.
Qed.

(** A call changes the world only. *)
Lemma preserves_invoke {X} (f : rstate World -> X) (r : role) (c : callable World)
    (args : list pyval) :
  (forall w s, f (set_world w s) = f s) -> preserves f (invoke r c args).
Proof. intros Hf s. rewrite run_invoke. apply Hf. Qed.

(** *** Monad laws, pointwise *)

Lemma bind_assoc_run {A B C} (m : M World A) (k : A -> M World B) (h : B -> M World C)
    (s : rstate World) :
  bind (bind m k) h s = bind m (fun a => bind (k a) h) s.
Proof.
  unfold bind. destruct (m s) as [[[a|e] s1] t1]; [|reflexivity].
  destruct (k a s1) as [[[b|e] s2] t2]; [|reflexivity].
  destruct (h b s2) as [[r s3] t3]. rewrite app_assoc. reflexivity.
Qed.

Lemma bind_ret_l_run {A B} (a : A) (k : A -> M World B) (s : rstate World) :
  bind (ret a) k s = k a s.
Proof. unfold bind, ret. destruct (k a s) as [[r s2] t2]. reflexivity. Qed.

Lemma out_lift {A} (r : outcome A) (s : rstate World) : out (lift r s) = r.
Proof. reflexivity. Qed.

Lemma bind_congr {A B} (m : M World A) (k k' : A -> M World B) (s : rstate World) :
  (forall a s', k a s' = k' a s') -> bind m k s = bind m k' s.
Proof.
  intros Hk. unfold bind. destruct (m s) as [[[a|e] s1] t1]; [|reflexivity].
  rewrite Hk. reflexivity.
Qed.

End MonadFacts.

(** ** The executor, [run_benchmark] *)

Section ExecutorFacts.
Context {World : Type} `{!Runtime World}.

Lemma run_clock (s : rstate World) :
  clock s = (Ok (time_time (st_world s)).1, set_world (time_time (st_world s)).2 s, []).
Proof. unfold clock. destruct (time_time (st_world s)). reflexivity. Qed.

Lemma run_now (s : rstate World) :
  now s = (Ok (now_isoformat (st_world s)).1, set_world (now_isoformat (st_world s)).2 s, []).
Proof. unfold now. destruct (now_isoformat (st_world s)). reflexivity. Qed.

Lemma all_events_clock (P : event -> Prop) : all_events P clock.
Proof. intros s. rewrite run_clock. constructor. Qed.

Lemma all_events_now (P : event -> Prop) : all_events P now.
Proof. intros s. rewrite run_now. constructor. Qed.

Lemma all_events_warmup_loop (fn : callable World) (args : list pyval) (k : nat) :
  all_events (bench_event args) (warmup_loop fn args k).
Proof.
  induction k as [|k IH]; cbn [warmup_loop].
  - apply all_events_ret.
  - apply all_events_bind; [| intros _; exact IH].
    apply all_events_invoke. intros res. reflexivity.
Qed.

Lemma all_events_timed_loop (fn : callable World) (args : list pyval)
    (options : bench_options World) (k : nat) (i : Z) (times : list py_float) :
  all_events (bench_event args) (timed_loop fn args options k i times).
Proof.
  revert i times. induction k as [|k IH]; intros i times; cbn [timed_loop].
  - apply all_events_ret.
  - apply all_events_bind; [apply all_events_clock | intros start_time].
    apply all_events_bind; [apply all_events_invoke; intros res; reflexivity | intros result].
    apply all_events_bind; [apply all_events_clock | intros end_time].
    apply all_events_bind; [| intros _; apply IH].
    destruct (bo_on_iteration options) as [cb|].
    + apply all_events_invoke. intros res. exact I.
    + apply all_events_ret.
Qed.

(** Every call recorded by [run_benchmark] is a call of the operation
    with the given arguments, or a call of the iteration callback. *)
Lemma all_events_run_benchmark (fn : callable World) (args : list pyval)
    (iterations : Z) (options : bench_options World) :
  all_events (bench_event args) (run_benchmark fn args iterations options).
Proof.
  unfold run_benchmark.
  apply all_events_bind.
  { destruct (get_bool true (bo_warmup options));
      [apply all_events_warmup_loop | apply all_events_ret]. }
  intros _. apply all_events_bind; [apply all_events_timed_loop | intros times].
  apply all_events_bind; [apply all_events_lift | intros name].
  apply all_events_bind; [apply all_events_lift | intros stats].
  apply all_events_bind; [apply all_events_now | intros timestamp].
  apply all_events_bind; [| intros _; apply all_events_ret].
  destruct (truthy_string (bo_save_file options)) as [save_file|]; [| apply all_events_ret].
  apply all_events_bind; [apply all_events_open_w | intros _; apply all_events_json_dump].
Qed.

Lemma propagates_warmup_loop (fn : callable World) (args : list pyval) (k : nat)
    (s : rstate World) :
  propagates (warmup_loop fn args k s).
Proof.
  revert s. induction k as [|k IH]; intros s; cbn [warmup_loop].
  - apply propagates_no_events. reflexivity.
  - apply propagates_bind; [apply propagates_invoke_operation | intros _ _; apply IH].
Qed.

Lemma propagates_callback (cb : callable World) (args : list pyval) (s : rstate World) :
  propagates (invoke RCallback cb args s).
Proof.
  intros e. rewrite run_invoke. cbn [trace snd].
  intros (ev & Hin & Hop & _). apply list_elem_of_singleton in Hin. subst ev. discriminate.
Qed.

Lemma propagates_timed_loop (fn : callable World) (args : list pyval)
    (options : bench_options World) (k : nat) (i : Z) (times : list py_float)
    (s : rstate World) :
  propagates (timed_loop fn args options k i times s).
Proof.
  revert i times s. induction k as [|k IH]; intros i times s; cbn [timed_loop].
  - apply propagates_no_events. reflexivity.
  - apply propagates_bind; [apply propagates_no_events; rewrite run_clock; reflexivity |].
    intros start_time _.
    apply propagates_bind; [apply propagates_invoke_operation | intros result _].
    apply propagates_bind; [apply propagates_no_events; rewrite run_clock; reflexivity |].
    intros end_time _.
    apply propagates_bind; [| intros _ _; apply IH].
    destruct (bo_on_iteration options) as [cb|].
    + apply propagates_callback.
    + apply propagates_no_events. reflexivity.
Qed.

(** An exception raised by the operation, in the warmup or in a measured
    iteration, leaves [run_benchmark] as it is. *)
Lemma propagates_run_benchmark (fn : callable World) (args : list pyval)
    (iterations : Z) (options : bench_options World) (s : rstate World) :
  propagates (run_benchmark fn args iterations options s).
Proof.
  unfold run_benchmark.
  apply propagates_bind.
  { destruct (get_bool true (bo_warmup options));
      [apply propagates_warmup_loop | apply propagates_no_events; reflexivity]. }
  intros _ _. apply propagates_bind; [apply propagates_timed_loop | intros times _].
  apply propagates_bind; [apply propagates_no_events; reflexivity | intros name _].
  apply propagates_bind; [apply propagates_no_events; reflexivity | intros stats _].
  apply propagates_bind; [apply propagates_no_events; rewrite run_now; reflexivity |].
  intros timestamp _.
  apply propagates_bind; [| intros _ _; apply propagates_no_events; reflexivity].
  destruct (truthy_string (bo_save_file options)) as [save_file|];
    [| apply propagates_no_events; reflexivity].
  apply propagates_bind; [apply propagates_no_events; reflexivity | intros _ _].
  apply propagates_no_events. reflexivity.
Qed.

End ExecutorFacts.

Section ExecutorFrames.
Context {World : Type} `{!Runtime World}.

Lemma preserves_clock {X} (f : rstate World -> X) :
  (forall w s, f (set_world w s) = f s) -> preserves f clock.
Proof. intros Hf s. rewrite run_clock. apply Hf. Qed.

Lemma preserves_now {X} (f : rstate World -> X) :
  (forall w s, f (set_world w s) = f s) -> preserves f now.
Proof. intros Hf s. rewrite run_now. apply Hf. Qed.

Lemma preserves_warmup_loop {X} (f : rstate World -> X) (fn : callable World)
    (args : list pyval) (k : nat) :
  (forall w s, f (set_world w s) = f s) -> preserves f (warmup_loop fn args k).
Proof.
  intros Hf. induction k as [|k IH]; cbn [warmup_loop].
  - apply preserves_ret.
  - apply preserves_bind; [apply preserves_invoke; exact Hf | intros _; exact IH].
Qed.

Lemma preserves_timed_loop {X} (f : rstate World -> X) (fn : callable World)
    (args : list pyval) (options : bench_options World) (k : nat) (i : Z)
    (times : list py_float) :
  (forall w s, f (set_world w s) = f s) ->
  preserves f (timed_loop fn args options k i times).
Proof.
  intros Hf. revert i times. induction k as [|k IH]; intros i times; cbn [timed_loop].
  - apply preserves_ret.
  - apply preserves_bind; [apply preserves_clock; exact Hf | intros start_time].
    apply preserves_bind; [apply preserves_invoke; exact Hf | intros result].
    apply preserves_bind; [apply preserves_clock; exact Hf | intros end_time].
    apply preserves_bind; [| intros _; apply IH].
    destruct (bo_on_iteration options); [apply preserves_invoke; exact Hf | apply preserves_ret].
Qed.

(** The timed loop appends one sample per iteration. *)
Lemma timed_loop_length (fn : callable World) (args : list pyval)
    (options : bench_options World) (k : nat) (i : Z) (times times' : list py_float)
    (s : rstate World) :
  out (timed_loop fn args options k i times s) = Ok times' ->
  length times' = (length times + k)%nat.
Proof.
  revert i times s. induction k as [|k IH]; intros i times s; cbn [timed_loop].
  - intros [= <-]. lia.
  - rewrite out_bind, run_clock. cbn [out fst].
    rewrite out_bind. destruct (out (invoke _ _ _ _)) as [result|]; [|discriminate].
    rewrite out_bind, run_clock. cbn [out fst].
    rewrite out_bind. destruct (out _) as [u|]; [|discriminate].
    intros Hk. apply IH in Hk. rewrite length_app in Hk. cbn in Hk. lia.
Qed.

End ExecutorFrames.

Section ExecutorResult.
Context {World : Type} `{!Runtime World}.

(** [run_benchmark] is: build the results, save them, return them. *)
Lemma run_benchmark_unfold (fn : callable World) (args : list pyval) (iterations : Z)
    (options : bench_options World) (s : rstate World) :
  run_benchmark fn args iterations options s
  = bind (results_of fn args iterations options)
         (fun results => bind (save_results options results) (fun _ => ret results)) s.
Proof.
  unfold run_benchmark, results_of.
  rewrite bind_assoc_run. apply bind_congr. intros u s1.
  rewrite bind_assoc_run. apply bind_congr. intros times s2.
  rewrite bind_assoc_run. apply bind_congr. intros name s2'.
  rewrite bind_assoc_run. apply bind_congr. intros stats s3.
  rewrite bind_assoc_run. apply bind_congr. intros timestamp s4.
  rewrite bind_ret_l_run. reflexivity.
Qed.

Lemma timed_loop_save_file (fn : callable World) (args : list pyval)
    (options : bench_options World) (v : option string) (k : nat) (i : Z)
    (times : list py_float) (s : rstate World) :
  timed_loop fn args (set_save_file v options) k i times s
  = timed_loop fn args options k i times s.
Proof.
  revert i times s. induction k as [|k IH]; intros i times s; cbn [timed_loop]; [reflexivity|].
  cbn [set_save_file bo_on_iteration].
  apply bind_congr. intros start_time s1.
  apply bind_congr. intros result s2.
  apply bind_congr. intros end_time s3.
  apply bind_congr. intros u s4. apply IH.
Qed.

(** The results do not depend on the [save_file] option. *)
Lemma results_of_save_file (fn : callable World) (args : list pyval) (iterations : Z)
    (options : bench_options World) (v : option string) (s : rstate World) :
  results_of fn args iterations (set_save_file v options) s
  = results_of fn args iterations options s.
Proof.
  unfold results_of. cbn [set_save_file bo_warmup bo_name].
  apply bind_congr. intros u s1.
  unfold bind at 1 3. rewrite timed_loop_save_file. reflexivity.
Qed.

End ExecutorResult.

Section ExecutorOutcome.
Context {World : Type} `{!Runtime World}.

(** With a [name] option the result carries that name -- once
    [fn.__name__] has been evaluated. *)
Lemma result_name_named (options : bench_options World) (fn : callable World)
    (n name : string) :
  bo_name options = Some n -> result_name options fn = Ok name -> name = n.
Proof.
  unfold result_name. intros ->.
  destruct (c_name fn); cbn [obind]; [intros [= <-]; reflexivity | discriminate].
Qed.

Lemma results_of_shape (fn : callable World) (args : list pyval) (iterations : Z)
    (options : bench_options World) (s : rstate World) (d : pydict) :
  out (results_of fn args iterations options s) = Ok d ->
  exists times name stats timestamp,
    length times = Z.to_nat iterations /\
    result_name options fn = Ok name /\
    statistics name iterations times = Ok stats /\
    d = stats ++ [("timestamp", PyStr timestamp)].
Proof.
  unfold results_of. rewrite out_bind.
  destruct (out _) as [u|]; [|discriminate].
  rewrite out_bind. destruct (out (timed_loop _ _ _ _ _ _ _)) as [times|] eqn:Ht; [|discriminate].
  apply timed_loop_length in Ht. cbn [length] in Ht.
  rewrite out_bind, out_lift.
  destruct (result_name options fn) as [name|] eqn:Hname; [|discriminate].
  rewrite out_bind, out_lift.
  destruct (statistics _ _ _) as [stats|] eqn:Hstats; [|discriminate].
  rewrite out_bind, run_now. cbn [out fst]. intros [= <-].
  eexists times, name, stats, _.
  split; [lia | split; [reflexivity | split; [exact Hstats | reflexivity]]].
Qed.

Lemma preserves_results_of {X} (f : rstate World -> X) (fn : callable World)
    (args : list pyval) (iterations : Z) (options : bench_options World) :
  (forall w s, f (set_world w s) = f s) ->
  preserves f (results_of fn args iterations options).
Proof.
  intros Hf. unfold results_of.
  apply preserves_bind.
  { destruct (get_bool true (bo_warmup options));
      [apply preserves_warmup_loop; exact Hf | apply preserves_ret]. }
  intros _. apply preserves_bind; [apply preserves_timed_loop; exact Hf | intros times].
  apply preserves_bind; [apply preserves_lift | intros name].
  apply preserves_bind; [apply preserves_lift | intros stats].
  apply preserves_bind; [apply preserves_now; exact Hf | intros ts; apply preserves_ret].
Qed.

(** Without a [save_file], [run_benchmark] returns the results. *)
Lemma run_benchmark_without_save (fn : callable World) (args : list pyval)
    (iterations : Z) (options : bench_options World) (s : rstate World) :
  truthy_string (bo_save_file options) = None ->
  run_benchmark fn args iterations options s = results_of fn args iterations options s.
Proof.
  intros Hsave. rewrite run_benchmark_unfold. unfold save_results. rewrite Hsave.
  unfold bind, ret. destruct (results_of _ _ _ _ s) as [[[d|e] s1] t1]; [|reflexivity].
  cbn. rewrite app_nil_r. reflexivity.
Qed.

(** With a [save_file], [run_benchmark] opens the file and fails in
    [json.dump], whenever it gets that far. *)
Lemma run_benchmark_with_save (fn : callable World) (args : list pyval)
    (iterations : Z) (options : bench_options World) (s : rstate World)
    (save_file : string) :
  truthy_string (bo_save_file options) = Some save_file ->
  run_benchmark fn args iterations options s =
    match out (results_of fn args iterations options s) with
    | Ok _ =>
        (Raise DumpArityError,
         set_files (<[save_file := FileEmpty]>
                      (st_files (final (results_of fn args iterations options s))))
                   (final (results_of fn args iterations options s)),
         trace (results_of fn args iterations options s))
    | Raise e =>
        (Raise e, final (results_of fn args iterations options s),
         trace (results_of fn args iterations options s))
    end.
Proof.
  intros Hsave. rewrite run_benchmark_unfold. unfold save_results. rewrite Hsave.
  unfold bind, out, final, trace, open_w, json_dump, raise.
  destruct (results_of _ _ _ _ s) as [[[d|e] s1] t1]; [|reflexivity].
  cbn. rewrite !app_nil_r. reflexivity.
Qed.

Lemma run_benchmark_Ok (fn : callable World) (args : list pyval)
    (iterations : Z) (options : bench_options World) (s : rstate World) (d : pydict) :
  out (run_benchmark fn args iterations options s) = Ok d ->
  truthy_string (bo_save_file options) = None /\
  out (results_of fn args iterations options s) = Ok d.
Proof.
  destruct (truthy_string (bo_save_file options)) as [f|] eqn:Hsave.
  - rewrite (run_benchmark_with_save _ _ _ _ _ f Hsave).
    destruct (out (results_of _ _ _ _ s)); discriminate.
  - rewrite run_benchmark_without_save by exact Hsave. intros H. split; [reflexivity | exact H].
Qed.

(** With at least one iteration, what [run_benchmark] returns is the
    statistics of the samples it measured, one per iteration, and the
    timestamp. *)
Lemma run_benchmark_reports_statistics (fn : callable World) (args : list pyval)
    (iterations : Z) (options : bench_options World) (s : rstate World) (d : pydict) :
  1 <= iterations ->
  out (run_benchmark fn args iterations options s) = Ok d ->
  exists times name stats timestamp,
    Z.of_nat (length times) = iterations /\
    result_name options fn = Ok name /\
    statistics name (Z.of_nat (length times)) times = Ok stats /\
    d = stats ++ [("timestamp", PyStr timestamp)].
Proof.
  intros Hn Hd. apply run_benchmark_Ok in Hd as [_ Hd].
  apply results_of_shape in Hd as (times & name & stats & ts & Hlen & Hname & Hstats & ->).
  exists times, name, stats, ts.
  assert (Hl : Z.of_nat (length times) = iterations) by lia.
  rewrite Hl. split; [reflexivity | split; [exact Hname | split; [exact Hstats | reflexivity]]].
Qed.

End ExecutorOutcome.

(** ** One benchmark of a suite, [run_entry] *)

Section EntryFacts.
Context {World : Type} `{!Runtime World}.

Lemma cleanup_calls_app (t1 t2 : list event) :
  cleanup_calls (t1 ++ t2) = cleanup_calls t1 ++ cleanup_calls t2.
Proof. unfold cleanup_calls. rewrite filter_app, map_app. reflexivity. Qed.

Lemma operation_calls_app (t1 t2 : list event) :
  operation_calls (t1 ++ t2) = operation_calls t1 ++ operation_calls t2.
Proof. unfold operation_calls. apply filter_app. Qed.

Lemma bench_event_no_cleanup (args : list pyval) (tr : list event) :
  Forall (bench_event args) tr -> cleanup_calls tr = [].
Proof.
  induction 1 as [|ev tr Hev _ IH]; [reflexivity|].
  unfold cleanup_calls in *. rewrite filter_cons.
  unfold bench_event in Hev.
  destruct (ev_role ev); cbn [is_cleanup]; try done;
    (destruct (decide _) as [Hd|Hd]; [discriminate Hd | exact IH]).
Qed.

Lemma bench_event_operation_args (args : list pyval) (tr : list event) :
  Forall (bench_event args) tr ->
  Forall (fun ev => ev_args ev = args) (operation_calls tr).
Proof.
  induction 1 as [|ev tr Hev _ IH]; [constructor|].
  unfold operation_calls in *. rewrite filter_cons.
  unfold bench_event in Hev.
  destruct (ev_role ev) eqn:Hrole; cbn [is_operation];
    destruct (decide _) as [Hd|Hd]; try discriminate Hd; try exact IH;
    try (constructor; assumption); done.
Qed.

Lemma run_setup_trace (b : benchmark World) (s : rstate World) :
  cleanup_calls (trace (run_setup b s)) = [] /\
  operation_calls (trace (run_setup b s)) = [].
Proof.
  unfold run_setup. destruct (b_setup b) as [setup|]; [| split; reflexivity].
  rewrite run_invoke. split; reflexivity.
Qed.

Lemma run_cleanup_trace (b : benchmark World) (ctx : pyval) (s : rstate World) :
  cleanup_calls (trace (run_cleanup b ctx s)) =
    match b_cleanup b with
    | Some _ => if is_none ctx then [] else [[ctx]]
    | None => []
    end /\
  operation_calls (trace (run_cleanup b ctx s)) = [].
Proof.
  unfold run_cleanup. destruct (b_cleanup b) as [cleanup|]; [| split; reflexivity].
  destruct (is_none ctx); [split; reflexivity|].
  rewrite trace_bind, run_invoke. cbn [out fst trace snd].
  destruct (c_call cleanup [ctx] (st_world s)).1; split; reflexivity.
Qed.

(** The handler of [run_entry] records no call. *)
Lemma run_entry_trace (suite_name : string) (options : run_options)
    (b : benchmark World) (s : rstate World) :
  trace (run_entry suite_name options b s) = trace (run_entry_try suite_name options b s).
Proof.
  unfold run_entry. rewrite run_try_catch.
  destruct (out (run_entry_try suite_name options b s));
    cbn [trace snd ret]; [reflexivity | apply app_nil_r].
Qed.

(** [run_entry] always produces an entry: the result, or the failure
    dictionary of the exception that left the [try] block. *)
Lemma run_entry_out (suite_name : string) (options : run_options)
    (b : benchmark World) (s : rstate World) :
  out (run_entry suite_name options b s) =
    match out (run_entry_try suite_name options b s) with
    | Ok d => Ok d
    | Raise e => Ok (failure_entry (b_name b) e)
    end.
Proof.
  unfold run_entry. rewrite run_try_catch.
  destruct (out (run_entry_try suite_name options b s)); reflexivity.
Qed.

Lemma propagates_run_entry_try (suite_name : string) (options : run_options)
    (b : benchmark World) (s : rstate World) :
  propagates (run_entry_try suite_name options b s).
Proof.
  unfold run_entry_try.
  apply propagates_bind.
  { unfold run_setup. destruct (b_setup b);
      [apply propagates_invoke_operation | apply propagates_no_events; reflexivity]. }
  intros ctx _. apply propagates_bind; [apply propagates_run_benchmark | intros result _].
  apply propagates_bind; [| intros _ _; apply propagates_no_events; reflexivity].
  intros e He. destruct (run_cleanup_trace b ctx (final (run_benchmark (b_fn b)
    (if is_none ctx then [] else [ctx]) (default 100 (b_iterations b))
    (suite_bench_options suite_name options b) (final (run_setup b s))))) as [_ Hops].
  destruct He as (ev & Hin & Hop & _).
  assert (Hev : ev ∈ operation_calls (trace (run_cleanup b ctx (final (run_benchmark (b_fn b)
    (if is_none ctx then [] else [ctx]) (default 100 (b_iterations b))
    (suite_bench_options suite_name options b) (final (run_setup b s))))))).
  { unfold operation_calls. apply list_elem_of_filter. split; assumption. }
  rewrite Hops in Hev. inversion Hev.
Qed.

(** An operation failure becomes the failure entry of the benchmark. *)
Lemma run_entry_operation_raised (suite_name : string) (options : run_options)
    (b : benchmark World) (s : rstate World) (e : exn) :
  operation_raised e (trace (run_entry suite_name options b s)) ->
  out (run_entry suite_name options b s) = Ok (failure_entry (b_name b) e) /\
  out (run_entry_try suite_name options b s) = Raise e.
Proof.
  rewrite run_entry_trace. intros He.
  apply propagates_run_entry_try in He. rewrite run_entry_out, He. split; reflexivity.
Qed.

End EntryFacts.

Section EntryClaims.
Context {World : Type} `{!Runtime World}.

Lemma no_operation_calls_not_raised (e : exn) (tr : list event) :
  operation_calls tr = [] -> ~ operation_raised e tr.
Proof.
  intros Hops (ev & Hin & Hop & _).
  assert (Hev : ev ∈ operation_calls tr)
    by (unfold operation_calls; apply list_elem_of_filter; split; assumption).
  rewrite Hops in Hev. inversion Hev.
Qed.

(** Where the calls of one loop iteration come from. *)
Lemma run_entry_try_trace (suite_name : string) (options : run_options)
    (b : benchmark World) (s : rstate World) :
  trace (run_entry_try suite_name options b s) =
    match out (run_setup b s) with
    | Ok ctx =>
        let run := run_benchmark (b_fn b) (if is_none ctx then [] else [ctx])
                     (default 100 (b_iterations b))
                     (suite_bench_options suite_name options b) (final (run_setup b s)) in
        trace (run_setup b s) ++ trace run ++
        match out run with
        | Ok _ => trace (run_cleanup b ctx (final run))
        | Raise _ => []
        end
    | Raise _ => trace (run_setup b s)
    end.
Proof.
  unfold run_entry_try. rewrite trace_bind.
  destruct (out (run_setup b s)) as [ctx|e]; [| reflexivity].
  cbv zeta. f_equal. rewrite trace_bind.
  destruct (out (run_benchmark _ _ _ _ _)) as [result|e]; [| symmetry; apply app_nil_r].
  f_equal. rewrite trace_bind.
  destruct (out (run_cleanup _ _ _)); [apply app_nil_r | reflexivity].
Qed.

Lemma run_entry_try_operation_raised (suite_name : string) (options : run_options)
    (b : benchmark World) (s : rstate World) (e : exn) :
  operation_raised e (trace (run_entry_try suite_name options b s)) ->
  exists ctx,
    out (run_setup b s) = Ok ctx /\
    out (run_benchmark (b_fn b) (if is_none ctx then [] else [ctx])
           (default 100 (b_iterations b))
           (suite_bench_options suite_name options b) (final (run_setup b s))) = Raise e.
Proof.
  rewrite run_entry_try_trace.
  destruct (out (run_setup b s)) as [ctx|e0] eqn:Hsetup.
  - cbv zeta. rewrite !operation_raised_app. intros [He|[He|He]].
    + destruct (no_operation_calls_not_raised e _ (proj2 (run_setup_trace b s)) He).
    + exists ctx. split; [reflexivity|]. apply propagates_run_benchmark. exact He.
    + destruct (out (run_benchmark _ _ _ _ _)).
      * destruct (no_operation_calls_not_raised e _
                    (proj2 (run_cleanup_trace b ctx _)) He).
      * destruct (operation_raised_nil e He).
  - intros He. destruct (no_operation_calls_not_raised e _ (proj2 (run_setup_trace b s)) He).
Qed.

(** The cleanup calls of one loop iteration, for a benchmark with a
    cleanup: one call, with the context, when setup returned a context
    other than [None] and [run_benchmark] returned a result; none
    otherwise. *)
Lemma cleanup_calls_of_entry (suite_name : string) (options : run_options)
    (b : benchmark World) (s : rstate World) (cleanup : callable World) :
  b_cleanup b = Some cleanup ->
  cleanup_calls (trace (run_entry suite_name options b s)) =
    match out (run_setup b s) with
    | Ok ctx =>
        if is_none ctx then []
        else if is_ok (out (run_benchmark (b_fn b) [ctx] (default 100 (b_iterations b))
                              (suite_bench_options suite_name options b)
                              (final (run_setup b s))))
             then [[ctx]] else []
    | Raise _ => []
    end.
Proof.
  intros Hcleanup. rewrite run_entry_trace, run_entry_try_trace.
  destruct (out (run_setup b s)) as [ctx|e0]; [| apply run_setup_trace].
  cbv zeta. rewrite !cleanup_calls_app.
  rewrite (proj1 (run_setup_trace b s)).
  rewrite (bench_event_no_cleanup _ _ (all_events_run_benchmark _ _ _ _ _)).
  cbn [app].
  destruct (is_none ctx) eqn:Hnone.
  - destruct (out (run_benchmark _ _ _ _ _)); [| reflexivity].
    rewrite (proj1 (run_cleanup_trace b ctx _)), Hcleanup, Hnone. reflexivity.
  - destruct (out (run_benchmark _ _ _ _ _)); cbn [is_ok]; [| reflexivity].
    rewrite (proj1 (run_cleanup_trace b ctx _)), Hcleanup, Hnone. reflexivity.
Qed.

(** C1 (amended). For a benchmark of a suite run that has a cleanup: when
    its setup returned a context other than [None] and [run_benchmark]
    returned a result, the cleanup is called exactly once, with that
    context; when its setup raised, or returned [None], the cleanup is
    not called. *)
Theorem cleanup_once_after_successful_run (suite_name : string) (options : run_options)
    (b : benchmark World) (s : rstate World) (cleanup : callable World) :
  b_cleanup b = Some cleanup ->
  (forall ctx,
     out (run_setup b s) = Ok ctx -> ctx <> PyNone ->
     is_ok (out (run_benchmark (b_fn b) [ctx] (default 100 (b_iterations b))
                   (suite_bench_options suite_name options b)
                   (final (run_setup b s)))) = true ->
     cleanup_calls (trace (run_entry suite_name options b s)) = [[ctx]]) /\
  ((exists e, out (run_setup b s) = Raise e) \/ out (run_setup b s) = Ok PyNone ->
   cleanup_calls (trace (run_entry suite_name options b s)) = []).
Proof.
  intros Hcleanup.
  rewrite (cleanup_calls_of_entry suite_name options b s cleanup Hcleanup).
  split.
  - intros ctx -> Hctx ->.
    destruct ctx; try reflexivity. contradiction.
  - intros [[e ->] | ->]; reflexivity.
Qed.

(** When the operation raises, in the warmup or in a measured iteration,
    the cleanup of the benchmark is not called. *)
Lemma cleanup_skipped_on_operation_failure (suite_name : string) (options : run_options)
    (b : benchmark World) (s : rstate World) (e : exn) :
  operation_raised e (trace (run_entry suite_name options b s)) ->
  cleanup_calls (trace (run_entry suite_name options b s)) = [].
Proof.
  intros He. rewrite run_entry_trace in *.
  pose proof (run_entry_try_operation_raised _ _ _ _ _ He) as (ctx & Hsetup & Hrun).
  rewrite run_entry_try_trace, Hsetup. cbv zeta. rewrite Hrun.
  rewrite !cleanup_calls_app, (proj1 (run_setup_trace b s)).
  rewrite (bench_event_no_cleanup _ _ (all_events_run_benchmark _ _ _ _ _)).
  reflexivity.
Qed.

End EntryClaims.

(** C1, as stated, fails: setup succeeds with the context ["ctx"], a
    cleanup is defined, the operation raises, and the cleanup is not
    called. *)
Lemma cleanup_skipped_when_operation_raises :
  let r := run_entry "entity" no_options bench_failing (initial_state 0) in
  b_cleanup bench_failing = Some cleanup_ok /\
  out (run_setup bench_failing (initial_state 0)) = Ok (PyStr "ctx") /\
  operation_raised boom (trace r) /\
  cleanup_calls (trace r) = [].
Proof.
  cbv zeta. split; [reflexivity | split; [reflexivity | split; [| reflexivity]]].
  exists (mk_event RMeasure [PyStr "ctx"] (Raise boom)).
  split; [| split; reflexivity].
  vm_compute. repeat constructor.
Qed.

Lemma cleanup_once_after_successful_run_witness :
  b_cleanup bench_passing = Some cleanup_ok /\
  out (run_setup bench_passing (initial_state 0)) = Ok (PyStr "ctx") /\
  PyStr "ctx" <> PyNone /\
  is_ok (out (run_benchmark (b_fn bench_passing) [PyStr "ctx"]
                (default 100 (b_iterations bench_passing))
                (suite_bench_options "entity" no_options bench_passing)
                (final (run_setup bench_passing (initial_state 0))))) = true /\
  cleanup_calls (trace (run_entry "entity" no_options bench_passing (initial_state 0)))
  = [[PyStr "ctx"]].
Proof.
  assert (H1 : b_cleanup bench_passing = Some cleanup_ok) by reflexivity.
  assert (H2 : out (run_setup bench_passing (initial_state 0)) = Ok (PyStr "ctx"))
    by reflexivity.
  assert (H3 : PyStr "ctx" <> PyNone) by discriminate.
  assert (H4 : is_ok (out (run_benchmark (b_fn bench_passing) [PyStr "ctx"]
                (default 100 (b_iterations bench_passing))
                (suite_bench_options "entity" no_options bench_passing)
                (final (run_setup bench_passing (initial_state 0))))) = true)
    by (vm_compute; reflexivity).
  repeat (split; [assumption |]).
  exact (proj1 (cleanup_once_after_successful_run "entity" no_options bench_passing
                  (initial_state 0) cleanup_ok H1) (PyStr "ctx") H2 H3 H4).
Defined.

(** When the operation succeeds the cleanup is called once, with the
    context; when setup raises it is not called. *)
Example cleanup_calls_examples :
  cleanup_calls (trace (run_entry "entity" no_options bench_passing (initial_state 0)))
  = [[PyStr "ctx"]] /\
  cleanup_calls (trace (run_entry "entity" no_options bench_bad_setup (initial_state 0)))
  = [].
Proof. split; vm_compute; reflexivity. Qed.

Section NoneContext.
Context {World : Type} `{!Runtime World}.

(** Saving records no call. *)
Lemma trace_run_benchmark (fn : callable World) (args : list pyval) (iterations : Z)
    (options : bench_options World) (s : rstate World) :
  trace (run_benchmark fn args iterations options s)
  = trace (results_of fn args iterations options s).
Proof.
  destruct (truthy_string (bo_save_file options)) as [f|] eqn:Hsave.
  - rewrite (run_benchmark_with_save _ _ _ _ _ f Hsave).
    destruct (out (results_of _ _ _ _ s)); reflexivity.
  - rewrite run_benchmark_without_save by exact Hsave. reflexivity.
Qed.

Lemma operation_calls_head (ev : event) (rest : list event) :
  is_operation (ev_role ev) = true -> operation_calls (ev :: rest) <> [].
Proof.
  intros Hop. unfold operation_calls. rewrite filter_cons.
  destruct (decide _) as [_|Hn]; [discriminate | contradiction].
Qed.

Lemma operation_calls_app_l (t1 t2 : list event) :
  operation_calls t1 <> [] -> operation_calls (t1 ++ t2) <> [].
Proof.
  rewrite operation_calls_app. destruct (operation_calls t1); [done | discriminate].
Qed.

Lemma warmup_loop_calls (fn : callable World) (args : list pyval) (k : nat)
    (s : rstate World) :
  operation_calls (trace (warmup_loop fn args (S k) s)) <> [].
Proof.
  cbn [warmup_loop]. rewrite trace_bind, run_invoke. cbn [out fst trace snd].
  destruct (c_call fn args (st_world s)).1; apply operation_calls_head; reflexivity.
Qed.

Lemma timed_loop_calls (fn : callable World) (args : list pyval)
    (options : bench_options World) (k : nat) (i : Z) (times : list py_float)
    (s : rstate World) :
  operation_calls (trace (timed_loop fn args options (S k) i times s)) <> [].
Proof.
  cbn [timed_loop]. rewrite trace_bind, run_clock. cbn [out fst trace snd app].
  rewrite trace_bind, run_invoke. cbn [out fst trace snd].
  destruct (c_call fn args _).1; apply operation_calls_head; reflexivity.
Qed.

(** With at least one iteration the operation is called. *)
Lemma results_of_calls_operation (fn : callable World) (args : list pyval)
    (iterations : Z) (options : bench_options World) (s : rstate World) :
  1 <= iterations ->
  operation_calls (trace (results_of fn args iterations options s)) <> [].
Proof.
  intros Hn. unfold results_of. rewrite trace_bind.
  set (W := if get_bool true (bo_warmup options)
            then warmup_loop fn args (Z.to_nat (Z.min 10 (iterations / 10)))
            else ret tt).
  destruct (Z.to_nat iterations) as [|k] eqn:Hk; [lia|].
  destruct (out (W s)) as [u|e] eqn:HW.
  - rewrite operation_calls_app. intros Happ. apply app_eq_nil in Happ as [_ Happ].
    revert Happ. rewrite trace_bind.
    destruct (out (timed_loop _ _ _ _ _ _ _)).
    + apply operation_calls_app_l, timed_loop_calls.
    + apply timed_loop_calls.
  - unfold W in *. destruct (get_bool true (bo_warmup options)); [| discriminate HW].
    destruct (Z.to_nat (Z.min 10 (iterations / 10))) as [|k']; [discriminate HW|].
    apply warmup_loop_calls.
Qed.

(** C9. When a benchmark has no setup, or its setup returns [None], every
    call of the operation in its loop iteration has zero arguments, and
    the cleanup is not called, whether or not one is defined; with at
    least one iteration the operation is indeed called. *)
Theorem none_context_no_args_no_cleanup (suite_name : string) (options : run_options)
    (b : benchmark World) (s : rstate World) :
  out (run_setup b s) = Ok PyNone ->
  Forall (fun ev => ev_args ev = [])
         (operation_calls (trace (run_entry suite_name options b s))) /\
  cleanup_calls (trace (run_entry suite_name options b s)) = [] /\
  (1 <= default 100 (b_iterations b) ->
   operation_calls (trace (run_entry suite_name options b s)) <> []).
Proof.
  intros Hsetup. rewrite run_entry_trace, run_entry_try_trace, Hsetup.
  cbv zeta. cbn [is_none].
  set (run := run_benchmark (b_fn b) [] (default 100 (b_iterations b))
                (suite_bench_options suite_name options b) (final (run_setup b s))).
  assert (Hcl : forall s', trace (run_cleanup b PyNone s') = []).
  { intros s'. unfold run_cleanup. destruct (b_cleanup b); reflexivity. }
  assert (Htail : match out run with
                  | Ok _ => trace (run_cleanup b PyNone (final run))
                  | Raise _ => []
                  end = []) by (destruct (out run); [apply Hcl | reflexivity]).
  rewrite Htail, app_nil_r.
  rewrite operation_calls_app, cleanup_calls_app.
  rewrite (proj1 (run_setup_trace b s)), (proj2 (run_setup_trace b s)). cbn [app].
  split; [| split].
  - apply bench_event_operation_args. apply all_events_run_benchmark.
  - eapply bench_event_no_cleanup. apply all_events_run_benchmark.
  - intros Hn. unfold run. rewrite trace_run_benchmark.
    apply results_of_calls_operation. exact Hn.
Qed.

End NoneContext.

Lemma none_context_no_args_no_cleanup_witness :
  out (run_setup bench_none_ctx (initial_state 0)) = Ok PyNone /\
  (Forall (fun ev => ev_args ev = [])
     (operation_calls
        (trace (run_entry "entity" no_options bench_none_ctx (initial_state 0)))) /\
   cleanup_calls (trace (run_entry "entity" no_options bench_none_ctx (initial_state 0)))
   = [] /\
   (1 <= default 100 (b_iterations bench_none_ctx) ->
    operation_calls
      (trace (run_entry "entity" no_options bench_none_ctx (initial_state 0))) <> [])).
Proof.
  split; [reflexivity |].
  apply (none_context_no_args_no_cleanup "entity" no_options bench_none_ctx (initial_state 0)).
  reflexivity.
Defined.

(** ** The orchestrator, [run_suite] *)

Section SuiteFacts.
Context {World : Type} `{!Runtime World}.

Lemma run_entry_Ok (suite_name : string) (options : run_options)
    (b : benchmark World) (s : rstate World) :
  out (run_entry suite_name options b s) = Ok (entry_of (run_entry suite_name options b s)).
Proof.
  unfold entry_of. rewrite run_entry_out.
  destruct (out (run_entry_try suite_name options b s)); reflexivity.
Qed.

Lemma run_entry_try_Ok (suite_name : string) (options : run_options)
    (b : benchmark World) (s : rstate World) (d : pydict) :
  out (run_entry_try suite_name options b s) = Ok d ->
  exists ctx,
    out (run_setup b s) = Ok ctx /\
    out (run_benchmark (b_fn b) (if is_none ctx then [] else [ctx])
           (default 100 (b_iterations b))
           (suite_bench_options suite_name options b) (final (run_setup b s))) = Ok d.
Proof.
  unfold run_entry_try. rewrite out_bind.
  destruct (out (run_setup b s)) as [ctx|]; [|discriminate].
  rewrite out_bind.
  destruct (out (run_benchmark _ _ _ _ _)) as [result|] eqn:Hrun; [|discriminate].
  rewrite out_bind. destruct (out (run_cleanup _ _ _)); [|discriminate].
  intros [= <-]. exists ctx. split; [reflexivity | exact Hrun].
Qed.

(** The entry of a benchmark carries its name and is either a success
    result or a failure result. *)
Lemma run_entry_shape (suite_name : string) (options : run_options)
    (b : benchmark World) (s : rstate World) :
  dict_get (entry_of (run_entry suite_name options b s)) "name" = Some (PyStr (b_name b)) /\
  (is_success_entry (entry_of (run_entry suite_name options b s)) \/
   is_failure_entry (entry_of (run_entry suite_name options b s))).
Proof.
  unfold entry_of. rewrite run_entry_out.
  destruct (out (run_entry_try suite_name options b s)) as [d|e] eqn:Htry.
  - apply run_entry_try_Ok in Htry as (ctx & _ & Hrun).
    apply run_benchmark_Ok in Hrun as [_ Hres].
    apply results_of_shape in Hres as (times & name & stats & ts & _ & Hname & Hstats & ->).
    apply (result_name_named _ _ (b_name b)) in Hname; [subst name | reflexivity].
    apply statistics_shape in Hstats
      as (mean & median & mn & mx & i95 & p95 & -> & _).
    split; [reflexivity | left; reflexivity].
  - split; [reflexivity | right; reflexivity].
Qed.

Lemma entry_states_length (suite_name : string) (options : run_options)
    (bs : list (benchmark World)) (s : rstate World) :
  length (entry_states suite_name options bs s) = length bs.
Proof.
  revert s. induction bs as [|b bs IH]; intros s; cbn [entry_states length];
    [reflexivity | rewrite IH; reflexivity].
Qed.

(** The loop runs every benchmark, in order, each in the state its
    predecessors left, and collects one entry per benchmark. *)
Lemma run_entries_out (suite_name : string) (options : run_options)
    (bs : list (benchmark World)) (s : rstate World) :
  out (run_entries suite_name options bs s) =
    Ok (zip_with (fun b si => entry_of (run_entry suite_name options b si))
          bs (entry_states suite_name options bs s)).
Proof.
  revert s. induction bs as [|b bs IH]; intros s; cbn [run_entries entry_states zip_with];
    [reflexivity|].
  rewrite out_bind, run_entry_Ok, out_bind, IH. reflexivity.
Qed.

Lemma run_suite_out (suite : loc) (options : option loc) (s : rstate World)
    (d : suite_def World) (opts : run_options) :
  st_heap s !! suite = Some (OSuite d) ->
  options_at options s = Some opts ->
  out (run_suite suite options s) =
    Ok (suite_results d (now_isoformat (st_world s)).1
          (zip_with (fun b si => entry_of (run_entry (s_name d) opts b si))
             (s_benchmarks d)
             (entry_states (s_name d) opts (s_benchmarks d) (loop_start s)))).
Proof.
  intros Hsuite Hopts. unfold run_suite.
  assert (Hd : deref_suite suite s = (Ok d, s, [])) by (unfold deref_suite; rewrite Hsuite; reflexivity).
  rewrite out_bind, Hd. cbn [out final fst snd].
  assert (Ho : match options with Some l => deref_options l | None => ret no_options end s
               = (Ok opts, s, [])).
  { unfold options_at in Hopts. destruct options as [l|].
    - unfold deref_options. destruct (st_heap s !! l) as [[|o]|]; try discriminate.
      injection Hopts as ->. reflexivity.
    - injection Hopts as <-. reflexivity. }
  rewrite out_bind, Ho. cbn [out final fst snd].
  assert (Hnow : out (now s) = Ok (now_isoformat (st_world s)).1)
    by (rewrite run_now; reflexivity).
  rewrite out_bind, Hnow. change (final (now s)) with (loop_start s).
  rewrite out_bind, run_entries_out.
  rewrite out_bind.
  destruct (truthy_string (opt_save_file opts)) as [f|]; reflexivity.
Qed.

End SuiteFacts.

Section SuiteClaims.
Context {World : Type} `{!Runtime World}.

Lemma Forall2_zip_with_l {A B C} (P : A -> C -> Prop) (f : A -> B -> C)
    (l : list A) (k : list B) :
  length k = length l -> (forall a b, P a (f a b)) -> Forall2 P l (zip_with f l k).
Proof.
  intros Hlen HP. revert k Hlen. induction l as [|a l IH]; intros [|b k] Hlen;
    try discriminate; cbn [zip_with]; constructor; [apply HP | apply IH].
  cbn in Hlen. lia.
Qed.

(** C2. For a suite definition with [n] benchmark definitions, [run_suite]
    returns a result whose [benchmarks] list has exactly [n] entries, one
    per definition in declaration order, each carrying the name of its
    definition and being either a success result or a failure result;
    every benchmark is run, in the state its predecessors left, whatever
    their outcome. *)
Theorem run_suite_one_entry_per_definition (suite : loc) (options : option loc)
    (s : rstate World) (d : suite_def World) (opts : run_options) :
  st_heap s !! suite = Some (OSuite d) ->
  options_at options s = Some opts ->
  exists timestamp entries,
    out (run_suite suite options s) = Ok (suite_results d timestamp entries) /\
    dict_get (suite_results d timestamp entries) "benchmarks"
      = Some (PyList (map PyDict entries)) /\
    length entries = length (s_benchmarks d) /\
    Forall2 (fun b e => dict_get e "name" = Some (PyStr (b_name b)) /\
                        (is_success_entry e \/ is_failure_entry e))
            (s_benchmarks d) entries /\
    (forall i b si,
       s_benchmarks d !! i = Some b ->
       entry_states (s_name d) opts (s_benchmarks d) (loop_start s) !! i = Some si ->
       entries !! i = Some (entry_of (run_entry (s_name d) opts b si))).
Proof.
  intros Hsuite Hopts.
  eexists _, _. split; [apply (run_suite_out suite options s d opts Hsuite Hopts) |].
  split; [reflexivity |]. split; [| split].
  - rewrite length_zip_with, entry_states_length. lia.
  - apply Forall2_zip_with_l; [apply entry_states_length |].
    intros b si. apply run_entry_shape.
  - intros i b si Hb Hsi. rewrite lookup_zip_with, Hb, Hsi. reflexivity.
Qed.

(** C3. When the operation of benchmark [i] raises [e] in some call, in the
    warmup or in a measured iteration, the exception leaves [run_benchmark],
    and the entry of that benchmark in the suite result is the failure
    dictionary with the message and the trace of [e] and none of the
    statistics fields; the suite result still has one entry per
    definition, and every later benchmark is run. *)
Theorem operation_failure_surfaces_as_entry (suite : loc) (options : option loc)
    (s : rstate World) (d : suite_def World) (opts : run_options)
    (i : nat) (b : benchmark World) (si : rstate World) (e : exn) :
  st_heap s !! suite = Some (OSuite d) ->
  options_at options s = Some opts ->
  s_benchmarks d !! i = Some b ->
  entry_states (s_name d) opts (s_benchmarks d) (loop_start s) !! i = Some si ->
  operation_raised e (trace (run_entry (s_name d) opts b si)) ->
  (exists ctx,
     out (run_setup b si) = Ok ctx /\
     out (run_benchmark (b_fn b) (if is_none ctx then [] else [ctx])
            (default 100 (b_iterations b))
            (suite_bench_options (s_name d) opts b) (final (run_setup b si))) = Raise e) /\
  exists timestamp entries entry,
    out (run_suite suite options s) = Ok (suite_results d timestamp entries) /\
    entries !! i = Some entry /\
    dict_get entry "error" = Some (PyStr (exn_msg e)) /\
    dict_get entry "stack" = Some (PyStr (exn_trace e)) /\
    Forall (fun k => dict_get entry k = None)
           ["iterations"; "total"; "mean"; "median"; "min"; "max"; "p95"] /\
    length entries = length (s_benchmarks d) /\
    (forall j bj sj,
       (i < j)%nat -> s_benchmarks d !! j = Some bj ->
       entry_states (s_name d) opts (s_benchmarks d) (loop_start s) !! j = Some sj ->
       entries !! j = Some (entry_of (run_entry (s_name d) opts bj sj))).
Proof.
  intros Hsuite Hopts Hb Hsi He.
  split.
  { apply run_entry_try_operation_raised. rewrite <- run_entry_trace. exact He. }
  pose proof (run_suite_out suite options s d opts Hsuite Hopts) as Hout.
  eexists _, _, (failure_entry (b_name b) e).
  split; [exact Hout |]. split.
  { rewrite lookup_zip_with, Hb, Hsi. cbn. f_equal. unfold entry_of.
    apply run_entry_operation_raised in He as [-> _]. reflexivity. }
  split; [reflexivity |]. split; [reflexivity |]. split; [repeat constructor |].
  split; [rewrite length_zip_with, entry_states_length; lia |].
  intros j bj sj _ Hbj Hsj. rewrite lookup_zip_with, Hbj, Hsj. reflexivity.
Qed.

End SuiteClaims.

Lemma run_suite_one_entry_per_definition_witness :
  st_heap demo_state !! 1%positive = Some (OSuite demo_suite) /\
  options_at (Some 2%positive) demo_state = Some no_options /\
  exists timestamp entries,
    out (run_suite 1%positive (Some 2%positive) demo_state)
      = Ok (suite_results demo_suite timestamp entries) /\
    length entries = 3%nat /\
    Forall2 (fun b e => dict_get e "name" = Some (PyStr (b_name b)) /\
                        (is_success_entry e \/ is_failure_entry e))
            [bench_passing; bench_failing; bench_passing] entries.
Proof.
  assert (H1 : st_heap demo_state !! 1%positive = Some (OSuite demo_suite)) by reflexivity.
  assert (H2 : options_at (Some 2%positive) demo_state = Some no_options) by reflexivity.
  split; [exact H1 | split; [exact H2 |]].
  destruct (run_suite_one_entry_per_definition 1%positive (Some 2%positive)
              demo_state demo_suite no_options H1 H2)
    as (timestamp & entries & Hout & _ & Hlen & Hall & _).
  exists timestamp, entries. split; [exact Hout | split; [exact Hlen | exact Hall]].
Defined.

(** The end-to-end scenario of the specification: a failing benchmark
    between two passing ones. *)
Example demo_suite_entries :
  match out (run_suite 1%positive (Some 2%positive) demo_state) with
  | Ok results =>
      match dict_get results "benchmarks" with
      | Some (PyList [PyDict e0; PyDict e1; PyDict e2]) =>
          dict_keys e0 = success_keys /\
          e1 = failure_entry "Get Entity" boom /\
          dict_keys e2 = success_keys
      | _ => False
      end
  | Raise _ => False
  end.
Proof. vm_compute. repeat split; reflexivity. Qed.

(** A failure in the warmup: with 20 iterations there are two warmup calls,
    the first one raises, and the benchmark is recorded as failed. *)
Example warmup_failure_example :
  let b := mk_benchmark "Get Entity" fn_boom (Some 20) None None in
  let r := run_entry "entity" no_options b (initial_state 0) in
  trace r = [mk_event RWarmup [] (Raise boom)] /\
  out r = Ok (failure_entry "Get Entity" boom).
Proof. split; vm_compute; reflexivity. Qed.

Lemma operation_failure_surfaces_as_entry_witness :
  let si := final (run_entry "entity" no_options bench_passing (loop_start demo_state)) in
  st_heap demo_state !! 1%positive = Some (OSuite demo_suite) /\
  options_at (Some 2%positive) demo_state = Some no_options /\
  s_benchmarks demo_suite !! 1%nat = Some bench_failing /\
  entry_states "entity" no_options (s_benchmarks demo_suite) (loop_start demo_state) !! 1%nat
    = Some si /\
  operation_raised boom (trace (run_entry "entity" no_options bench_failing si)) /\
  exists timestamp entries entry,
    out (run_suite 1%positive (Some 2%positive) demo_state)
      = Ok (suite_results demo_suite timestamp entries) /\
    entries !! 1%nat = Some entry /\
    dict_get entry "error" = Some (PyStr "boom") /\
    dict_get entry "mean" = None /\
    length entries = 3%nat.
Proof.
  intros si.
  assert (H1 : st_heap demo_state !! 1%positive = Some (OSuite demo_suite)) by reflexivity.
  assert (H2 : options_at (Some 2%positive) demo_state = Some no_options) by reflexivity.
  assert (H3 : s_benchmarks demo_suite !! 1%nat = Some bench_failing) by reflexivity.
  assert (H4 : entry_states "entity" no_options (s_benchmarks demo_suite)
                 (loop_start demo_state) !! 1%nat = Some si) by reflexivity.
  assert (H5 : operation_raised boom (trace (run_entry "entity" no_options bench_failing si))).
  { exists (mk_event RMeasure [PyStr "ctx"] (Raise boom)).
    split; [| split; reflexivity]. vm_compute. repeat constructor. }
  repeat (split; [assumption |]).
  destruct (operation_failure_surfaces_as_entry 1%positive (Some 2%positive) demo_state
              demo_suite no_options 1%nat bench_failing si boom H1 H2 H3 H4 H5)
    as (_ & timestamp & entries & entry & Hout & Hentry & Herr & _ & Hnone & Hlen & _).
  exists timestamp, entries, entry.
  split; [exact Hout | split; [exact Hentry | split; [exact Herr | split; [| exact Hlen]]]].
  apply Forall_cons in Hnone as [_ Hnone]. apply Forall_cons in Hnone as [_ Hnone].
  apply Forall_cons in Hnone as [Hmean _]. exact Hmean.
Defined.

(** ** Saving individual results *)

Section SaveFacts.
Context {World : Type} `{!Runtime World}.

(** C4 (the code departs from it). With a [save_file] option,
    [run_benchmark] never returns: it raises, and when the benchmark itself
    succeeded -- it returns a result without the option -- the exception
    is the [TypeError] of [json.dump(results, None, 2)] and the file has
    been opened and left empty. *)
Theorem save_individual_never_returns (fn : callable World) (args : list pyval)
    (iterations : Z) (options : bench_options World) (save_file : string)
    (s : rstate World) :
  truthy_string (bo_save_file options) = Some save_file ->
  (exists e, out (run_benchmark fn args iterations options s) = Raise e) /\
  (forall d,
     out (run_benchmark fn args iterations (set_save_file None options) s) = Ok d ->
     out (run_benchmark fn args iterations options s) = Raise DumpArityError /\
     st_files (final (run_benchmark fn args iterations options s))
       = <[save_file := FileEmpty]> (st_files s)).
Proof.
  intros Hsave. rewrite (run_benchmark_with_save _ _ _ _ _ save_file Hsave). split.
  - destruct (out (results_of fn args iterations options s)); eauto.
  - intros d. rewrite run_benchmark_without_save by reflexivity.
    rewrite results_of_save_file. intros ->. split; [reflexivity |].
    cbn [final fst snd set_files st_files].
    rewrite (preserves_results_of st_files); [reflexivity |].
    intros w s'. reflexivity.
Qed.

Lemma append_nonempty_r (s1 s2 : string) : s2 <> "" -> s1 +:+ s2 <> "".
Proof. destruct s1; cbn; [done | discriminate]. Qed.

Lemma individual_file_name_nonempty (suite_name name : string) :
  individual_file_name suite_name name <> "".
Proof. unfold individual_file_name. apply append_nonempty_r. discriminate. Qed.

Lemma truthy_string_nonempty (x : string) : x <> "" -> truthy_string (Some x) = Some x.
Proof.
  intros Hx. unfold truthy_string. destruct (String.eqb x "") eqn:Heq; [| reflexivity].
  apply String.eqb_eq in Heq. contradiction.
Qed.

(** With [save_individual] set, as [main] always sets it, every benchmark
    of a suite is recorded as failed. *)
Lemma save_individual_every_entry_fails (suite_name : string) (options : run_options)
    (b : benchmark World) (s : rstate World) :
  get_bool false (opt_save_individual options) = true ->
  is_failure_entry (entry_of (run_entry suite_name options b s)).
Proof.
  intros Hsave. unfold entry_of. rewrite run_entry_out.
  destruct (out (run_entry_try suite_name options b s)) as [d|e] eqn:Htry; [| reflexivity].
  apply run_entry_try_Ok in Htry as (ctx & _ & Hrun).
  apply run_benchmark_Ok in Hrun as [Hnone _].
  cbn [suite_bench_options bo_save_file] in Hnone. rewrite Hsave in Hnone.
  rewrite truthy_string_nonempty in Hnone by apply individual_file_name_nonempty.
  discriminate.
Qed.

End SaveFacts.

Lemma save_individual_never_returns_witness :
  let options := suite_bench_options "entity" save_individual_options bench_passing in
  truthy_string (bo_save_file options) = Some "entity_create_entity.json" /\
  out (run_benchmark fn_ok [PyStr "ctx"] 5 (set_save_file None options) (initial_state 0))
    <> Raise DumpArityError /\
  out (run_benchmark fn_ok [PyStr "ctx"] 5 options (initial_state 0)) = Raise DumpArityError /\
  st_files (final (run_benchmark fn_ok [PyStr "ctx"] 5 options (initial_state 0)))
    = <[ "entity_create_entity.json" := FileEmpty ]> ∅.
Proof.
  intros options.
  assert (H1 : truthy_string (bo_save_file options) = Some "entity_create_entity.json")
    by reflexivity.
  destruct (save_individual_never_returns fn_ok [PyStr "ctx"] 5 options
              "entity_create_entity.json" (initial_state 0) H1) as [_ Hfail].
  destruct (out (run_benchmark fn_ok [PyStr "ctx"] 5 (set_save_file None options)
                   (initial_state 0))) as [d|e] eqn:Hplain; [| discriminate Hplain].
  destruct (Hfail d eq_refl) as [Hout Hfiles].
  split; [exact H1 | split; [discriminate | split; [exact Hout | exact Hfiles]]].
Defined.

(** The file names of individual results. *)
Example individual_file_name_example :
  individual_file_name "entity" "Create Entity" = "entity_create_entity.json" /\
  individual_file_name "relation" "Get Outgoing Relations"
  = "relation_get_outgoing_relations.json".
Proof. split; reflexivity. Qed.

(** The failing input of C4: a benchmark that succeeds, run with
    [save_individual]. *)
Example save_individual_example :
  let r := run_entry "entity" save_individual_options bench_passing (initial_state 0) in
  is_success_entry (entry_of (run_entry "entity" no_options bench_passing (initial_state 0))) /\
  out r = Ok (failure_entry "Create Entity" DumpArityError) /\
  st_files (final r) !! "entity_create_entity.json" = Some FileEmpty /\
  cleanup_calls (trace r) = [].
Proof. vm_compute. repeat split; reflexivity. Qed.

(** ** Definitions and options are read, not written *)

Section FrameFacts.
Context {World : Type} `{!Runtime World}.

Lemma preserves_open_w {X} (f : rstate World -> X) (name : string) :
  (forall fs s, f (set_files fs s) = f s) -> preserves f (open_w name).
Proof. intros Hf s. apply Hf. Qed.

Lemma preserves_json_dump {X} (f : rstate World -> X) (obj : pyval) (fp : option string)
    (extra : list pyval) (indent : option Z) :
  (forall fs s, f (set_files fs s) = f s) -> preserves f (json_dump obj fp extra indent).
Proof. intros Hf s. destruct extra, fp; try reflexivity. apply Hf. Qed.

Lemma preserves_run_benchmark {X} (f : rstate World -> X) (fn : callable World)
    (args : list pyval) (iterations : Z) (options : bench_options World) :
  (forall w s, f (set_world w s) = f s) ->
  (forall fs s, f (set_files fs s) = f s) ->
  preserves f (run_benchmark fn args iterations options).
Proof.
  intros Hw Hf. unfold run_benchmark.
  apply preserves_bind.
  { destruct (get_bool true (bo_warmup options));
      [apply preserves_warmup_loop; exact Hw | apply preserves_ret]. }
  intros _. apply preserves_bind; [apply preserves_timed_loop; exact Hw | intros times].
  apply preserves_bind; [apply preserves_lift | intros name].
  apply preserves_bind; [apply preserves_lift | intros stats].
  apply preserves_bind; [apply preserves_now; exact Hw | intros ts].
  apply preserves_bind; [| intros _; apply preserves_ret].
  destruct (truthy_string (bo_save_file options)); [| apply preserves_ret].
  apply preserves_bind; [apply preserves_open_w; exact Hf |].
  intros _. apply preserves_json_dump. exact Hf.
Qed.

Lemma preserves_run_entry {X} (f : rstate World -> X) (suite_name : string)
    (options : run_options) (b : benchmark World) :
  (forall w s, f (set_world w s) = f s) ->
  (forall fs s, f (set_files fs s) = f s) ->
  preserves f (run_entry suite_name options b).
Proof.
  intros Hw Hf. unfold run_entry, run_entry_try.
  apply preserves_try_catch; [| intros e; apply preserves_ret].
  apply preserves_bind.
  { unfold run_setup. destruct (b_setup b);
      [apply preserves_invoke; exact Hw | apply preserves_ret]. }
  intros ctx. apply preserves_bind; [apply preserves_run_benchmark; assumption |].
  intros result. apply preserves_bind; [| intros _; apply preserves_ret].
  unfold run_cleanup. destruct (b_cleanup b); [| apply preserves_ret].
  destruct (is_none ctx); [apply preserves_ret |].
  apply preserves_bind; [apply preserves_invoke; exact Hw | intros _; apply preserves_ret].
Qed.

Lemma preserves_run_entries {X} (f : rstate World -> X) (suite_name : string)
    (options : run_options) (bs : list (benchmark World)) :
  (forall w s, f (set_world w s) = f s) ->
  (forall fs s, f (set_files fs s) = f s) ->
  preserves f (run_entries suite_name options bs).
Proof.
  intros Hw Hf. induction bs as [|b bs IH]; cbn [run_entries]; [apply preserves_ret |].
  apply preserves_bind; [apply preserves_run_entry; assumption | intros entry].
  apply preserves_bind; [exact IH | intros entries; apply preserves_ret].
Qed.

Lemma preserves_deref_suite {X} (f : rstate World -> X) (l : loc) :
  preserves f (deref_suite l).
Proof. intros s. unfold deref_suite. destruct (st_heap s !! l) as [[|]|]; reflexivity. Qed.

Lemma preserves_deref_options {X} (f : rstate World -> X) (l : loc) :
  preserves f (deref_options l).
Proof. intros s. unfold deref_options. destruct (st_heap s !! l) as [[|]|]; reflexivity. Qed.

(** [run_suite], and with it [run_benchmark], changes the world and the
    files only: no object of the heap, and no module binding. *)
Lemma preserves_run_suite {X} (f : rstate World -> X) (suite : loc) (options : option loc) :
  (forall w s, f (set_world w s) = f s) ->
  (forall fs s, f (set_files fs s) = f s) ->
  preserves f (run_suite suite options).
Proof.
  intros Hw Hf. unfold run_suite.
  apply preserves_bind; [apply preserves_deref_suite | intros d].
  apply preserves_bind.
  { destruct options; [apply preserves_deref_options | apply preserves_ret]. }
  intros opts. apply preserves_bind; [apply preserves_now; exact Hw | intros ts].
  apply preserves_bind; [apply preserves_run_entries; assumption | intros entries].
  apply preserves_bind; [| intros _; apply preserves_ret].
  destruct (truthy_string (opt_save_file opts)); [| apply preserves_ret].
  apply preserves_bind; [apply preserves_open_w; exact Hf |].
  intros _. apply preserves_json_dump. exact Hf.
Qed.

(** The override changes the [iterations] entry of each benchmark, and
    nothing else. *)
Lemma override_iterations_fields (iterations : option Z) (d : suite_def World) :
  s_name (override_iterations iterations d) = s_name d /\
  s_description (override_iterations iterations d) = s_description d /\
  Forall2 (fun b b' =>
             b_name b' = b_name b /\ b_fn b' = b_fn b /\
             b_setup b' = b_setup b /\ b_cleanup b' = b_cleanup b /\
             b_iterations b' = match iterations with
                               | Some n => if n =? 0 then b_iterations b else Some n
                               | None => b_iterations b
                               end)
          (s_benchmarks d) (s_benchmarks (override_iterations iterations d)).
Proof.
  unfold override_iterations. destruct iterations as [n|].
  - destruct (n =? 0).
    + repeat split; try reflexivity. apply Forall2_same_length_lookup. split; [reflexivity|].
      intros i b b' Hb Hb'. rewrite Hb in Hb'. injection Hb' as <-. repeat split; reflexivity.
    + repeat split; try reflexivity. cbn [s_benchmarks].
      apply Forall2_fmap_r. apply Forall_Forall2_diag. apply Forall_forall.
      intros b _. repeat split; reflexivity.
  - repeat split; try reflexivity. apply Forall_Forall2_diag. apply Forall_forall.
    intros b _. repeat split; reflexivity.
Qed.

End FrameFacts.

Section MainClaims.
Context {World : Type} `{!Runtime World}.

(** C8 (amended). [run_suite] and [run_benchmark] modify no benchmark
    definition and no options dictionary: they leave the heap as it is.
    A run of [main] leaves the options dictionary it built as built, and
    every other object untouched, except the loaded suite: with a non-zero
    [--iterations n] it overwrites the [iterations] entry of each of its
    benchmark definitions with [n], in place, and changes no other entry;
    without the override the suite is unchanged. *)
Theorem definitions_change_only_by_override (args : cli_args) (s : rstate World)
    (suite : loc) (d : suite_def World) :
  st_modules s !! (a_suite args +:+ "_suite") = Some suite ->
  st_heap s !! suite = Some (OSuite d) ->
  out (main args s) = Ok 0 /\
  st_heap (final (main args s)) =
    <[suite := OSuite (override_iterations (a_iterations args) d)]>
      (<[fresh (dom (st_heap s)) := OOptions (cli_options args)]> (st_heap s)) /\
  st_modules (final (main args s)) = st_modules s /\
  (forall suite0 options0 s0,
     st_heap (final (run_suite suite0 options0 s0)) = st_heap s0 /\
     st_modules (final (run_suite suite0 options0 s0)) = st_modules s0) /\
  (a_iterations args = None \/ a_iterations args = Some 0 ->
   override_iterations (a_iterations args) d = d) /\
  Forall2 (fun b b' =>
             b_name b' = b_name b /\ b_fn b' = b_fn b /\
             b_setup b' = b_setup b /\ b_cleanup b' = b_cleanup b)
          (s_benchmarks d) (s_benchmarks (override_iterations (a_iterations args) d)).
Proof.
  intros Hmod Hsuite.
  assert (Hframe : forall suite0 options0 s0,
            st_heap (final (run_suite suite0 options0 s0)) = st_heap s0 /\
            st_modules (final (run_suite suite0 options0 s0)) = st_modules s0).
  { intros suite0 options0 s0. split; apply preserves_run_suite; reflexivity. }
  set (ol := fresh (dom (st_heap s))).
  assert (Hol : st_heap s !! ol = None).
  { apply not_elem_of_dom. apply is_fresh. }
  assert (Hne : ol <> suite) by (intros ->; rewrite Hsuite in Hol; discriminate).
  set (s1 := set_heap (<[ol := OOptions (cli_options args)]> (st_heap s)) s).
  set (d' := override_iterations (a_iterations args) d).
  set (s2 := set_heap (<[suite := OSuite d']> (st_heap s1)) s1).
  (* the state in which [run_suite] starts *)
  assert (Hover :
    (let* _ := match a_iterations args with
               | Some n =>
                   if n =? 0 then ret tt
                   else let* d0 := deref_suite suite in
                        store suite (OSuite (override_iterations (Some n) d0))
               | None => ret tt
               end in
     let* _ := run_suite suite (Some ol) in ret 0) s1
    = (let* _ := run_suite suite (Some ol) in ret 0) s2).
  { assert (Hs1 : st_heap s1 !! suite = Some (OSuite d)).
    { unfold s1. cbn [set_heap st_heap]. rewrite lookup_insert_ne by exact Hne. exact Hsuite. }
    assert (Hid : forall k : Z -> M World Z, d' = d -> k 0 s1 = k 0 s2).
    { intros k Hd. f_equal. unfold s2. rewrite Hd, insert_id by exact Hs1.
      destruct s1; reflexivity. }
    unfold d' in *. destruct (a_iterations args) as [n|].
    - cbn [override_iterations] in *. destruct (n =? 0) eqn:Hn.
      + rewrite bind_ret_l_run.
        apply (Hid (fun _ => let* _ := run_suite suite (Some ol) in ret 0) eq_refl).
      + unfold bind at 1. unfold bind at 1. unfold deref_suite at 1. rewrite Hs1.
        unfold store. cbn [app]. fold s2.
        destruct ((let* _ := run_suite suite (Some ol) in ret 0) s2) as [[r s3] t3].
        reflexivity.
    - rewrite bind_ret_l_run.
      apply (Hid (fun _ => let* _ := run_suite suite (Some ol) in ret 0) eq_refl). }
  assert (Hmain : main args s = (let* _ := run_suite suite (Some ol) in ret 0) s2).
  { unfold main. unfold bind at 1. unfold lookup_module at 1. rewrite Hmod.
    unfold bind at 1. unfold alloc at 1. fold ol. fold s1.
    rewrite Hover.
    destruct ((let* _ := run_suite suite (Some ol) in ret 0) s2) as [[r s3] t3].
    reflexivity. }
  assert (Hs2suite : st_heap s2 !! suite = Some (OSuite d')).
  { unfold s2. cbn [set_heap st_heap]. apply lookup_insert_eq. }
  assert (Hs2opts : options_at (Some ol) s2 = Some (cli_options args)).
  { unfold options_at, s2, s1. cbn [set_heap st_heap].
    rewrite lookup_insert_ne by (intros Heq; apply Hne; symmetry; exact Heq).
    rewrite lookup_insert_eq. reflexivity. }
  rewrite Hmain.
  split; [| split; [| split; [| split; [exact Hframe | split]]]].
  - rewrite out_bind, (run_suite_out suite (Some ol) s2 d' _ Hs2suite Hs2opts). reflexivity.
  - rewrite final_bind, (run_suite_out suite (Some ol) s2 d' _ Hs2suite Hs2opts).
    cbn [ret final fst snd]. rewrite (proj1 (Hframe suite (Some ol) s2)). reflexivity.
  - rewrite final_bind, (run_suite_out suite (Some ol) s2 d' _ Hs2suite Hs2opts).
    cbn [ret final fst snd]. rewrite (proj2 (Hframe suite (Some ol) s2)). reflexivity.
  - intros [Hi | Hi]; unfold d'; rewrite Hi; reflexivity.
  - destruct (override_iterations_fields (a_iterations args) d) as (_ & _ & Hall).
    eapply Forall2_impl; [exact Hall |]. cbn. intros b b' (H1 & H2 & H3 & H4 & _).
    repeat split; assumption.
Qed.

End MainClaims.

(** C8, as stated, fails for a command-line run with [--iterations 7]: the
    benchmark definitions of the loaded suite had 5, 3 and 5 iterations
    before the run and have 7 each after it. *)
Lemma main_override_mutates_definitions :
  let iterations_of (s : rstate nat) :=
    match st_heap s !! 1%positive with
    | Some (OSuite d) => map b_iterations (s_benchmarks d)
    | _ => []
    end in
  st_modules demo_state !! "entity_suite" = Some 1%positive /\
  a_iterations demo_args = Some 7 /\
  iterations_of demo_state = [Some 5; Some 3; Some 5] /\
  iterations_of (final (main demo_args demo_state)) = [Some 7; Some 7; Some 7].
Proof. vm_compute. repeat split; reflexivity. Qed.

Lemma definitions_change_only_by_override_witness :
  st_modules demo_state !! (a_suite demo_args +:+ "_suite") = Some 1%positive /\
  st_heap demo_state !! 1%positive = Some (OSuite demo_suite) /\
  out (main demo_args demo_state) = Ok 0 /\
  st_heap (final (main demo_args demo_state)) =
    <[1%positive := OSuite (override_iterations (Some 7) demo_suite)]>
      (<[fresh (dom (st_heap demo_state)) := OOptions (cli_options demo_args)]>
         (st_heap demo_state)) /\
  st_modules (final (main demo_args demo_state)) = st_modules demo_state.
Proof.
  assert (H1 : st_modules demo_state !! (a_suite demo_args +:+ "_suite") = Some 1%positive)
    by reflexivity.
  assert (H2 : st_heap demo_state !! 1%positive = Some (OSuite demo_suite)) by reflexivity.
  destruct (definitions_change_only_by_override demo_args demo_state 1%positive demo_suite
              H1 H2) as (Hout & Hheap & Hmodules & _).
  split; [exact H1 | split; [exact H2 | split; [exact Hout | split; [exact Hheap |]]]].
  exact Hmodules.
Defined.

(** * Further properties of the runner *)

(** ** Binary64 rounding: a lower bound on round-to-nearest

    The counterpart of the upper bound: in the normal range a rounding
    loses at most one part in [2^52], and never rounds to zero. *)

Lemma round_exact_lower (s : bool) (M : positive) (E : Z) :
  -1074 <= Z.pos (digits2_pos M) + E - 53 ->
  binary_round_aux prec emax s (Z.pos M) E loc_Exact = S754_infinity s \/
  exists m e,
    binary_round_aux prec emax s (Z.pos M) E loc_Exact = S754_finite s m e /\
    E <= e /\
    (2 ^ 52 - 1) * Z.pos M <= 2 ^ 52 * (Z.pos m * 2 ^ (e - E)).
Proof.
  intros Hnormal.
  destruct (binary_round_aux_exact s M E) as (M1 & HM1 & Hk0 & Heq).
  cbv zeta in Heq.
  set (d := Z.pos (digits2_pos M)) in *.
  set (k := Z.max 0 (Z.max (d + E - 53) (-1074) - E)) in *.
  set (k2 := Z.max 0 (Z.max (Zdigits2 M1 + (E + k) - 53) (-1074) - (E + k))) in *.
  assert (Hk : 0 <= k) by (unfold k; lia).
  assert (HP : 0 < 2 ^ k) by (apply Z.pow_pos_nonneg; lia).
  (* the second shift loses nothing *)
  assert (Hexact : exists m, M1 / 2 ^ k2 = Z.pos m /\ 0 <= k2 /\
                     Z.pos m * 2 ^ k2 = M1 /\ Z.pos M / 2 ^ k <= M1 /\
                     (k = 0 -> k2 = 0)).
  { destruct (Z.eq_dec k 0) as [Hz|Hnz].
    - assert (HM : M1 = Z.pos M) by (apply Hk0; exact Hz).
      assert (Hd1 : Zdigits2 M1 = d) by (rewrite HM; reflexivity).
      assert (Hk2 : k2 = 0) by (unfold k2, k in *; lia).
      exists M. rewrite Hk2, HM. cbn [Z.pow]. rewrite Z.div_1_r.
      repeat split; lia.
    - assert (Hkd : k = d - 53) by (unfold k in *; lia).
      assert (H52 : 2 ^ k * 2 ^ 52 <= Z.pos M).
      { rewrite <- Z.pow_add_r by lia. replace (k + 52) with (d - 1) by lia.
        apply digits2_bounds. }
      assert (HDlo : 2 ^ 52 <= Z.pos M / 2 ^ k).
      { apply Z.div_le_lower_bound; [exact HP | lia]. }
      assert (HDhi : Z.pos M / 2 ^ k < 2 ^ 53).
      { apply Z.div_lt_upper_bound; [exact HP|].
        rewrite <- Z.pow_add_r by lia. replace (k + 53) with d by lia.
        apply digits2_bounds. }
      assert (Hd1lo : 52 < Zdigits2 M1) by (apply Zdigits2_lower; lia).
      assert (Hd1hi : Zdigits2 M1 <= 54).
      { apply Zdigits2_upper; [|lia]. split; [lia|].
        change (2 ^ 54) with (2 * 2 ^ 53). lia. }
      destruct (Z.eq_dec (Zdigits2 M1) 53) as [H53|H54].
      + assert (Hk2 : k2 = 0) by (unfold k2; lia).
        destruct M1 as [|q|q]; try lia.
        exists q. rewrite Hk2. cbn [Z.pow]. rewrite Z.div_1_r.
        repeat split; lia.
      + assert (Hd54 : Zdigits2 M1 = 54) by lia.
        assert (Hk2 : k2 = 1) by (unfold k2; lia).
        assert (HM1eq : M1 = 2 ^ 53).
        { destruct M1 as [|q|q]; try lia. cbn [Zdigits2] in Hd54.
          pose proof (digits2_bounds q) as [Hlo _]. rewrite Hd54 in Hlo.
          change (54 - 1) with 53 in Hlo. lia. }
        exists (2 ^ 52)%positive. rewrite Hk2, HM1eq.
        repeat split; lia. }
  destruct Hexact as (m & Hq & Hk2 & Hm & HD & _).
  rewrite Heq, Hq.
  destruct (E + k + k2 <=? 971); [right | left; reflexivity].
  exists m, (E + k + k2). split; [reflexivity | split; [lia |]].
  replace (E + k + k2 - E) with (k2 + k) by lia.
  rewrite Z.pow_add_r by lia.
  assert (Hrem : Z.pos M < (Z.pos M / 2 ^ k + 1) * 2 ^ k).
  { pose proof (Z.mul_succ_div_gt (Z.pos M) (2 ^ k) HP). lia. }
  destruct (Z.eq_dec k 0) as [Hz|Hnz].
  - rewrite (Hk0 Hz) in Hm. rewrite Hz, Z.pow_0_r.
    assert (0 < 2 ^ 52) by reflexivity. nia.
  - assert (Hkd : k = d - 53) by (unfold k in *; lia).
    assert (H52 : 2 ^ k * 2 ^ 52 <= Z.pos M).
    { rewrite <- Z.pow_add_r by lia. replace (k + 52) with (d - 1) by lia.
      apply digits2_bounds. }
    assert (Hstep : Z.pos M - 2 ^ k < Z.pos m * 2 ^ k2 * 2 ^ k).
    { rewrite Hm. nia. }
    nia.
Qed.

(** int -> float conversion of a positive integer: the value is at least
    [p * (1 - 2^-52)], stated after scaling by [2^C]. *)
Lemma float_of_pos_lower (p : positive) :
  binary_normalize prec emax (Z.pos p) 0 false = S754_infinity false \/
  exists m e C,
    binary_normalize prec emax (Z.pos p) 0 false = S754_finite false m e /\
    0 <= C <= 52 /\ 0 <= e + C /\
    (2 ^ 52 - 1) * (Z.pos p * 2 ^ C) <= 2 ^ 52 * (Z.pos m * 2 ^ (e + C)).
Proof.
  cbn [binary_normalize]. unfold binary_round. rewrite fexp64.
  rewrite Z.add_0_r.
  pose proof (shl_align_spec p 0 (Z.max (Z.pos (digits2_pos p) - 53) (-1074))) as [Hez Hmz].
  destruct (shl_align p 0 _) as [mz ez]. cbn [fst snd] in Hez, Hmz.
  assert (Hdp : 1 <= Z.pos (digits2_pos p)) by lia.
  set (C := - ez).
  assert (HC : 0 <= C <= 52) by (unfold C; lia).
  replace (0 - Z.min 0 (Z.max (Z.pos (digits2_pos p) - 53) (-1074))) with C in Hmz
    by (unfold C; lia).
  destruct (round_exact_lower false mz ez) as [Hinf | (m & e & Hr & Hle & Hlb)]; [lia | |].
  - left. exact Hinf.
  - right. exists m, e, C.
    replace (e - ez) with (e + C) in Hlb by (unfold C; lia).
    rewrite Hmz in Hlb.
    split; [exact Hr | split; [exact HC | split; [unfold C; lia | exact Hlb]]].
Qed.

Lemma mul_c095_lower (m : positive) (e : Z) :
  -52 <= e ->
  float_mul (S754_finite false m e) c095 = S754_infinity false \/
  exists m' e',
    float_mul (S754_finite false m e) c095 = S754_finite false m' e' /\
    e - 53 <= e' /\
    (2 ^ 52 - 1) * (Z.pos m * Z.pos c095_m) <= 2 ^ 52 * (Z.pos m' * 2 ^ (e' - (e - 53))).
Proof.
  intros He. unfold float_mul; cbn [SFmul c095 xorb].
  destruct (round_exact_lower false (m * c095_m) (e + -53))
    as [Hinf | (m' & e' & Hr & Hle & Hlb)].
  - assert (52 < Z.pos (digits2_pos (m * c095_m))); [|lia].
    apply digits2_pos_lower; [|lia]. rewrite Pos2Z.inj_mul.
    assert (2 ^ 52 <= Z.pos c095_m) by (vm_compute; discriminate). nia.
  - left. exact Hinf.
  - right. exists m', e'. rewrite Pos2Z.inj_mul in Hlb.
    replace (e + -53) with (e - 53) in * by lia.
    split; [exact Hr | split; [exact Hle | exact Hlb]].
Qed.

(** The margin on the other side: [2 * (1 - 2^-52)^2 * 0.95 >= 1]. *)
Lemma c095_half_margin :
  2 ^ 104 * 2 ^ 53 <= 2 * ((2 ^ 52 - 1) * ((2 ^ 52 - 1) * Z.pos c095_m)).
Proof. vm_compute. discriminate. Qed.

(** Truncation of a positive finite float is less than one below its value. *)
Lemma py_int_of_float_scaled_lower (m : positive) (e S : Z) (i : Z) :
  py_int_of_float (S754_finite false m e) = Ok i ->
  0 <= S -> 0 <= e + S ->
  Z.pos m * 2 ^ (e + S) < (i + 1) * 2 ^ S.
Proof.
  cbn [py_int_of_float]. intros Hi HS HeS. injection Hi as <-.
  destruct (0 <=? e) eqn:He.
  - apply Z.leb_le in He. rewrite Z.pow_add_r by lia.
    assert (0 < 2 ^ e) by (apply Z.pow_pos_nonneg; lia).
    assert (0 < 2 ^ S) by (apply Z.pow_pos_nonneg; lia).
    rewrite Z.mul_add_distr_r, Z.mul_assoc. lia.
  - apply Z.leb_gt in He.
    assert (Hp : 0 < 2 ^ (- e)) by (apply Z.pow_pos_nonneg; lia).
    assert (Hq : 0 < 2 ^ (e + S)) by (apply Z.pow_pos_nonneg; lia).
    replace S with (- e + (e + S)) at 2 by lia.
    rewrite (Z.pow_add_r 2 (- e) (e + S)) by lia.
    pose proof (Z.mul_succ_div_gt (Z.pos m) (2 ^ (- e)) Hp) as Hdiv.
    unfold Z.succ in Hdiv.
    replace ((Z.pos m / 2 ^ (- e) + 1) * (2 ^ (- e) * 2 ^ (e + S)))
      with (2 ^ (- e) * (Z.pos m / 2 ^ (- e) + 1) * 2 ^ (e + S)) by ring.
    apply Z.mul_lt_mono_pos_r; assumption.
Qed.

(** [int(n * 0.95)] is at least [n // 2]. *)
Lemma p95_index_lower (n i : Z) : 1 <= n -> p95_index n = Ok i -> n / 2 <= i.
Proof.
  intros Hn. unfold p95_index, float_of_int.
  destruct n as [|p|p]; try lia.
  destruct (float_of_pos_lower p) as [Hinf | (m & e & C & Hconv & HC & HeC & Hlb)].
  - rewrite Hinf. discriminate.
  - rewrite Hconv.
    destruct (mul_c095_lower m e) as [Hinf | (m' & e' & Hmul & Hee & Hlb')]; [lia | |].
    + rewrite Hinf. discriminate.
    + rewrite Hmul. intros Hi.
      apply (py_int_of_float_scaled_lower m' e' (C + 53)) in Hi; [| lia | lia].
      assert (E1 : 2 ^ (C + 53) = 2 ^ C * 2 ^ 53) by (apply Z.pow_add_r; lia).
      assert (E2 : 2 ^ (e' + (C + 53)) = 2 ^ (e' - (e - 53)) * 2 ^ (e + C)).
      { rewrite <- Z.pow_add_r by lia. f_equal. lia. }
      rewrite E1, E2 in Hi. clear E1 E2.
      assert (Ha : 0 < 2 ^ (e' - (e - 53))) by (apply Z.pow_pos_nonneg; lia).
      assert (Hb : 0 < 2 ^ (e + C)) by (apply Z.pow_pos_nonneg; lia).
      assert (Hc : 0 < 2 ^ C) by (apply Z.pow_pos_nonneg; lia).
      pose proof c095_half_margin as Hmargin.
      assert (H53 : 0 < 2 ^ 53) by reflexivity.
      assert (H104 : 2 ^ 104 = 2 ^ 52 * 2 ^ 52) by reflexivity.
      rewrite H104 in Hmargin. clear H104.
      assert (HK : 1 < 2 ^ 52) by reflexivity.
      pose proof (Pos2Z.is_pos c095_m) as Hmc.
      cut (Z.pos p < 2 * (i + 1)).
      { intros Hlt.
        assert (Z.pos p / 2 < i + 1) by (apply Z.div_lt_upper_bound; lia). lia. }
      revert Hmc HK Ha Hb Hc Hlb' Hlb Hi Hmargin H53.
      generalize (2 ^ (e' - (e - 53))) (2 ^ (e + C)) (2 ^ C).
      generalize (2 ^ 52) (2 ^ 53) (Z.pos c095_m).
      intros K T mc a b c Hmc HK Ha Hb Hc Hml Hcv Hi Hmargin HT.
      assert (S1 : (K - 1) * mc * ((K - 1) * (Z.pos p * c)) <= (K - 1) * mc * (K * (Z.pos m * b))).
      { apply Z.mul_le_mono_nonneg_l; [nia | exact Hcv]. }
      assert (S2 : (K - 1) * (Z.pos m * mc) * (K * b) <= K * (Z.pos m' * a) * (K * b)).
      { apply Z.mul_le_mono_nonneg_r; [nia | exact Hml]. }
      assert (S3 : K * K * (Z.pos m' * (a * b)) < K * K * ((i + 1) * (c * T))).
      { apply Z.mul_lt_mono_pos_l; [nia | exact Hi]. }
      assert (S4 : K * K * T * (Z.pos p * c) <=
                   2 * ((K - 1) * ((K - 1) * mc)) * (Z.pos p * c)).
      { apply Z.mul_le_mono_nonneg_r; [nia | exact Hmargin]. }
      assert (S5 : K * K * T * (Z.pos p * c) < 2 * (K * K * ((i + 1) * (c * T)))).
      { apply Z.le_lt_trans with (2 * ((K - 1) * ((K - 1) * mc)) * (Z.pos p * c)); [exact S4|].
        replace (2 * ((K - 1) * ((K - 1) * mc)) * (Z.pos p * c))
          with (2 * ((K - 1) * mc * ((K - 1) * (Z.pos p * c)))) by ring.
        replace ((K - 1) * mc * (K * (Z.pos m * b)))
          with ((K - 1) * (Z.pos m * mc) * (K * b)) in S1 by ring.
        replace (K * (Z.pos m' * a) * (K * b)) with (K * K * (Z.pos m' * (a * b))) in S2 by ring.
        lia. }
      assert (S6 : Z.pos p * (K * K * T * c) < (2 * (i + 1)) * (K * K * T * c)).
      { replace (Z.pos p * (K * K * T * c)) with (K * K * T * (Z.pos p * c)) by ring.
        replace ((2 * (i + 1)) * (K * K * T * c)) with (2 * (K * K * ((i + 1) * (c * T)))) by ring.
        exact S5. }
      apply Z.mul_lt_mono_pos_r in S6; [exact S6 |].
      assert (0 < K * K) by nia. assert (0 < K * K * T) by nia. nia.
Qed.

(** ** Further properties of the statistics *)

Section StatisticsExtras.
Context {World : Type} `{!Runtime World}.

(** X14. The four order statistics of the result are samples: each of [min],
    [median], [p95] and [max] is one of the measured durations. *)
Theorem order_statistics_are_samples (name : string) (n : Z) (times : list py_float)
    (d : pydict) :
  statistics name n times = Ok d ->
  exists mn median p95 mx,
    dict_get d "min" = Some (PyFloat mn) /\
    dict_get d "median" = Some (PyFloat median) /\
    dict_get d "p95" = Some (PyFloat p95) /\
    dict_get d "max" = Some (PyFloat mx) /\
    mn ∈ times /\ median ∈ times /\ p95 ∈ times /\ mx ∈ times.
Proof.
  intros Hd.
  apply statistics_shape in Hd
    as (mean & median & mn & mx & i95 & p95 & -> & _ & Hmed & Hmn & Hmx & _ & Hp).
  exists mn, median, p95, mx. repeat (split; [reflexivity|]).
  repeat split; rewrite <- (py_sorted_perm times); eapply py_getitem_elem_of; eassumption.
Qed.

(** X15. For NaN-free samples the reported [min] and [max] bound every
    sample. *)
Theorem every_sample_within_min_max (name : string) (times : list py_float) (d : pydict) :
  nan_free times ->
  statistics name (Z.of_nat (length times)) times = Ok d ->
  exists mn mx,
    dict_get d "min" = Some (PyFloat mn) /\
    dict_get d "max" = Some (PyFloat mx) /\
    forall x, x ∈ times -> fle mn x /\ fle x mx.
Proof.
  intros Hnan Hd.
  apply statistics_shape in Hd
    as (mean & median & mn & mx & i95 & p95 & -> & _ & _ & Hmn & Hmx & _ & _).
  exists mn, mx. repeat (split; [reflexivity|]).
  intros x Hx. rewrite <- (py_sorted_perm times) in Hx.
  apply list_elem_of_lookup_1 in Hx as [i Hi].
  apply py_getitem_nonneg_Ok in Hmn; [| lia].
  apply py_getitem_neg1_Ok in Hmx.
  pose proof (py_sorted_sorted times Hnan) as Hs.
  pose proof (py_sorted_nan_free times Hnan) as Hn.
  pose proof (lookup_lt_Some _ _ _ Hi) as Hlt.
  split.
  - eapply (StronglySorted_lookup_le _ (Z.to_nat 0) i);
      [exact Hs | exact Hn | lia | exact Hmn | exact Hi].
  - eapply (StronglySorted_lookup_le _ i (Nat.pred (length (py_sorted times))));
      [exact Hs | exact Hn | lia | exact Hi | exact Hmx].
Qed.

(** X16. For NaN-free samples the reported [median] is at most the reported
    [p95]: the index [int(n * 0.95)] is never below [n // 2]. *)
Theorem median_at_most_p95 (name : string) (times : list py_float) (d : pydict) :
  nan_free times ->
  statistics name (Z.of_nat (length times)) times = Ok d ->
  exists median p95,
    dict_get d "median" = Some (PyFloat median) /\
    dict_get d "p95" = Some (PyFloat p95) /\
    fle median p95.
Proof.
  intros Hnan Hd.
  assert (Hpos : 1 <= Z.of_nat (length times)).
  { destruct times as [|t times']; [| cbn [length]; lia].
    cbn in Hd. discriminate Hd. }
  apply statistics_shape in Hd
    as (mean & median & mn & mx & i95 & p95 & -> & _ & Hmed & _ & _ & Hi & Hp).
  exists median, p95. repeat (split; [reflexivity|]).
  pose proof (p95_index_lower _ _ Hpos Hi) as Hlo.
  apply p95_index_upper in Hi; [| exact Hpos].
  assert (H0 : 0 <= Z.of_nat (length times) / 2) by (apply Z.div_pos; lia).
  apply py_getitem_nonneg_Ok in Hmed; [| exact H0].
  apply py_getitem_nonneg_Ok in Hp; [| lia].
  eapply StronglySorted_lookup_le;
    [apply py_sorted_sorted; exact Hnan | apply py_sorted_nan_free; exact Hnan | | exact Hmed | exact Hp].
  lia.
Qed.

(** X6. Without a positive iteration count [run_benchmark] measures nothing
    and fails while it builds the result: with the [AttributeError] of
    [fn.__name__] when the operation has no [__name__]; else with
    [ZeroDivisionError] for 0 iterations (the mean), with [IndexError] for
    a negative count (the median of an empty list).  The operation is not
    called, the clock is not read, no file is touched. *)
Theorem nonpositive_iterations_raise (fn : callable World) (args : list pyval)
    (iterations : Z) (options : bench_options World) (s : rstate World) :
  iterations <= 0 ->
  run_benchmark fn args iterations options s
  = (Raise (match c_name fn with
            | Raise e => e
            | Ok _ => if iterations =? 0 then ZeroDivisionError else IndexError
            end), s, []).
Proof.
  intros Hn. unfold run_benchmark.
  assert (Hw : Z.to_nat (Z.min 10 (iterations / 10)) = 0%nat).
  { assert (iterations / 10 <= 0); [| lia].
    apply Z.div_le_upper_bound; lia. }
  assert (Ht : Z.to_nat iterations = 0%nat) by lia.
  rewrite Hw, Ht. cbn [warmup_loop timed_loop].
  assert (Hstat : forall name,
            statistics name iterations []
            = Raise (if iterations =? 0 then ZeroDivisionError else IndexError)).
  { intros name. unfold statistics. cbn [py_sum py_true_div py_sorted foldr].
    destruct (iterations =? 0) eqn:Hz; [reflexivity|].
    apply Z.eqb_neq in Hz. cbn [obind]. unfold py_getitem. cbn [length Z.of_nat].
    assert (Hdiv : iterations / 2 < 0) by (apply Z.div_lt_upper_bound; lia).
    replace (iterations / 2 <? 0) with true by (symmetry; apply Z.ltb_lt; exact Hdiv).
    rewrite Z.add_0_r.
    replace (iterations / 2 <? 0) with true by (symmetry; apply Z.ltb_lt; exact Hdiv).
    reflexivity. }
  rewrite run_bind.
  assert (Hwarm : (if get_bool true (bo_warmup options)
                   then ret (World := World) tt else ret tt) s = (Ok tt, s, [])).
  { destruct (get_bool true (bo_warmup options)); reflexivity. }
  rewrite Hwarm. cbn [out final trace fst snd app].
  rewrite run_bind. cbn [ret out final trace fst snd app].
  rewrite run_bind. cbn [lift out final trace fst snd app]. unfold result_name.
  destruct (c_name fn) as [fname|e]; cbn [obind]; [| reflexivity].
  rewrite run_bind. cbn [lift out fst snd]. rewrite Hstat. reflexivity.
Qed.

Lemma p95_index_small (n : Z) : 1 <= n <= 20 -> p95_index n = Ok (n - 1).
Proof.
  intros Hn.
  assert (Hcases : n = 1 \/ n = 2 \/ n = 3 \/ n = 4 \/ n = 5 \/ n = 6 \/ n = 7 \/ n = 8 \/
                   n = 9 \/ n = 10 \/ n = 11 \/ n = 12 \/ n = 13 \/ n = 14 \/ n = 15 \/
                   n = 16 \/ n = 17 \/ n = 18 \/ n = 19 \/ n = 20) by lia.
  repeat (destruct Hcases as [-> | Hcases]; [vm_compute; reflexivity |]).
  subst n. vm_compute. reflexivity.
Qed.

(** X17. Up to 20 iterations the reported [p95] is the reported [max]:
    [int(n * 0.95)] is [n - 1], the last index. *)
Theorem p95_is_max_up_to_20_samples (name : string) (times : list py_float) (d : pydict) :
  (length times <= 20)%nat ->
  statistics name (Z.of_nat (length times)) times = Ok d ->
  exists x, dict_get d "p95" = Some (PyFloat x) /\ dict_get d "max" = Some (PyFloat x).
Proof.
  intros Hlen Hd.
  assert (Hpos : 1 <= Z.of_nat (length times)).
  { destruct times as [|t times']; [| cbn [length]; lia].
    cbn in Hd. discriminate Hd. }
  apply statistics_shape in Hd
    as (mean & median & mn & mx & i95 & p95 & -> & _ & _ & _ & Hmx & Hi & Hp).
  rewrite p95_index_small in Hi by lia. injection Hi as <-.
  apply py_getitem_nonneg_Ok in Hp; [| lia].
  apply py_getitem_neg1_Ok in Hmx. rewrite py_sorted_length in Hmx.
  replace (Z.to_nat (Z.of_nat (length times) - 1)) with (Nat.pred (length times)) in Hp by lia.
  rewrite Hp in Hmx. injection Hmx as <-.
  exists p95. split; reflexivity.
Qed.

End StatisticsExtras.

(** ** Calls of a run: who is called, how often, and when a run stops *)

Section TraceFacts.
Context {World : Type}.

Lemma filter_role_cons (f : role -> bool) (ev : event) (tr : list event) :
  filter (fun ev => f (ev_role ev) = true) (ev :: tr)
  = if f (ev_role ev) then ev :: filter (fun ev => f (ev_role ev) = true) tr
    else filter (fun ev => f (ev_role ev) = true) tr.
Proof.
  rewrite filter_cons. destruct (f (ev_role ev)); destruct (decide _); congruence.
Qed.

Lemma filter_role_none (f : role -> bool) (tr : list event) :
  Forall (fun ev => f (ev_role ev) = false) tr ->
  filter (fun ev => f (ev_role ev) = true) tr = [].
Proof.
  induction 1 as [|ev tr Hev _ IH]; [reflexivity|].
  rewrite filter_role_cons, Hev. exact IH.
Qed.

Lemma filter_role_all (f : role -> bool) (tr : list event) :
  Forall (fun ev => f (ev_role ev) = true) tr ->
  filter (fun ev => f (ev_role ev) = true) tr = tr.
Proof.
  induction 1 as [|ev tr Hev _ IH]; [reflexivity|].
  rewrite filter_role_cons, Hev, IH. reflexivity.
Qed.

Lemma stops_at_raise_no_events {A} (x : outcome A * rstate World * list event) :
  trace x = [] -> stops_at_raise x.
Proof. intros Ht i ev e Hi. rewrite Ht in Hi. discriminate Hi. Qed.

Lemma stops_at_raise_bind {A B} (m : M World A) (k : A -> M World B) (s : rstate World) :
  stops_at_raise (m s) ->
  (forall a, out (m s) = Ok a -> stops_at_raise (k a (final (m s)))) ->
  stops_at_raise (bind m k s).
Proof.
  intros Hm Hk i ev e. rewrite run_bind.
  destruct (out (m s)) as [a|e0] eqn:Hout; cbn [trace out fst snd].
  - intros Hi Hres. rewrite length_app.
    destruct (decide (i < length (trace (m s)))%nat) as [Hlt|Hge].
    + rewrite lookup_app_l in Hi by exact Hlt.
      destruct (Hm i ev e Hi Hres) as [_ Hraise]. rewrite Hout in Hraise. discriminate.
    + rewrite lookup_app_r in Hi by lia.
      destruct (Hk a eq_refl _ ev e Hi Hres) as [Hlen Hraise].
      split; [lia | exact Hraise].
  - intros Hi Hres. destruct (Hm i ev e Hi Hres) as [Hlen Hraise].
    split; [exact Hlen |]. rewrite Hout in Hraise. injection Hraise as ->. reflexivity.
Qed.

Lemma stops_at_raise_invoke (r : role) (c : callable World) (args : list pyval)
    (s : rstate World) :
  stops_at_raise (invoke r c args s).
Proof.
  intros i ev e. rewrite run_invoke. cbn [trace out fst snd].
  destruct i as [|i]; [| discriminate]. cbn. intros [= <-] Hres. cbn in Hres.
  split; [reflexivity | exact Hres].
Qed.

Lemma run_invoke_Ok (r : role) (c : callable World) (args : list pyval) (s : rstate World) :
  never_raises c ->
  exists v, invoke r c args s
            = (Ok v, set_world (c_call c args (st_world s)).2 s, [mk_event r args (Ok v)]).
Proof.
  intros Hc. rewrite run_invoke. specialize (Hc args (st_world s)).
  destruct (c_call c args (st_world s)).1 as [v|e]; [eauto | discriminate].
Qed.

End TraceFacts.

Section ExecutorExtras.
Context {World : Type} `{!Runtime World}.

Lemma stops_at_raise_warmup_loop (fn : callable World) (args : list pyval) (k : nat)
    (s : rstate World) :
  stops_at_raise (warmup_loop fn args k s).
Proof.
  revert s. induction k as [|k IH]; intros s; cbn [warmup_loop].
  - apply stops_at_raise_no_events. reflexivity.
  - apply stops_at_raise_bind; [apply stops_at_raise_invoke | intros _ _; apply IH].
Qed.

Lemma stops_at_raise_timed_loop (fn : callable World) (args : list pyval)
    (options : bench_options World) (k : nat) (i : Z) (times : list py_float)
    (s : rstate World) :
  stops_at_raise (timed_loop fn args options k i times s).
Proof.
  revert i times s. induction k as [|k IH]; intros i times s; cbn [timed_loop].
  - apply stops_at_raise_no_events. reflexivity.
  - apply stops_at_raise_bind; [apply stops_at_raise_no_events; rewrite run_clock; reflexivity |].
    intros start_time _.
    apply stops_at_raise_bind; [apply stops_at_raise_invoke | intros result _].
    apply stops_at_raise_bind; [apply stops_at_raise_no_events; rewrite run_clock; reflexivity |].
    intros end_time _.
    apply stops_at_raise_bind; [| intros _ _; apply IH].
    destruct (bo_on_iteration options) as [cb|].
    + apply stops_at_raise_invoke.
    + apply stops_at_raise_no_events. reflexivity.
Qed.

(** A call that raises during [run_benchmark], of the operation or of the
    iteration callback, is the last call made, and [run_benchmark] raises
    its exception. *)
Lemma stops_at_raise_run_benchmark (fn : callable World) (args : list pyval)
    (iterations : Z) (options : bench_options World) (s : rstate World) :
  stops_at_raise (run_benchmark fn args iterations options s).
Proof.
  unfold run_benchmark.
  apply stops_at_raise_bind.
  { destruct (get_bool true (bo_warmup options));
      [apply stops_at_raise_warmup_loop | apply stops_at_raise_no_events; reflexivity]. }
  intros _ _. apply stops_at_raise_bind; [apply stops_at_raise_timed_loop | intros times _].
  apply stops_at_raise_bind; [apply stops_at_raise_no_events; reflexivity | intros name _].
  apply stops_at_raise_bind; [apply stops_at_raise_no_events; reflexivity | intros stats _].
  apply stops_at_raise_bind; [apply stops_at_raise_no_events; rewrite run_now; reflexivity |].
  intros timestamp _.
  apply stops_at_raise_bind; [| intros _ _; apply stops_at_raise_no_events; reflexivity].
  destruct (truthy_string (bo_save_file options)) as [save_file|];
    [| apply stops_at_raise_no_events; reflexivity].
  apply stops_at_raise_bind; [apply stops_at_raise_no_events; reflexivity | intros _ _].
  apply stops_at_raise_no_events. reflexivity.
Qed.

Lemma stops_at_raise_run_entry_try (suite_name : string) (options : run_options)
    (b : benchmark World) (s : rstate World) :
  stops_at_raise (run_entry_try suite_name options b s).
Proof.
  unfold run_entry_try.
  apply stops_at_raise_bind.
  { unfold run_setup. destruct (b_setup b);
      [apply stops_at_raise_invoke | apply stops_at_raise_no_events; reflexivity]. }
  intros ctx _. apply stops_at_raise_bind; [apply stops_at_raise_run_benchmark | intros result _].
  apply stops_at_raise_bind; [| intros _ _; apply stops_at_raise_no_events; reflexivity].
  unfold run_cleanup. destruct (b_cleanup b) as [cleanup|];
    [| apply stops_at_raise_no_events; reflexivity].
  destruct (is_none ctx); [apply stops_at_raise_no_events; reflexivity |].
  apply stops_at_raise_bind; [apply stops_at_raise_invoke |].
  intros _ _. apply stops_at_raise_no_events. reflexivity.
Qed.

(** X1. Within the loop iteration of one benchmark, a call that raises --
    setup, operation (warmup or measured) or cleanup -- is the last call
    of the iteration, and the benchmark is recorded with the failure
    dictionary of that exception. *)
Theorem failing_call_ends_the_benchmark (suite_name : string) (options : run_options)
    (b : benchmark World) (s : rstate World) (i : nat) (ev : event) (e : exn) :
  trace (run_entry suite_name options b s) !! i = Some ev ->
  ev_result ev = Raise e ->
  S i = length (trace (run_entry suite_name options b s)) /\
  out (run_entry suite_name options b s) = Ok (failure_entry (b_name b) e).
Proof.
  rewrite run_entry_trace, run_entry_out. intros Hi Hres.
  destruct (stops_at_raise_run_entry_try suite_name options b s i ev e Hi Hres) as [Hlen ->].
  split; [exact Hlen | reflexivity].
Qed.

(** *** Operations that never raise *)

Lemma warmup_loop_never_raises (fn : callable World) (args : list pyval) (k : nat)
    (s : rstate World) :
  never_raises fn ->
  out (warmup_loop fn args k s) = Ok tt /\
  map ev_role (trace (warmup_loop fn args k s)) = replicate k RWarmup.
Proof.
  intros Hfn. revert s. induction k as [|k IH]; intros s; cbn [warmup_loop].
  - split; reflexivity.
  - destruct (run_invoke_Ok RWarmup fn args s Hfn) as [v Hv].
    rewrite run_bind, Hv. cbn [out final trace fst snd].
    destruct (IH (set_world (c_call fn args (st_world s)).2 s)) as [Ho Ht].
    split; [exact Ho |]. cbn [app map replicate ev_role]. rewrite Ht. reflexivity.
Qed.

Lemma operation_calls_cons (ev : event) (tr : list event) :
  operation_calls (ev :: tr)
  = if is_operation (ev_role ev) then ev :: operation_calls tr else operation_calls tr.
Proof. apply (filter_role_cons is_operation). Qed.

Lemma measured_calls_cons (ev : event) (tr : list event) :
  measured_calls (ev :: tr)
  = if is_measure (ev_role ev) then ev :: measured_calls tr else measured_calls tr.
Proof. apply (filter_role_cons is_measure). Qed.

Lemma callback_calls_cons (ev : event) (tr : list event) :
  callback_calls (ev :: tr)
  = if is_callback (ev_role ev) then ev :: callback_calls tr else callback_calls tr.
Proof. apply (filter_role_cons is_callback). Qed.

Lemma measured_calls_app (t1 t2 : list event) :
  measured_calls (t1 ++ t2) = measured_calls t1 ++ measured_calls t2.
Proof. apply filter_app. Qed.

Lemma callback_calls_app (t1 t2 : list event) :
  callback_calls (t1 ++ t2) = callback_calls t1 ++ callback_calls t2.
Proof. apply filter_app. Qed.

(** One iteration of the timed loop, when it completes: one measured call,
    then the callback, if any, with the index, the sample and the result
    of that call. *)
Lemma timed_loop_step (fn : callable World) (args : list pyval)
    (options : bench_options World) (k : nat) (i : Z) (times times' : list py_float)
    (s : rstate World) :
  out (timed_loop fn args options (S k) i times s) = Ok times' ->
  exists (duration : py_float) (result : pyval) (s' : rstate World) (cbs : list event),
    trace (timed_loop fn args options (S k) i times s)
      = mk_event RMeasure args (Ok result) :: cbs
        ++ trace (timed_loop fn args options k (i + 1) (times ++ [duration]) s') /\
    out (timed_loop fn args options k (i + 1) (times ++ [duration]) s') = Ok times' /\
    match bo_on_iteration options with
    | Some cb => exists u, cbs = [mk_event RCallback (callback_args i (duration, result)) (Ok u)]
    | None => cbs = []
    end.
Proof.
  cbn [timed_loop].
  rewrite run_bind, run_clock. cbn [out final trace fst snd app].
  set (s1 := set_world (time_time (st_world s)).2 s).
  rewrite run_bind, run_invoke. cbn [out final trace fst snd].
  destruct (c_call fn args (st_world s1)).1 as [result|e] eqn:Hcall; [| discriminate].
  set (s2 := set_world (c_call fn args (st_world s1)).2 s1).
  rewrite run_bind, run_clock. cbn [out final trace fst snd app].
  set (s3 := set_world (time_time (st_world s2)).2 s2).
  set (duration := float_mul (float_sub (time_time (st_world s2)).1 (time_time (st_world s)).1)
                     f1000).
  rewrite run_bind.
  destruct (bo_on_iteration options) as [cb|].
  - rewrite run_invoke. cbn [out final trace fst snd].
    destruct (c_call cb _ (st_world s3)).1 as [u|e] eqn:Hcb; [| discriminate].
    cbn [out final trace fst snd app]. intros Hout.
    exists duration, result, (set_world (c_call cb [PyInt i; PyFloat duration; result]
                                           (st_world s3)).2 s3),
           [mk_event RCallback (callback_args i (duration, result)) (Ok u)].
    split; [reflexivity | split; [exact Hout | eauto]].
  - cbn [ret out final trace fst snd app]. intros Hout.
    exists duration, result, s3, []. split; [reflexivity | split; [exact Hout | reflexivity]].
Qed.

Lemma timed_loop_callbacks (fn : callable World) (args : list pyval)
    (options : bench_options World) (k : nat) (i : Z) (times times' : list py_float)
    (s : rstate World) :
  out (timed_loop fn args options k i times s) = Ok times' ->
  exists (new : list py_float) (results : list pyval),
    times' = times ++ new /\ length new = k /\ length results = k /\
    map ev_result (measured_calls (trace (timed_loop fn args options k i times s)))
      = map Ok results /\
    map ev_args (callback_calls (trace (timed_loop fn args options k i times s)))
      = match bo_on_iteration options with
        | Some _ => zip_with callback_args (seqZ i (Z.of_nat k)) (zip new results)
        | None => []
        end.
Proof.
  revert i times s. induction k as [|k IH]; intros i times s Hout.
  - cbn [timed_loop] in *. injection Hout as <-. exists [], [].
    rewrite app_nil_r. repeat split; try reflexivity.
    destruct (bo_on_iteration options); reflexivity.
  - destruct (timed_loop_step _ _ _ _ _ _ _ _ Hout)
      as (duration & result & s' & cbs & Htrace & Hrest & Hcbs).
    destruct (IH _ _ _ Hrest) as (new & results & -> & Hnew & Hres & Hm & Hc).
    exists (duration :: new), (result :: results).
    rewrite Htrace.
    split; [rewrite <- app_assoc; reflexivity |].
    split; [cbn [length]; lia |]. split; [cbn [length]; lia |].
    rewrite measured_calls_cons, callback_calls_cons. cbn [ev_role is_measure is_callback].
    rewrite measured_calls_app, callback_calls_app.
    rewrite seqZ_cons by lia.
    replace (Z.pred (Z.of_nat (S k))) with (Z.of_nat k) by lia.
    replace (Z.succ i) with (i + 1) by lia.
    assert (Hcm : measured_calls cbs = []).
    { destruct (bo_on_iteration options); [destruct Hcbs as [u ->] | rewrite Hcbs];
        reflexivity. }
    rewrite Hcm. cbn [app map ev_result]. rewrite Hm. split; [reflexivity |].
    rewrite map_app, Hc.
    destruct (bo_on_iteration options) as [cb|].
    + destruct Hcbs as [u ->]. reflexivity.
    + rewrite Hcbs. reflexivity.
Qed.

Lemma all_events_warmup_role (fn : callable World) (args : list pyval) (k : nat) :
  all_events (fun ev => ev_role ev = RWarmup) (warmup_loop fn args k).
Proof.
  induction k as [|k IH]; cbn [warmup_loop].
  - apply all_events_ret.
  - apply all_events_bind; [| intros _; exact IH].
    apply all_events_invoke. intros res. reflexivity.
Qed.

(** The calls of [results_of], when warmup and loop complete. *)
Lemma trace_results_of (fn : callable World) (args : list pyval) (iterations : Z)
    (options : bench_options World) (s : rstate World) :
  let W := if get_bool true (bo_warmup options)
           then warmup_loop fn args (Z.to_nat (Z.min 10 (iterations / 10)))
           else ret tt in
  trace (results_of fn args iterations options s) =
    match out (W s) with
    | Ok _ => trace (W s)
              ++ trace (timed_loop fn args options (Z.to_nat iterations) 0 [] (final (W s)))
    | Raise _ => trace (W s)
    end.
Proof.
  intros W. unfold results_of. fold W. rewrite trace_bind.
  destruct (out (W s)) as [u|e]; [| reflexivity].
  f_equal. rewrite trace_bind.
  destruct (out (timed_loop _ _ _ _ _ _ _)) as [times|e]; [| reflexivity].
  match goal with |- _ ++ ?X = _ => assert (Hrest : X = []) end.
  { rewrite trace_bind, out_lift.
    destruct (result_name options fn) as [name|e]; [| reflexivity].
    cbn [lift trace snd app]. rewrite trace_bind, out_lift.
    destruct (statistics _ _ _) as [stats|e]; [| reflexivity].
    cbn [lift trace snd app]. rewrite trace_bind, run_now. reflexivity. }
  rewrite Hrest, app_nil_r. reflexivity.
Qed.

(** X5. When [run_benchmark] returns and an iteration callback is set, the
    callback has been called once per measured iteration, in order, with
    the indices [0 .. iterations - 1]; the durations it received are the
    samples the statistics were computed from, and the results it received
    are those of the measured calls. *)
Theorem callback_sees_every_sample (fn : callable World) (args : list pyval)
    (iterations : Z) (options : bench_options World) (s : rstate World)
    (cb : callable World) (d : pydict) :
  bo_on_iteration options = Some cb ->
  out (run_benchmark fn args iterations options s) = Ok d ->
  exists (times : list py_float) (results : list pyval) (name : string) (stats : pydict)
         (timestamp : string),
    length times = Z.to_nat iterations /\ length results = Z.to_nat iterations /\
    result_name options fn = Ok name /\
    statistics name iterations times = Ok stats /\
    d = stats ++ [("timestamp", PyStr timestamp)] /\
    map ev_result (measured_calls (trace (run_benchmark fn args iterations options s)))
      = map Ok results /\
    map ev_args (callback_calls (trace (run_benchmark fn args iterations options s)))
      = zip_with callback_args (seqZ 0 iterations) (zip times results).
Proof.
  intros Hcb Hd. rewrite trace_run_benchmark.
  apply run_benchmark_Ok in Hd as [_ Hd].
  pose proof (trace_results_of fn args iterations options s) as Htrace.
  cbv zeta in Htrace. rewrite Htrace. clear Htrace.
  revert Hd. unfold results_of.
  set (W := if get_bool true (bo_warmup options)
            then warmup_loop fn args (Z.to_nat (Z.min 10 (iterations / 10)))
            else ret tt).
  rewrite out_bind. destruct (out (W s)) as [u|] eqn:HW; [| discriminate].
  rewrite out_bind.
  destruct (out (timed_loop _ _ _ _ _ _ _)) as [times|] eqn:Ht; [| discriminate].
  rewrite out_bind, out_lift.
  destruct (result_name options fn) as [name|] eqn:Hname; [| discriminate].
  rewrite out_bind, out_lift.
  destruct (statistics _ _ _) as [stats|] eqn:Hstats; [| discriminate].
  rewrite out_bind, run_now. cbn [out fst]. intros [= <-].
  destruct (timed_loop_callbacks _ _ _ _ _ _ _ _ Ht)
    as (new & results & Hnew & Hlen & Hres & Hm & Hc).
  cbn [app] in Hnew. subst new. rewrite Hcb in Hc.
  eexists times, results, name, stats, _.
  split; [exact Hlen | split; [exact Hres | split; [reflexivity |
    split; [exact Hstats | split; [reflexivity |]]]]].
  assert (Hwarm : Forall (fun ev => ev_role ev = RWarmup) (trace (W s))).
  { unfold W. destruct (get_bool true (bo_warmup options));
      [apply all_events_warmup_role | constructor]. }
  rewrite measured_calls_app, callback_calls_app.
  unfold measured_calls at 1, callback_calls at 1.
  rewrite (filter_role_none is_measure), (filter_role_none is_callback);
    [| eapply Forall_impl; [exact Hwarm | intros ev ->; reflexivity]
     | eapply Forall_impl; [exact Hwarm | intros ev ->; reflexivity]].
  cbn [app]. split; [exact Hm |].
  rewrite Hc. f_equal. unfold seqZ. rewrite Nat2Z.id. reflexivity.
Qed.

Lemma timed_loop_never_raises (fn : callable World) (args : list pyval)
    (options : bench_options World) (k : nat) (i : Z) (times : list py_float)
    (s : rstate World) :
  never_raises fn ->
  (forall cb, bo_on_iteration options = Some cb -> never_raises cb) ->
  (exists times', out (timed_loop fn args options k i times s) = Ok times') /\
  map ev_role (operation_calls (trace (timed_loop fn args options k i times s)))
    = replicate k RMeasure.
Proof.
  intros Hfn Hcb. revert i times s. induction k as [|k IH]; intros i times s.
  - cbn [timed_loop]. split; [eexists; reflexivity | reflexivity].
  - cbn [timed_loop].
    rewrite !run_bind, run_clock. cbn [out final trace fst snd app].
    set (s1 := set_world (time_time (st_world s)).2 s).
    destruct (run_invoke_Ok RMeasure fn args s1 Hfn) as [v Hv].
    rewrite !run_bind, Hv. cbn [out final trace fst snd].
    rewrite !run_bind, run_clock. cbn [out final trace fst snd app].
    rewrite !run_bind.
    destruct (bo_on_iteration options) as [cb|] eqn:Hopt.
    + match goal with |- context [invoke RCallback cb ?a ?st] =>
        destruct (run_invoke_Ok RCallback cb a st (Hcb cb eq_refl)) as [u Hu]; rewrite Hu
      end.
      cbn [out final trace fst snd app].
      match goal with |- context [timed_loop fn args options k ?j ?ts ?st] =>
        destruct (IH j ts st) as [Ho Ht]
      end.
      split; [exact Ho |].
      rewrite !operation_calls_cons. cbn [ev_role is_operation map replicate].
      rewrite Ht. reflexivity.
    + cbn [ret out final trace fst snd app].
      match goal with |- context [timed_loop fn args options k ?j ?ts ?st] =>
        destruct (IH j ts st) as [Ho Ht]
      end.
      split; [exact Ho |].
      rewrite !operation_calls_cons. cbn [ev_role is_operation map replicate].
      rewrite Ht. reflexivity.
Qed.

(** X4. How often the operation is called: when neither the operation nor the
    callback raises, [run_benchmark] makes [min(10, iterations // 10)]
    warmup calls -- none with [warmup] switched off -- and then exactly
    [iterations] measured calls, whatever happens afterwards. *)
Theorem operation_call_counts (fn : callable World) (args : list pyval)
    (iterations : Z) (options : bench_options World) (s : rstate World) :
  never_raises fn ->
  (forall cb, bo_on_iteration options = Some cb -> never_raises cb) ->
  map ev_role (operation_calls (trace (run_benchmark fn args iterations options s)))
  = replicate (if get_bool true (bo_warmup options)
               then Z.to_nat (Z.min 10 (iterations / 10)) else 0%nat) RWarmup
    ++ replicate (Z.to_nat iterations) RMeasure.
Proof.
  intros Hfn Hcb. rewrite trace_run_benchmark.
  pose proof (trace_results_of fn args iterations options s) as Htrace.
  cbv zeta in Htrace. rewrite Htrace. clear Htrace.
  set (W := if get_bool true (bo_warmup options)
            then warmup_loop fn args (Z.to_nat (Z.min 10 (iterations / 10)))
            else ret tt).
  assert (HW : out (W s) = Ok tt /\
               map ev_role (trace (W s))
               = replicate (if get_bool true (bo_warmup options)
                            then Z.to_nat (Z.min 10 (iterations / 10)) else 0%nat) RWarmup).
  { unfold W. destruct (get_bool true (bo_warmup options)).
    - apply warmup_loop_never_raises. exact Hfn.
    - split; reflexivity. }
  destruct HW as [HWo HWt]. rewrite HWo.
  rewrite operation_calls_app, map_app.
  destruct (timed_loop_never_raises fn args options (Z.to_nat iterations) 0 [] (final (W s))
              Hfn Hcb) as [_ ->].
  f_equal. rewrite <- HWt. f_equal.
  unfold operation_calls. apply (filter_role_all is_operation).
  assert (Hroles : Forall (fun r => r = RWarmup) (map ev_role (trace (W s)))).
  { rewrite HWt. apply Forall_replicate. reflexivity. }
  rewrite Forall_fmap in Hroles.
  eapply Forall_impl; [exact Hroles |]. cbn. intros ev ->. reflexivity.
Qed.

(** The loops of [run_benchmark] complete when nothing they call raises;
    the result is then built -- if the operation has a [__name__] and the
    iteration count is at least 1 (and below [2^1022]) -- or the
    [AttributeError] of [fn.__name__] is raised. *)
Lemma results_of_never_raises (fn : callable World) (args : list pyval)
    (iterations : Z) (options : bench_options World) (s : rstate World) :
  never_raises fn ->
  (forall cb, bo_on_iteration options = Some cb -> never_raises cb) ->
  1 <= iterations < 2 ^ 1022 ->
  match c_name fn with
  | Ok _ => exists d, out (results_of fn args iterations options s) = Ok d
  | Raise e => out (results_of fn args iterations options s) = Raise e
  end.
Proof.
  intros Hfn Hcb Hn. unfold results_of.
  set (W := if get_bool true (bo_warmup options)
            then warmup_loop fn args (Z.to_nat (Z.min 10 (iterations / 10)))
            else ret tt).
  assert (HW : out (W s) = Ok tt).
  { unfold W. destruct (get_bool true (bo_warmup options)); [| reflexivity].
    apply warmup_loop_never_raises. exact Hfn. }
  rewrite out_bind, HW, out_bind.
  destruct (timed_loop_never_raises fn args options (Z.to_nat iterations) 0 [] (final (W s))
              Hfn Hcb) as [[times Ht] _].
  rewrite Ht. pose proof (timed_loop_length _ _ _ _ _ _ _ _ Ht) as Hlen. cbn [length] in Hlen.
  assert (Hl : Z.of_nat (length times) = iterations) by lia.
  rewrite out_bind, out_lift. unfold result_name.
  destruct (c_name fn) as [fname|e]; cbn [obind]; [| reflexivity].
  rewrite out_bind, out_lift.
  destruct (statistics_defined
              (match bo_name options with Some n => n | None => fname end) times)
    as [stats Hstats].
  { intros ->. cbn in Hl. lia. }
  { lia. }
  rewrite Hl in Hstats. rewrite Hstats.
  rewrite out_bind, run_now. cbn [out fst]. eauto.
Qed.

End ExecutorExtras.

(** ** One benchmark of a suite: success, and failures around the
    measurement *)

Section EntryExtras.
Context {World : Type} `{!Runtime World}.

Lemma run_setup_never_raises (b : benchmark World) (s : rstate World) :
  (forall c, b_setup b = Some c -> never_raises c) ->
  exists ctx, out (run_setup b s) = Ok ctx.
Proof.
  intros Hsetup. unfold run_setup. destruct (b_setup b) as [setup|]; [| eexists; reflexivity].
  destruct (run_invoke_Ok RSetup setup [] s (Hsetup setup eq_refl)) as [v ->]. eauto.
Qed.

Lemma run_cleanup_never_raises (b : benchmark World) (ctx : pyval) (s : rstate World) :
  (forall c, b_cleanup b = Some c -> never_raises c) ->
  out (run_cleanup b ctx s) = Ok tt.
Proof.
  intros Hcleanup. unfold run_cleanup. destruct (b_cleanup b) as [cleanup|]; [| reflexivity].
  destruct (is_none ctx); [reflexivity |].
  rewrite out_bind.
  destruct (run_invoke_Ok RCleanup cleanup [ctx] s (Hcleanup cleanup eq_refl)) as [v ->].
  reflexivity.
Qed.

Lemma success_result_fields (fn : callable World) (args : list pyval) (iterations : Z)
    (options : bench_options World) (s : rstate World) (d : pydict) :
  out (results_of fn args iterations options s) = Ok d ->
  is_success_entry d /\
  (exists name, result_name options fn = Ok name /\ dict_get d "name" = Some (PyStr name)) /\
  dict_get d "iterations" = Some (PyInt iterations).
Proof.
  intros Hd. apply results_of_shape in Hd as (times & name & stats & ts & _ & Hname & Hstats & ->).
  apply statistics_shape in Hstats as (mean & median & mn & mx & i95 & p95 & -> & _).
  split; [reflexivity | split; [| reflexivity]].
  exists name. split; [exact Hname | reflexivity].
Qed.

(** X3. A benchmark whose setup, operation and cleanup never raise, with an
    iteration count of at least 1 (below [2^1022]; 100 without an
    [iterations] entry), run without [save_individual]: when the operation
    has a [__name__], the benchmark is recorded with a success result that
    carries the benchmark's name and its iteration count; when it has none
    -- a [functools.partial] object, say -- the benchmark is recorded as
    failed, with the [AttributeError] of [fn.__name__], and its cleanup is
    not called. *)
Theorem healthy_benchmark_succeeds (suite_name : string) (options : run_options)
    (b : benchmark World) (s : rstate World) :
  (forall c, b_setup b = Some c -> never_raises c) ->
  never_raises (b_fn b) ->
  (forall c, b_cleanup b = Some c -> never_raises c) ->
  1 <= default 100 (b_iterations b) < 2 ^ 1022 ->
  get_bool false (opt_save_individual options) = false ->
  (forall fname, c_name (b_fn b) = Ok fname ->
     is_success_entry (entry_of (run_entry suite_name options b s)) /\
     dict_get (entry_of (run_entry suite_name options b s)) "name" = Some (PyStr (b_name b)) /\
     dict_get (entry_of (run_entry suite_name options b s)) "iterations"
       = Some (PyInt (default 100 (b_iterations b)))) /\
  (forall e, c_name (b_fn b) = Raise e ->
     out (run_entry suite_name options b s) = Ok (failure_entry (b_name b) e) /\
     cleanup_calls (trace (run_entry suite_name options b s)) = []).
Proof.
  intros Hsetup Hfn Hcleanup Hn Hsave.
  destruct (run_setup_never_raises b s Hsetup) as [ctx Hctx].
  assert (Hnone : truthy_string (bo_save_file (suite_bench_options suite_name options b)) = None).
  { cbn [suite_bench_options bo_save_file]. rewrite Hsave. reflexivity. }
  assert (Hcb : forall cb, bo_on_iteration (suite_bench_options suite_name options b) = Some cb ->
                           never_raises cb) by discriminate.
  pose proof (results_of_never_raises (b_fn b) (if is_none ctx then [] else [ctx])
                (default 100 (b_iterations b)) (suite_bench_options suite_name options b)
                (final (run_setup b s)) Hfn Hcb Hn) as Hres.
  split.
  - intros fname Hname. rewrite Hname in Hres. destruct Hres as [d Hd].
    assert (Htry : out (run_entry_try suite_name options b s) = Ok d).
    { unfold run_entry_try. rewrite out_bind, Hctx.
      rewrite out_bind, run_benchmark_without_save, Hd by exact Hnone.
      rewrite out_bind, run_cleanup_never_raises by exact Hcleanup. reflexivity. }
    unfold entry_of. rewrite run_entry_out, Htry.
    apply success_result_fields in Hd as (Hkeys & (name & Hrn & Hget) & Hit).
    apply (result_name_named _ _ (b_name b)) in Hrn; [subst name | reflexivity].
    split; [exact Hkeys | split; [exact Hget | exact Hit]].
  - intros e Hname. rewrite Hname in Hres.
    assert (Hrun : out (run_benchmark (b_fn b) (if is_none ctx then [] else [ctx])
                          (default 100 (b_iterations b))
                          (suite_bench_options suite_name options b)
                          (final (run_setup b s))) = Raise e).
    { rewrite run_benchmark_without_save by exact Hnone. exact Hres. }
    split.
    + rewrite run_entry_out. unfold run_entry_try.
      rewrite out_bind, Hctx, out_bind, Hrun. reflexivity.
    + rewrite run_entry_trace, run_entry_try_trace, Hctx. cbv zeta. rewrite Hrun, app_nil_r.
      rewrite cleanup_calls_app, (proj1 (run_setup_trace b s)).
      apply (bench_event_no_cleanup _ _ (all_events_run_benchmark _ _ _ _ _)).
Qed.

(** X2. A cleanup that raises turns a completed measurement into a failure:
    the result [run_benchmark] returned is dropped and the benchmark is
    recorded with the exception of the cleanup. *)
Theorem cleanup_failure_discards_result (suite_name : string) (options : run_options)
    (b : benchmark World) (s : rstate World) (cleanup : callable World)
    (ctx : pyval) (d : pydict) (e : exn) :
  b_cleanup b = Some cleanup ->
  out (run_setup b s) = Ok ctx -> ctx <> PyNone ->
  out (run_benchmark (b_fn b) [ctx] (default 100 (b_iterations b))
         (suite_bench_options suite_name options b) (final (run_setup b s))) = Ok d ->
  (c_call cleanup [ctx]
     (st_world (final (run_benchmark (b_fn b) [ctx] (default 100 (b_iterations b))
                         (suite_bench_options suite_name options b)
                         (final (run_setup b s)))))).1 = Raise e ->
  is_success_entry d /\
  out (run_entry suite_name options b s) = Ok (failure_entry (b_name b) e).
Proof.
  intros Hcleanup Hsetup Hctx Hrun He.
  assert (Hnone : is_none ctx = false) by (destruct ctx; try reflexivity; contradiction).
  split.
  - apply run_benchmark_Ok in Hrun as [_ Hres].
    apply success_result_fields in Hres. apply Hres.
  - rewrite run_entry_out. unfold run_entry_try.
    rewrite out_bind, Hsetup. cbv zeta. rewrite Hnone, out_bind, Hrun, out_bind.
    unfold run_cleanup. rewrite Hcleanup, Hnone, out_bind, run_invoke.
    cbn [out fst]. rewrite He. reflexivity.
Qed.

(** *** Benchmark dictionaries without the key ["fn"] *)

(** With the key, the loop body is that of [run_entry]. *)
Lemma run_entry_dict_with_fn (suite_name : string) (options : run_options)
    (bd : benchmark_dict World) (fn : callable World) (s : rstate World) :
  bd_fn bd = Some fn ->
  run_entry_dict suite_name options bd s
  = run_entry suite_name options (as_benchmark fn bd) s.
Proof. intros Hfn. unfold run_entry_dict, run_entry_try_dict. rewrite Hfn. reflexivity. Qed.

Lemma run_entry_dict_without_fn (suite_name : string) (options : run_options)
    (bd : benchmark_dict World) (s : rstate World) :
  bd_fn bd = None ->
  run_entry_dict suite_name options bd s =
    match bd_setup bd with
    | Some setup =>
        (Ok (failure_entry (bd_name bd)
               (match (c_call setup [] (st_world s)).1 with
                | Ok _ => KeyErrorFn
                | Raise e => e
                end)),
         set_world (c_call setup [] (st_world s)).2 s,
         [mk_event RSetup [] (c_call setup [] (st_world s)).1])
    | None => (Ok (failure_entry (bd_name bd) KeyErrorFn), s, [])
    end.
Proof.
  intros Hfn. unfold run_entry_dict, run_entry_try_dict. rewrite Hfn, run_try_catch.
  destruct (bd_setup bd) as [setup|]; [| reflexivity].
  rewrite run_bind, run_invoke. cbn [out final trace fst snd].
  destruct (c_call setup [] (st_world s)).1; reflexivity.
Qed.

Lemma missing_fn_entry (suite_name : string) (options : run_options)
    (bd : benchmark_dict World) (s : rstate World) :
  bd_fn bd = None ->
  exists e,
    out (run_entry_dict suite_name options bd s) = Ok (failure_entry (bd_name bd) e) /\
    operation_calls (trace (run_entry_dict suite_name options bd s)) = [] /\
    cleanup_calls (trace (run_entry_dict suite_name options bd s)) = [].
Proof.
  intros Hfn. rewrite (run_entry_dict_without_fn _ _ _ _ Hfn).
  destruct (bd_setup bd) as [setup|]; cbn [out trace fst snd];
    eexists; repeat split; reflexivity.
Qed.

(** X7. A benchmark dictionary without the key ["fn"] -- as those of
    [relation_suite.py], which use ["function"] -- is recorded as failed:
    its setup, if any, is called, then the lookup of ["fn"] raises
    [KeyError], so that the entry carries the error ['fn'] unless the setup
    itself raised; the operation stored under any other key is not called,
    and neither is the cleanup. *)
Theorem missing_fn_key_fails_after_setup (suite_name : string) (options : run_options)
    (bd : benchmark_dict World) (s : rstate World) :
  bd_fn bd = None ->
  (exists e, out (run_entry_dict suite_name options bd s) = Ok (failure_entry (bd_name bd) e) /\
             (e = KeyErrorFn \/
              exists ev, setup_calls (trace (run_entry_dict suite_name options bd s)) = [ev] /\
                         ev_result ev = Raise e)) /\
  length (setup_calls (trace (run_entry_dict suite_name options bd s)))
    = match bd_setup bd with Some _ => 1%nat | None => 0%nat end /\
  operation_calls (trace (run_entry_dict suite_name options bd s)) = [] /\
  cleanup_calls (trace (run_entry_dict suite_name options bd s)) = [].
Proof.
  intros Hfn. rewrite (run_entry_dict_without_fn _ _ _ _ Hfn).
  destruct (bd_setup bd) as [setup|]; cbn [out trace fst snd].
  - split; [| repeat split; reflexivity].
    eexists. split; [reflexivity |].
    destruct (c_call setup [] (st_world s)).1 as [v|e] eqn:Hcall; [left; reflexivity |].
    right. eexists. split; [reflexivity | reflexivity].
  - split; [| repeat split; reflexivity].
    exists KeyErrorFn. split; [reflexivity | left; reflexivity].
Qed.

(** X8. A whole suite of such dictionaries measures nothing: every benchmark
    is recorded as failed, in order, and no operation and no cleanup is
    called. *)
Theorem suite_without_fn_measures_nothing (suite_name : string) (options : run_options)
    (bds : list (benchmark_dict World)) (s : rstate World) :
  Forall (fun bd => bd_fn bd = None) bds ->
  exists entries,
    out (run_entries_dict suite_name options bds s) = Ok entries /\
    Forall2 (fun bd entry => is_failure_entry entry /\
                             dict_get entry "name" = Some (PyStr (bd_name bd)))
            bds entries /\
    operation_calls (trace (run_entries_dict suite_name options bds s)) = [] /\
    cleanup_calls (trace (run_entries_dict suite_name options bds s)) = [].
Proof.
  intros Hall. revert s. induction Hall as [|bd bds Hfn _ IH]; intros s.
  - exists []. cbn [run_entries_dict]. repeat split; constructor.
  - cbn [run_entries_dict]. rewrite run_bind.
    destruct (missing_fn_entry suite_name options bd s Hfn) as (e & Hout & Hops & Hcl).
    rewrite Hout. cbn [out trace fst snd].
    destruct (IH (final (run_entry_dict suite_name options bd s)))
      as (entries & Hentries & Hshape & Hops' & Hcl').
    rewrite run_bind, Hentries. cbn [ret out final trace fst snd].
    exists (failure_entry (bd_name bd) e :: entries).
    split; [reflexivity |]. split.
    + constructor; [split; reflexivity | exact Hshape].
    + rewrite app_nil_r, operation_calls_app, cleanup_calls_app, Hops, Hcl, Hops', Hcl'.
      split; reflexivity.
Qed.

End EntryExtras.

(** ** The suite run as a whole: calls, files, exit code *)

Section SuiteExtras.
Context {World : Type} `{!Runtime World}.

(** [run_suite] on a heap that holds the suite and the options: the loop,
    from [loop_start], then the save step (lines 187-191). *)
Lemma run_suite_run (suite : loc) (options : option loc) (s : rstate World)
    (d : suite_def World) (opts : run_options) :
  st_heap s !! suite = Some (OSuite d) ->
  options_at options s = Some opts ->
  run_suite suite options s =
    (let* entries := run_entries (s_name d) opts (s_benchmarks d) in
     let results := suite_results d (now_isoformat (st_world s)).1 entries in
     let* _ := match truthy_string (opt_save_file opts) with
               | Some save_file =>
                   let* _ := open_w save_file in
                   json_dump (PyDict results) (Some save_file) [] (Some 2)
               | None => ret tt
               end in
     ret results) (loop_start s).
Proof.
  intros Hsuite Hopts. unfold run_suite.
  assert (Hd : deref_suite suite s = (Ok d, s, []))
    by (unfold deref_suite; rewrite Hsuite; reflexivity).
  assert (Ho : match options with Some l => deref_options l | None => ret no_options end s
               = (Ok opts, s, [])).
  { unfold options_at in Hopts. destruct options as [l|].
    - unfold deref_options. destruct (st_heap s !! l) as [[|o]|]; try discriminate.
      injection Hopts as ->. reflexivity.
    - injection Hopts as <-. reflexivity. }
  rewrite run_bind, Hd. cbn [out final trace fst snd app].
  rewrite run_bind, Ho. cbn [out final trace fst snd app].
  rewrite run_bind. unfold loop_start. rewrite run_now. cbn [out final trace fst snd app].
  match goal with |- _ = ?x => destruct x as [[r s2] t2] end. reflexivity.
Qed.

Lemma run_entry_keeps_files (suite_name : string) (options : run_options)
    (b : benchmark World) :
  get_bool false (opt_save_individual options) = false ->
  preserves st_files (run_entry suite_name options b).
Proof.
  intros Hsave. unfold run_entry, run_entry_try.
  apply preserves_try_catch; [| intros e; apply preserves_ret].
  apply preserves_bind.
  { unfold run_setup. destruct (b_setup b);
      [apply preserves_invoke; reflexivity | apply preserves_ret]. }
  intros ctx. apply preserves_bind.
  { intros s. rewrite run_benchmark_without_save.
    - apply preserves_results_of. reflexivity.
    - cbn [suite_bench_options bo_save_file]. rewrite Hsave. reflexivity. }
  intros result. apply preserves_bind; [| intros _; apply preserves_ret].
  unfold run_cleanup. destruct (b_cleanup b); [| apply preserves_ret].
  destruct (is_none ctx); [apply preserves_ret |].
  apply preserves_bind; [apply preserves_invoke; reflexivity | intros _; apply preserves_ret].
Qed.

(** X11. Without a [save_file] and without [save_individual] -- in particular
    without options, as [relation_suite.py] calls it -- [run_suite] creates
    and writes no file. *)
Theorem suite_without_save_options_writes_nothing (suite : loc) (options : option loc)
    (s : rstate World) (opts : run_options) :
  options_at options s = Some opts ->
  truthy_string (opt_save_file opts) = None ->
  get_bool false (opt_save_individual opts) = false ->
  st_files (final (run_suite suite options s)) = st_files s.
Proof.
  intros Hopts Hfile Hind.
  destruct (st_heap s !! suite) as [[d|o]|] eqn:Hsuite.
  - rewrite (run_suite_run suite options s d opts Hsuite Hopts).
    assert (Hloop : st_files (loop_start s) = st_files s)
      by (apply (preserves_now st_files); reflexivity).
    rewrite <- Hloop.
    apply (preserves_bind st_files).
    + induction (s_benchmarks d) as [|b bs IH]; cbn [run_entries]; [apply preserves_ret |].
      apply preserves_bind; [apply run_entry_keeps_files; exact Hind | intros entry].
      apply preserves_bind; [exact IH | intros entries; apply preserves_ret].
    + intros entries. rewrite Hfile.
      apply preserves_bind; [apply preserves_ret | intros _; apply preserves_ret].
  - unfold run_suite. rewrite final_bind. unfold deref_suite. rewrite Hsuite. reflexivity.
  - unfold run_suite. rewrite final_bind. unfold deref_suite. rewrite Hsuite. reflexivity.
Qed.

(** *** The command line *)

Lemma main_found (args : cli_args) (s : rstate World) (suite : loc) (d : suite_def World) :
  st_modules s !! (a_suite args +:+ "_suite") = Some suite ->
  st_heap s !! suite = Some (OSuite d) ->
  main args s
  = (let* _ := run_suite suite (Some (fresh (dom (st_heap s)))) in ret 0)
      (main_state args suite d s) /\
  st_heap (main_state args suite d s) !! suite
    = Some (OSuite (override_iterations (a_iterations args) d)) /\
  options_at (Some (fresh (dom (st_heap s)))) (main_state args suite d s)
    = Some (cli_options args).
Proof.
  intros Hmod Hsuite.
  set (ol := fresh (dom (st_heap s))).
  assert (Hol : st_heap s !! ol = None) by (apply not_elem_of_dom, is_fresh).
  assert (Hne : ol <> suite) by (intros ->; rewrite Hsuite in Hol; discriminate).
  set (s1 := set_heap (<[ol := OOptions (cli_options args)]> (st_heap s)) s).
  set (d' := override_iterations (a_iterations args) d).
  assert (Hs1 : st_heap s1 !! suite = Some (OSuite d)).
  { unfold s1. cbn [set_heap st_heap]. rewrite lookup_insert_ne by exact Hne. exact Hsuite. }
  assert (Hs2 : main_state args suite d s = set_heap (<[suite := OSuite d']> (st_heap s1)) s1)
    by reflexivity.
  split; [| split].
  - assert (Hid : d' = d -> s1 = main_state args suite d s).
    { intros Hd. rewrite Hs2, Hd, insert_id by exact Hs1. destruct s1; reflexivity. }
    unfold main. unfold bind at 1. unfold lookup_module at 1. rewrite Hmod.
    unfold bind at 1. unfold alloc at 1. fold ol. fold s1.
    assert (Hover :
      (let* _ := match a_iterations args with
                 | Some n =>
                     if n =? 0 then ret tt
                     else let* d0 := deref_suite suite in
                          store suite (OSuite (override_iterations (Some n) d0))
                 | None => ret tt
                 end in
       let* _ := run_suite suite (Some ol) in ret 0) s1
      = (let* _ := run_suite suite (Some ol) in ret 0) (main_state args suite d s)).
    { unfold d' in *. destruct (a_iterations args) as [n|].
      - cbn [override_iterations] in *. destruct (n =? 0) eqn:Hn.
        + rewrite bind_ret_l_run, <- (Hid eq_refl). reflexivity.
        + unfold bind at 1. unfold bind at 1. unfold deref_suite at 1. rewrite Hs1.
          unfold store. cbn [app]. rewrite Hs2.
          destruct ((let* _ := run_suite suite (Some ol) in ret 0) _) as [[r s3] t3].
          reflexivity.
      - rewrite bind_ret_l_run, <- (Hid eq_refl). reflexivity. }
    rewrite Hover.
    destruct ((let* _ := run_suite suite (Some ol) in ret 0) _) as [[r s3] t3].
    reflexivity.
  - rewrite Hs2. cbn [set_heap st_heap]. apply lookup_insert_eq.
  - unfold options_at. rewrite Hs2. unfold s1. cbn [set_heap st_heap].
    rewrite lookup_insert_ne by (intros Heq; apply Hne; symmetry; exact Heq).
    rewrite lookup_insert_eq. reflexivity.
Qed.

Lemma run_entry_save_individual_no_cleanup (suite_name : string) (options : run_options)
    (b : benchmark World) (s : rstate World) :
  get_bool false (opt_save_individual options) = true ->
  cleanup_calls (trace (run_entry suite_name options b s)) = [].
Proof.
  intros Hsave. rewrite run_entry_trace, run_entry_try_trace.
  destruct (out (run_setup b s)) as [ctx|e]; [| apply run_setup_trace].
  cbv zeta.
  destruct (out (run_benchmark _ _ _ _ _)) as [result|e] eqn:Hrun.
  - apply run_benchmark_Ok in Hrun as [Hnone _].
    cbn [suite_bench_options bo_save_file] in Hnone. rewrite Hsave in Hnone.
    rewrite truthy_string_nonempty in Hnone by apply individual_file_name_nonempty.
    discriminate.
  - rewrite app_nil_r, cleanup_calls_app, (proj1 (run_setup_trace b s)).
    apply (bench_event_no_cleanup _ _ (all_events_run_benchmark _ _ _ _ _)).
Qed.

Lemma run_entries_save_individual (suite_name : string) (options : run_options)
    (bs : list (benchmark World)) (s : rstate World) :
  get_bool false (opt_save_individual options) = true ->
  exists entries,
    out (run_entries suite_name options bs s) = Ok entries /\
    Forall2 (fun b entry => is_failure_entry entry /\
                            dict_get entry "name" = Some (PyStr (b_name b))) bs entries /\
    cleanup_calls (trace (run_entries suite_name options bs s)) = [].
Proof.
  intros Hsave. revert s. induction bs as [|b bs IH]; intros s; cbn [run_entries].
  - exists []. repeat split; constructor.
  - destruct (IH (final (run_entry suite_name options b s))) as (entries & Hout & Hall & Hcl).
    exists (entry_of (run_entry suite_name options b s) :: entries).
    rewrite run_bind, run_entry_Ok. cbn [out trace fst snd].
    rewrite run_bind, Hout. cbn [ret out final trace fst snd].
    split; [reflexivity | split].
    + constructor; [| exact Hall]. split.
      * apply save_individual_every_entry_fails. exact Hsave.
      * apply run_entry_shape.
    + rewrite app_nil_r, cleanup_calls_app, Hcl, app_nil_r.
      apply run_entry_save_individual_no_cleanup. exact Hsave.
Qed.

(** X13. A command-line run always asks for individual files, and saving one
    raises.  So whenever the suite module is found, the report that [main]
    writes -- to the [--save] name, or to [{suite}_python.json] -- lists
    every benchmark of the suite as failed, and no cleanup has been
    called. *)
Theorem main_reports_every_benchmark_failed (args : cli_args) (s : rstate World)
    (suite : loc) (d : suite_def World) :
  st_modules s !! (a_suite args +:+ "_suite") = Some suite ->
  st_heap s !! suite = Some (OSuite d) ->
  exists (results : pydict) (entries : list pydict),
    st_files (final (main args s)) !! report_file args
      = Some (FileJson (PyDict results) (Some 2)) /\
    dict_get results "benchmarks" = Some (PyList (map PyDict entries)) /\
    Forall2 (fun b entry => is_failure_entry entry /\
                            dict_get entry "name" = Some (PyStr (b_name b)))
            (s_benchmarks d) entries /\
    cleanup_calls (trace (main args s)) = [].
Proof.
  intros Hmod Hsuite.
  destruct (main_found args s suite d Hmod Hsuite) as (-> & Hs & Ho).
  set (s2 := main_state args suite d s) in *.
  set (d' := override_iterations (a_iterations args) d) in *.
  assert (Hfile : truthy_string (opt_save_file (cli_options args)) = Some (report_file args)).
  { cbn [cli_options opt_save_file]. apply truthy_string_nonempty.
    unfold report_file. destruct (truthy_string (a_save args)) as [f|] eqn:Hf; cbn [default from_option id].
    - unfold truthy_string in Hf. destruct (a_save args) as [x|]; [| discriminate].
      destruct (String.eqb x "") eqn:Hx; [discriminate |].
      injection Hf as <-. intros Heq. rewrite Heq in Hx. discriminate Hx.
    - apply append_nonempty_r. discriminate. }
  destruct (run_entries_save_individual (s_name d') (cli_options args) (s_benchmarks d')
              (loop_start s2) eq_refl) as (entries & Hout & Hall & Hcl).
  exists (suite_results d' (now_isoformat (st_world s2)).1 entries), entries.
  pose proof (run_suite_run suite _ s2 d' _ Hs Ho) as Hrun.
  assert (Hnames : Forall2 (fun b entry => is_failure_entry entry /\
                              dict_get entry "name" = Some (PyStr (b_name b)))
                     (s_benchmarks d) entries).
  { destruct (override_iterations_fields (a_iterations args) d) as (_ & _ & Hfields).
    fold d' in Hfields.
    apply Forall2_same_length_lookup. split.
    - rewrite (Forall2_length _ _ _ Hfields). apply (Forall2_length _ _ _ Hall).
    - intros i b entry Hb Hentry.
      destruct (Forall2_lookup_l _ _ _ _ _ Hfields Hb) as (b' & Hb' & Hname & _).
      pose proof (Forall2_lookup_lr _ _ _ _ _ _ Hall Hb' Hentry) as [Hfail Hget].
      rewrite Hname in Hget. split; assumption. }
  split; [| split; [reflexivity | split; [exact Hnames |]]].
  - rewrite final_bind, (run_suite_out suite _ _ _ _ Hs Ho). cbn [ret final fst snd].
    rewrite Hrun, final_bind, Hout, Hfile.
    cbn [ret open_w json_dump write_json bind out final fst snd set_files st_files].
    apply lookup_insert_eq.
  - rewrite trace_bind, (run_suite_out suite _ _ _ _ Hs Ho). cbn [ret trace snd].
    rewrite app_nil_r, Hrun, trace_bind, Hout, cleanup_calls_app, Hcl, Hfile.
    reflexivity.
Qed.

End SuiteExtras.

(** ** File names of individual results *)

Lemma normalised_char (c : Ascii.ascii) :
  (Ascii.nat_of_ascii c < 128)%nat ->
  let c' := ascii_lower (space_to_underscore c) in
  (c = " "%char -> c' = "_"%char) /\
  ((65 <= Ascii.nat_of_ascii c <= 90)%nat ->
   Ascii.nat_of_ascii c' = (Ascii.nat_of_ascii c + 32)%nat) /\
  (c <> " "%char -> ~ (65 <= Ascii.nat_of_ascii c <= 90)%nat -> c' = c) /\
  c' <> " "%char /\ ~ (65 <= Ascii.nat_of_ascii c' <= 90)%nat /\
  (Ascii.nat_of_ascii c' < 128)%nat.
Proof.
  destruct c as [[] [] [] [] [] [] [] []]; vm_compute; intros Hc;
    repeat split; intros; try reflexivity; try discriminate; try lia; try congruence.
Qed.

(** X19. For a benchmark name of ASCII characters, the name of an
    individual result file is the suite name, unchanged, an underscore, a
    body and [.json], where the body is the benchmark name character by
    character: a space has become an underscore, an upper-case letter its
    lower-case letter (its code plus 32), every other character is kept;
    so the body is ASCII again and holds no space and no upper-case
    letter. *)
Theorem individual_file_name_normalised (suite_name name : string) :
  Forall (fun c => (Ascii.nat_of_ascii c < 128)%nat) (list_ascii_of_string name) ->
  exists body,
    individual_file_name suite_name name = suite_name +:+ "_" +:+ body +:+ ".json" /\
    Forall2 (fun c c' =>
               (c = " "%char -> c' = "_"%char) /\
               ((65 <= Ascii.nat_of_ascii c <= 90)%nat ->
                Ascii.nat_of_ascii c' = (Ascii.nat_of_ascii c + 32)%nat) /\
               (c <> " "%char -> ~ (65 <= Ascii.nat_of_ascii c <= 90)%nat -> c' = c))
            (list_ascii_of_string name) (list_ascii_of_string body) /\
    Forall (fun c' => c' <> " "%char /\ ~ (65 <= Ascii.nat_of_ascii c' <= 90)%nat /\
                      (Ascii.nat_of_ascii c' < 128)%nat)
           (list_ascii_of_string body).
Proof.
  intros Hascii.
  exists (string_map ascii_lower (string_map space_to_underscore name)).
  split; [reflexivity |].
  induction name as [|c name IH]; cbn [string_map list_ascii_of_string] in *.
  - split; constructor.
  - apply Forall_cons in Hascii as [Hc Hascii].
    destruct (IH Hascii) as [IH2 IHall].
    destruct (normalised_char c Hc) as (H1 & H2 & H3 & H4 & H5 & H6).
    split; constructor; auto.
Qed.

(** ** The properties on examples *)

Lemma order_statistics_are_samples_witness :
  let times := map fl [3; 1; 4; 2] in
  exists mn median p95 mx,
    stat_field (statistics (World := nat) "bench" 4 times) "min" = Some (PyFloat mn) /\
    stat_field (statistics (World := nat) "bench" 4 times) "median" = Some (PyFloat median) /\
    stat_field (statistics (World := nat) "bench" 4 times) "p95" = Some (PyFloat p95) /\
    stat_field (statistics (World := nat) "bench" 4 times) "max" = Some (PyFloat mx) /\
    mn ∈ times /\ median ∈ times /\ p95 ∈ times /\ mx ∈ times.
Proof.
  intros times.
  destruct (statistics (World := nat) "bench" 4 times) as [d|e] eqn:Hd;
    [| vm_compute in Hd; discriminate Hd].
  exact (order_statistics_are_samples (World := nat) "bench" 4 times d Hd).
Defined.

Lemma every_sample_within_min_max_witness :
  let times := map fl [3; 1; 4; 2] in
  nan_free times /\
  exists mn mx,
    stat_field (statistics (World := nat) "bench" 4 times) "min" = Some (PyFloat mn) /\
    stat_field (statistics (World := nat) "bench" 4 times) "max" = Some (PyFloat mx) /\
    forall x, x ∈ times -> fle mn x /\ fle x mx.
Proof.
  intros times.
  assert (Hnan : nan_free times) by (repeat constructor).
  split; [exact Hnan |].
  destruct (statistics (World := nat) "bench" 4 times) as [d|e] eqn:Hd;
    [| vm_compute in Hd; discriminate Hd].
  exact (every_sample_within_min_max (World := nat) "bench" times d Hnan Hd).
Defined.

Lemma median_at_most_p95_witness :
  let times := map fl [3; 1; 4; 2] in
  nan_free times /\
  exists median p95,
    stat_field (statistics (World := nat) "bench" 4 times) "median" = Some (PyFloat median) /\
    stat_field (statistics (World := nat) "bench" 4 times) "p95" = Some (PyFloat p95) /\
    fle median p95.
Proof.
  intros times.
  assert (Hnan : nan_free times) by (repeat constructor).
  split; [exact Hnan |].
  destruct (statistics (World := nat) "bench" 4 times) as [d|e] eqn:Hd;
    [| vm_compute in Hd; discriminate Hd].
  exact (median_at_most_p95 (World := nat) "bench" times d Hnan Hd).
Defined.

Lemma p95_is_max_up_to_20_samples_witness :
  let times := map fl [3; 1; 4; 2] in
  (length times <= 20)%nat /\
  exists x,
    stat_field (statistics (World := nat) "bench" 4 times) "p95" = Some (PyFloat x) /\
    stat_field (statistics (World := nat) "bench" 4 times) "max" = Some (PyFloat x).
Proof.
  intros times.
  assert (Hlen : (length times <= 20)%nat) by (cbn; lia).
  split; [exact Hlen |].
  destruct (statistics (World := nat) "bench" 4 times) as [d|e] eqn:Hd;
    [| vm_compute in Hd; discriminate Hd].
  exact (p95_is_max_up_to_20_samples (World := nat) "bench" times d Hlen Hd).
Defined.

Lemma nonpositive_iterations_raise_witness :
  run_benchmark fn_ok [] 0 callback_options (initial_state 0)
    = (Raise ZeroDivisionError, initial_state 0, []) /\
  run_benchmark fn_ok [] (-3) callback_options (initial_state 0)
    = (Raise IndexError, initial_state 0, []) /\
  run_benchmark fn_partial [] 0 callback_options (initial_state 0)
    = (Raise NoNameAttribute, initial_state 0, []).
Proof.
  split; [| split].
  - apply (nonpositive_iterations_raise fn_ok [] 0 callback_options (initial_state 0)). lia.
  - apply (nonpositive_iterations_raise fn_ok [] (-3) callback_options (initial_state 0)). lia.
  - apply (nonpositive_iterations_raise fn_partial [] 0 callback_options (initial_state 0)). lia.
Defined.

Lemma failing_call_ends_the_benchmark_witness :
  let r := run_entry "entity" no_options bench_failing (initial_state 0) in
  trace r !! 1%nat = Some (mk_event RMeasure [PyStr "ctx"] (Raise boom)) /\
  2%nat = length (trace r) /\
  out r = Ok (failure_entry "Get Entity" boom).
Proof.
  intros r.
  assert (H1 : trace r !! 1%nat = Some (mk_event RMeasure [PyStr "ctx"] (Raise boom)))
    by reflexivity.
  split; [exact H1 |].
  exact (failing_call_ends_the_benchmark "entity" no_options bench_failing (initial_state 0)
           1 (mk_event RMeasure [PyStr "ctx"] (Raise boom)) boom H1 eq_refl).
Defined.

Lemma callback_sees_every_sample_witness :
  let r := run_benchmark fn_ok [] 3 callback_options (initial_state 0) in
  bo_on_iteration callback_options = Some cb_ok /\
  is_ok (out r) = true /\
  exists (times : list py_float) (results : list pyval),
    length times = 3%nat /\ length results = 3%nat /\
    map ev_result (measured_calls (trace r)) = map Ok results /\
    map ev_args (callback_calls (trace r))
      = zip_with callback_args [0; 1; 2] (zip times results).
Proof.
  intros r. split; [reflexivity |].
  destruct (out r) as [d|e] eqn:Hd; [| vm_compute in Hd; discriminate Hd].
  split; [reflexivity |].
  destruct (callback_sees_every_sample fn_ok [] 3 callback_options (initial_state 0)
              cb_ok d eq_refl Hd)
    as (times & results & name & stats & ts & Hlen & Hres & _ & _ & _ & Hm & Hc).
  exists times, results.
  split; [exact Hlen | split; [exact Hres | split; [exact Hm | exact Hc]]].
Defined.

Lemma operation_call_counts_witness :
  map ev_role (operation_calls (trace (run_benchmark fn_ok [] 25 callback_options
                                         (initial_state 0))))
  = replicate 2 RWarmup ++ replicate 25 RMeasure.
Proof.
  apply (operation_call_counts fn_ok [] 25 callback_options (initial_state 0)).
  - intros args w. reflexivity.
  - intros cb [= <-] args w. reflexivity.
Defined.

Lemma healthy_benchmark_succeeds_witness :
  (let entry := entry_of (run_entry "entity" no_options bench_passing (initial_state 0)) in
   is_success_entry entry /\
   dict_get entry "name" = Some (PyStr "Create Entity") /\
   dict_get entry "iterations" = Some (PyInt 5)) /\
  (out (run_entry "entity" no_options bench_partial (initial_state 0))
     = Ok (failure_entry "Create Entity" NoNameAttribute) /\
   cleanup_calls (trace (run_entry "entity" no_options bench_partial (initial_state 0))) = []).
Proof.
  split.
  - destruct (healthy_benchmark_succeeds "entity" no_options bench_passing (initial_state 0))
      as [Hnamed _].
    + intros c [= <-] args w. reflexivity.
    + intros args w. reflexivity.
    + intros c [= <-] args w. reflexivity.
    + cbn. lia.
    + reflexivity.
    + exact (Hnamed "bench_ok" eq_refl).
  - destruct (healthy_benchmark_succeeds "entity" no_options bench_partial (initial_state 0))
      as [_ Hnameless].
    + intros c [= <-] args w. reflexivity.
    + intros args w. reflexivity.
    + intros c [= <-] args w. reflexivity.
    + cbn. lia.
    + reflexivity.
    + exact (Hnameless NoNameAttribute eq_refl).
Defined.

Lemma cleanup_failure_discards_result_witness :
  let run := run_benchmark fn_ok [PyStr "ctx"] 5
               (suite_bench_options "entity" no_options bench_bad_cleanup)
               (final (run_setup bench_bad_cleanup (initial_state 0))) in
  is_ok (out run) = true /\
  is_success_entry (entry_of run) /\
  out (run_entry "entity" no_options bench_bad_cleanup (initial_state 0))
    = Ok (failure_entry "Update Entity" boom).
Proof.
  intros run. unfold entry_of.
  destruct (out run) as [d|e] eqn:Hd; [| vm_compute in Hd; discriminate Hd].
  split; [reflexivity |].
  apply (cleanup_failure_discards_result "entity" no_options bench_bad_cleanup (initial_state 0)
           cleanup_boom (PyStr "ctx") d boom).
  - reflexivity.
  - reflexivity.
  - discriminate.
  - exact Hd.
  - reflexivity.
Defined.

Lemma missing_fn_key_fails_after_setup_witness :
  let bd := relation_benchmark "Get Relations for Entity" 100 true in
  let r := run_entry_dict "Relation Operations" no_options bd (initial_state 0) in
  bd_fn bd = None /\
  bd_function bd = Some fn_ok /\
  out r = Ok (failure_entry "Get Relations for Entity" KeyErrorFn) /\
  length (setup_calls (trace r)) = 1%nat /\
  operation_calls (trace r) = [] /\
  cleanup_calls (trace r) = [].
Proof.
  intros bd r.
  destruct (missing_fn_key_fails_after_setup "Relation Operations" no_options bd
              (initial_state 0) eq_refl) as (_ & Hsetup & Hops & Hcl).
  split; [reflexivity | split; [reflexivity | split; [reflexivity |]]].
  split; [exact Hsetup | split; [exact Hops | exact Hcl]].
Defined.

Lemma suite_without_fn_measures_nothing_witness :
  let r := run_entries_dict "Relation Operations" no_options relation_suite_benchmarks
             (initial_state 0) in
  Forall (fun bd => bd_fn bd = None) relation_suite_benchmarks /\
  exists entries,
    out r = Ok entries /\
    Forall2 (fun bd entry => is_failure_entry entry /\
                             dict_get entry "name" = Some (PyStr (bd_name bd)))
            relation_suite_benchmarks entries /\
    operation_calls (trace r) = [] /\
    cleanup_calls (trace r) = [].
Proof.
  intros r.
  assert (Hall : Forall (fun bd => bd_fn bd = None) relation_suite_benchmarks)
    by (repeat constructor).
  split; [exact Hall |].
  exact (suite_without_fn_measures_nothing "Relation Operations" no_options
           relation_suite_benchmarks (initial_state 0) Hall).
Defined.

(** The relation suite, run as [relation_suite.py] runs it: seven failure
    entries with the error ['fn'], five setup calls, no other call. *)
Example relation_suite_entries :
  let r := run_entries_dict "Relation Operations" no_options relation_suite_benchmarks
             (initial_state 0) in
  out r = Ok (map (fun bd => failure_entry (bd_name bd) KeyErrorFn) relation_suite_benchmarks) /\
  map ev_role (trace r) = replicate 5 RSetup.
Proof. split; reflexivity. Qed.

Lemma suite_without_save_options_writes_nothing_witness :
  options_at None demo_state = Some no_options /\
  st_files (final (run_suite 1%positive None demo_state)) = st_files demo_state.
Proof.
  split; [reflexivity |].
  apply (suite_without_save_options_writes_nothing 1%positive None demo_state no_options);
    reflexivity.
Defined.

Lemma main_reports_every_benchmark_failed_witness :
  st_modules demo_state !! (a_suite demo_args +:+ "_suite") = Some 1%positive /\
  st_heap demo_state !! 1%positive = Some (OSuite demo_suite) /\
  report_file demo_args = "entity_python.json" /\
  exists (results : pydict) (entries : list pydict),
    st_files (final (main demo_args demo_state)) !! "entity_python.json"
      = Some (FileJson (PyDict results) (Some 2)) /\
    dict_get results "benchmarks" = Some (PyList (map PyDict entries)) /\
    Forall2 (fun b entry => is_failure_entry entry /\
                            dict_get entry "name" = Some (PyStr (b_name b)))
            [bench_passing; bench_failing; bench_passing] entries /\
    cleanup_calls (trace (main demo_args demo_state)) = [].
Proof.
  assert (H1 : st_modules demo_state !! (a_suite demo_args +:+ "_suite") = Some 1%positive)
    by reflexivity.
  assert (H2 : st_heap demo_state !! 1%positive = Some (OSuite demo_suite)) by reflexivity.
  split; [exact H1 | split; [exact H2 | split; [reflexivity |]]].
  exact (main_reports_every_benchmark_failed demo_args demo_state 1%positive demo_suite H1 H2).
Defined.

Lemma individual_file_name_normalised_witness :
  Forall (fun c => (Ascii.nat_of_ascii c < 128)%nat) (list_ascii_of_string "Get Entity") /\
  exists body,
    individual_file_name "entity" "Get Entity" = "entity" +:+ "_" +:+ body +:+ ".json" /\
    Forall2 (fun c c' =>
               (c = " "%char -> c' = "_"%char) /\
               ((65 <= Ascii.nat_of_ascii c <= 90)%nat ->
                Ascii.nat_of_ascii c' = (Ascii.nat_of_ascii c + 32)%nat) /\
               (c <> " "%char -> ~ (65 <= Ascii.nat_of_ascii c <= 90)%nat -> c' = c))
            (list_ascii_of_string "Get Entity") (list_ascii_of_string body) /\
    Forall (fun c' => c' <> " "%char /\ ~ (65 <= Ascii.nat_of_ascii c' <= 90)%nat /\
                      (Ascii.nat_of_ascii c' < 128)%nat)
           (list_ascii_of_string body).
Proof.
  assert (Hascii : Forall (fun c => (Ascii.nat_of_ascii c < 128)%nat)
                     (list_ascii_of_string "Get Entity"))
    by (cbn [list_ascii_of_string]; repeat (constructor; [vm_compute; lia |]); constructor).
  split; [exact Hascii |].
  apply (individual_file_name_normalised "entity" "Get Entity" Hascii).
Defined.
